(** * BillMaster Pro: access control, login and invoice handling

    A shallow embedding of the Express handlers of [server/routes.ts], the
    flat-file store of [server/storage.ts], the zod schemas of
    [shared/schema.ts], the token service of [server/services/auth.ts] and the
    client-side form and report computations, with the properties the
    specification states about them.

    Conventions.
    - A request body is the value [express.json()] produced: a [json] tree.
      JavaScript's [undefined] is [None]. A JSON number is carried as the
      exact rational ([Q]) of its literal: the server stores and compares
      amounts and only adds them up for the dashboard. Where the reports page
      computes with them (the sums of a row, the quotient, the product and
      [toFixed] of the collection rate) the numbers are IEEE 754 doubles:
      module [Double], over the Standard Library's [SpecFloat].
    - The eight JSON files of [server/data] are the fields of [DataDir]; a
      missing or unreadable file reads as the empty array, as [readFile] does.
    - [bcryptjs], [jsonwebtoken], [crypto.randomUUID], [Date] and zod's e-mail
      pattern are libraries outside the repository: they are the interfaces
      [Bcrypt], [Jwt] and [Runtime]. *)

From Stdlib Require Import String Ascii List Bool ZArith QArith Qround Qabs Lia Lqa.
From Stdlib Require Import DecimalString DecimalZ.
From Stdlib Require Import Floats.SpecFloat.
Import ListNotations.
Local Open Scope string_scope.

Set Implicit Arguments.
Set Warnings "-register-all".

(** ** JSON values and JavaScript's view of them *)

Inductive json : Type :=
| JNull
| JBool (b : bool)
| JNum (q : Q)
| JStr (s : string)
| JArr (l : list json)
| JObj (fields : list (string * json)).

Fixpoint assoc {A : Type} (k : string) (l : list (string * A)) : option A :=
  match l with
  | [] => None
  | (k', v) :: rest => if String.eqb k k' then Some v else assoc k rest
  end.

(** [v.k]: property read; anything but an object has no own data property of
    the names used here. *)
Definition prop (k : string) (v : json) : option json :=
  match v with
  | JObj fields => assoc k fields
  | _ => None
  end.

(** JavaScript truthiness of a possibly-undefined value. *)
Definition truthy (v : option json) : bool :=
  match v with
  | None => false
  | Some JNull => false
  | Some (JBool b) => b
  | Some (JNum q) => negb (Qeq_bool q 0)
  | Some (JStr s) => negb (String.eqb s "")
  | Some (JArr _) => true
  | Some (JObj _) => true
  end.

(** [a || b] on possibly-undefined values. *)
Definition js_or (a b : option json) : option json :=
  if truthy a then a else b.

(** [v !== s] for a value [v] and a string [s]. *)
Definition strict_neq_str (v : option json) (s : string) : bool :=
  match v with
  | Some (JStr s') => negb (String.eqb s' s)
  | _ => true
  end.

(** ** zod combinators

    [parse] throws on failure; a thrown error is [None]. *)

Module Zod.

Definition bind {A B : Type} (x : option A) (f : A -> option B) : option B :=
  match x with
  | Some a => f a
  | None => None
  end.

Definition string (v : option json) : option String.string :=
  match v with
  | Some (JStr s) => Some s
  | _ => None
  end.

Definition number (v : option json) : option Q :=
  match v with
  | Some (JNum q) => Some q
  | _ => None
  end.

Definition boolean (v : option json) : option bool :=
  match v with
  | Some (JBool b) => Some b
  | _ => None
  end.

(** [inner.optional()]: [undefined] is accepted and stays [undefined]. *)
Definition optional {A : Type} (inner : option json -> option A)
    (v : option json) : option (option A) :=
  match v with
  | None => Some None
  | Some _ => bind (inner v) (fun a => Some (Some a))
  end.

(** [inner.default(d)]. *)
Definition default {A : Type} (inner : option json -> option A) (d : A)
    (v : option json) : option A :=
  match v with
  | None => Some d
  | Some _ => inner v
  end.

(** [z.string().min(n)]. *)
Definition string_min (n : nat) (v : option json) : option String.string :=
  bind (string v) (fun s => if Nat.leb n (String.length s) then Some s else None).

(** [z.number().min(m)]. *)
Definition number_min (m : Q) (v : option json) : option Q :=
  bind (number v) (fun q => if Qle_bool m q then Some q else None).

(** [z.object({...})] rejects what is not an object (an array included). *)
Definition is_object (v : json) : bool :=
  match v with
  | JObj _ => true
  | _ => false
  end.

(** [z.array(inner)]. *)
Fixpoint all {A : Type} (inner : json -> option A) (l : list json)
    : option (list A) :=
  match l with
  | [] => Some []
  | x :: rest =>
      bind (inner x) (fun a => bind (all inner rest) (fun r => Some (a :: r)))
  end.

Definition array {A : Type} (inner : json -> option A) (v : option json)
    : option (list A) :=
  match v with
  | Some (JArr l) => all inner l
  | _ => None
  end.

(** [z.array(inner).min(n)]. *)
Definition array_min {A : Type} (n : nat) (inner : json -> option A)
    (v : option json) : option (list A) :=
  bind (array inner v) (fun l => if Nat.leb n (List.length l) then Some l else None).

End Zod.

Notation "x <- e ;; k" := (Zod.bind e (fun x => k))
  (at level 61, e at next level, right associativity).

(** ** External libraries *)

(** [bcryptjs]. *)
Class Bcrypt : Type := {
  bcrypt_hash : string -> nat -> string;
  bcrypt_compare : string -> string -> bool
}.

(** The payload of a session token. *)
Module JWTPayload.
Record t : Type := mk {
  userId : string;
  companyId : string;
  roleId : string;
  email : string
}.
End JWTPayload.

(** [jsonwebtoken]: [jwt_sign p secret lifetime now] and
    [jwt_verify token secret now] ([None] when [verify] throws); times are in
    seconds. *)
Class Jwt : Type := {
  jwt_sign : JWTPayload.t -> string -> Z -> Z -> string;
  jwt_verify : string -> string -> Z -> option JWTPayload.t
}.

(** What the library promises: a token verifies to its payload under the
    signing secret while it has not expired, and no longer from its expiry
    on. *)
Definition Jwt_lawful (J : Jwt) : Prop :=
  (forall p secret lifetime iat now,
      (iat <= now < iat + lifetime)%Z ->
      jwt_verify (jwt_sign p secret lifetime iat) secret now = Some p)
  /\ (forall p secret lifetime iat now,
        (iat + lifetime <= now)%Z ->
        jwt_verify (jwt_sign p secret lifetime iat) secret now = None).

(** [crypto.randomUUID] (the [n]-th draw), [Date#toISOString], the pattern
    behind [z.string().email()] and [process.env.SESSION_SECRET]. *)
Class Runtime : Type := {
  randomUUID : nat -> string;
  toISOString : Z -> string;
  isEmail : string -> bool;
  SESSION_SECRET : option string
}.

(** ** The data model of [shared/schema.ts] *)

Module Company.
Record t : Type := mk {
  id : string;
  name : string;
  slug : string;
  logoUrl : option string;
  address : option string;
  phone : option string;
  email : option string;
  website : option string;
  createdAt : string;
  updatedAt : string;
  isActive : bool
}.
End Company.

Module Role.
Record t : Type := mk {
  id : string;
  name : string;
  description : option string
}.
End Role.

Module Permission.
Record t : Type := mk {
  id : string;
  roleId : string;
  module : string;
  canCreate : bool;
  canRead : bool;
  canUpdate : bool;
  canDelete : bool
}.
End Permission.

Module User.
Record t : Type := mk {
  id : string;
  companyId : string;
  roleId : string;
  email : string;
  password : string;
  name : string;
  isActive : bool;
  createdAt : string;
  updatedAt : string
}.
End User.

Module InsertUser.
Record t : Type := mk {
  companyId : string;
  roleId : string;
  email : string;
  password : string;
  name : string;
  isActive : bool
}.

(** [userData.password = h]. *)
Definition set_password (h : string) (u : t) : t :=
  mk (companyId u) (roleId u) (email u) h (name u) (isActive u).

(** [userData.companyId = c]. *)
Definition set_companyId (c : string) (u : t) : t :=
  mk c (roleId u) (email u) (password u) (name u) (isActive u).
End InsertUser.

(** [Partial<InsertUser>]: an absent key is [None]. *)
Module PartialInsertUser.
Record t : Type := mk {
  companyId : option string;
  roleId : option string;
  email : option string;
  password : option string;
  name : option string;
  isActive : option bool
}.
End PartialInsertUser.

Module Product.
Record t : Type := mk {
  id : string;
  companyId : string;
  name : string;
  description : option string;
  price : Q;
  unit : option string;
  category : option string;
  taxRate : Q;
  isActive : bool;
  createdAt : string;
  updatedAt : string
}.
End Product.

Module InsertProduct.
Record t : Type := mk {
  companyId : string;
  name : string;
  description : option string;
  price : Q;
  unit : option string;
  category : option string;
  taxRate : Q;
  isActive : bool
}.

(** [productData.companyId = c]. *)
Definition set_companyId (c : string) (p : t) : t :=
  mk c (name p) (description p) (price p) (unit p) (category p)
     (taxRate p) (isActive p).
End InsertProduct.

(** [Partial<InsertProduct>]. *)
Module PartialInsertProduct.
Record t : Type := mk {
  companyId : option string;
  name : option string;
  description : option string;
  price : option Q;
  unit : option string;
  category : option string;
  taxRate : option Q;
  isActive : option bool
}.
End PartialInsertProduct.

Module Customer.
Record t : Type := mk {
  id : string;
  companyId : string;
  name : string;
  email : string;
  phone : option string;
  address : option string;
  taxId : option string;
  isActive : bool;
  createdAt : string;
  updatedAt : string
}.
End Customer.

Module InsertCustomer.
Record t : Type := mk {
  companyId : string;
  name : string;
  email : string;
  phone : option string;
  address : option string;
  taxId : option string;
  isActive : bool
}.

(** [customerData.companyId = c]. *)
Definition set_companyId (c : string) (x : t) : t :=
  mk c (name x) (email x) (phone x) (address x) (taxId x) (isActive x).
End InsertCustomer.

(** [z.enum(['pending', 'paid', 'overdue', 'cancelled'])]. *)
Inductive Status : Type := pending | paid | overdue | cancelled.

Definition Status_eqb (a b : Status) : bool :=
match a, b with
| pending, pending | paid, paid | overdue, overdue | cancelled, cancelled => true
| _, _ => false
end.

Module Invoice.
Record t : Type := mk {
  id : string;
  companyId : string;
  customerId : string;
  invoiceNumber : string;
  date : string;
  dueDate : string;
  subtotal : Q;
  tax : Q;
  total : Q;
  status : Status;
  notes : option string;
  createdAt : string;
  updatedAt : string
}.
End Invoice.

Module InsertInvoice.
Record t : Type := mk {
  companyId : string;
  customerId : string;
  invoiceNumber : string;
  date : string;
  dueDate : string;
  subtotal : Q;
  tax : Q;
  total : Q;
  status : Status;
  notes : option string
}.

(** [validatedInvoice.companyId = c]. *)
Definition set_companyId (c : string) (i : t) : t :=
  mk c (customerId i) (invoiceNumber i) (date i) (dueDate i) (subtotal i)
     (tax i) (total i) (status i) (notes i).
End InsertInvoice.

(** [Partial<InsertInvoice>]. *)
Module PartialInsertInvoice.
Record t : Type := mk {
  companyId : option string;
  customerId : option string;
  invoiceNumber : option string;
  date : option string;
  dueDate : option string;
  subtotal : option Q;
  tax : option Q;
  total : option Q;
  status : option Status;
  notes : option string
}.
End PartialInsertInvoice.

Module InvoiceItem.
Record t : Type := mk {
  id : string;
  invoiceId : string;
  productId : string;
  description : string;
  quantity : Q;
  unitPrice : Q;
  total : Q
}.
End InvoiceItem.

Module InsertInvoiceItem.
Record t : Type := mk {
  invoiceId : string;
  productId : string;
  description : string;
  quantity : Q;
  unitPrice : Q;
  total : Q
}.
End InsertInvoiceItem.

(** [UserWithRole = User & { role; company; permissions }]. *)
Module UserWithRole.
Record t : Type := mk {
  user : User.t;
  role : Role.t;
  company : Company.t;
  permissions : list Permission.t
}.
End UserWithRole.

(** [InvoiceWithDetails]; [product] is [undefined] when the item's product is
  gone (the source asserts it with [!]). *)
Module InvoiceWithDetails.
Record t : Type := mk {
  invoice : Invoice.t;
  customer : Customer.t;
  items : list (InvoiceItem.t * option Product.t);
  company : Company.t
}.
End InvoiceWithDetails.

(** [DashboardStats]. *)
Module DashboardStats.
Record t : Type := mk {
  totalRevenue : Q;
  activeCustomers : nat;
  pendingInvoices : nat;
  productsSold : Q
}.
End DashboardStats.

(** ** The schemas of [shared/schema.ts] as parsers *)

Section Schemas.
Context {RT : Runtime}.

(** [z.string().email()]. *)
Definition zEmail (v : option json) : option string :=
  s <- Zod.string v ;; if isEmail s then Some s else None.

Definition zStatus (v : option json) : option Status :=
  s <- Zod.string v ;;
  if String.eqb s "pending" then Some pending
  else if String.eqb s "paid" then Some paid
  else if String.eqb s "overdue" then Some overdue
  else if String.eqb s "cancelled" then Some cancelled
  else None.

Definition loginSchema (b : json) : option (string * string) :=
  email <- zEmail (prop "email" b) ;;
  password <- Zod.string_min 1 (prop "password" b) ;;
  Some (email, password).

Definition insertUserSchema (b : json) : option InsertUser.t :=
  companyId <- Zod.string (prop "companyId" b) ;;
  roleId <- Zod.string (prop "roleId" b) ;;
  email <- zEmail (prop "email" b) ;;
  password <- Zod.string (prop "password" b) ;;
  name <- Zod.string (prop "name" b) ;;
  isActive <- Zod.boolean (prop "isActive" b) ;;
  Some (InsertUser.mk companyId roleId email password name isActive).

Definition insertProductSchema (b : json) : option InsertProduct.t :=
  companyId <- Zod.string (prop "companyId" b) ;;
  name <- Zod.string (prop "name" b) ;;
  description <- Zod.optional Zod.string (prop "description" b) ;;
  price <- Zod.number (prop "price" b) ;;
  unit <- Zod.optional Zod.string (prop "unit" b) ;;
  category <- Zod.optional Zod.string (prop "category" b) ;;
  taxRate <- Zod.default Zod.number 0 (prop "taxRate" b) ;;
  isActive <- Zod.boolean (prop "isActive" b) ;;
  Some (InsertProduct.mk companyId name description price unit category
          taxRate isActive).

(** [insertProductSchema.partial()]: every key optional; the default of
    [taxRate] no longer applies, an absent key stays absent. *)
Definition insertProductSchema_partial (b : json)
    : option PartialInsertProduct.t :=
  if negb (Zod.is_object b) then None else
  companyId <- Zod.optional Zod.string (prop "companyId" b) ;;
  name <- Zod.optional Zod.string (prop "name" b) ;;
  description <- Zod.optional Zod.string (prop "description" b) ;;
  price <- Zod.optional Zod.number (prop "price" b) ;;
  unit <- Zod.optional Zod.string (prop "unit" b) ;;
  category <- Zod.optional Zod.string (prop "category" b) ;;
  taxRate <- Zod.optional Zod.number (prop "taxRate" b) ;;
  isActive <- Zod.optional Zod.boolean (prop "isActive" b) ;;
  Some (PartialInsertProduct.mk companyId name description price unit
          category taxRate isActive).

Definition insertCustomerSchema (b : json) : option InsertCustomer.t :=
  companyId <- Zod.string (prop "companyId" b) ;;
  name <- Zod.string (prop "name" b) ;;
  email <- zEmail (prop "email" b) ;;
  phone <- Zod.optional Zod.string (prop "phone" b) ;;
  address <- Zod.optional Zod.string (prop "address" b) ;;
  taxId <- Zod.optional Zod.string (prop "taxId" b) ;;
  isActive <- Zod.boolean (prop "isActive" b) ;;
  Some (InsertCustomer.mk companyId name email phone address taxId isActive).

Definition insertInvoiceSchema (b : json) : option InsertInvoice.t :=
  companyId <- Zod.string (prop "companyId" b) ;;
  customerId <- Zod.string (prop "customerId" b) ;;
  invoiceNumber <- Zod.string (prop "invoiceNumber" b) ;;
  date <- Zod.string (prop "date" b) ;;
  dueDate <- Zod.string (prop "dueDate" b) ;;
  subtotal <- Zod.number (prop "subtotal" b) ;;
  tax <- Zod.number (prop "tax" b) ;;
  total <- Zod.number (prop "total" b) ;;
  status <- zStatus (prop "status" b) ;;
  notes <- Zod.optional Zod.string (prop "notes" b) ;;
  Some (InsertInvoice.mk companyId customerId invoiceNumber date dueDate
          subtotal tax total status notes).

(** [insertInvoiceSchema.partial()]. *)
Definition insertInvoiceSchema_partial (b : json)
    : option PartialInsertInvoice.t :=
  if negb (Zod.is_object b) then None else
  companyId <- Zod.optional Zod.string (prop "companyId" b) ;;
  customerId <- Zod.optional Zod.string (prop "customerId" b) ;;
  invoiceNumber <- Zod.optional Zod.string (prop "invoiceNumber" b) ;;
  date <- Zod.optional Zod.string (prop "date" b) ;;
  dueDate <- Zod.optional Zod.string (prop "dueDate" b) ;;
  subtotal <- Zod.optional Zod.number (prop "subtotal" b) ;;
  tax <- Zod.optional Zod.number (prop "tax" b) ;;
  total <- Zod.optional Zod.number (prop "total" b) ;;
  status <- Zod.optional zStatus (prop "status" b) ;;
  notes <- Zod.optional Zod.string (prop "notes" b) ;;
  Some (PartialInsertInvoice.mk companyId customerId invoiceNumber date
          dueDate subtotal tax total status notes).

(** [insertInvoiceItemSchema = invoiceItemSchema.omit({ id: true })]: the
    three numbers are plain [z.number()]. *)
Definition insertInvoiceItemSchema (b : json) : option InsertInvoiceItem.t :=
  invoiceId <- Zod.string (prop "invoiceId" b) ;;
  productId <- Zod.string (prop "productId" b) ;;
  description <- Zod.string (prop "description" b) ;;
  quantity <- Zod.number (prop "quantity" b) ;;
  unitPrice <- Zod.number (prop "unitPrice" b) ;;
  total <- Zod.number (prop "total" b) ;;
  Some (InsertInvoiceItem.mk invoiceId productId description quantity
          unitPrice total).

(** [insertUserSchema.partial()]. *)
Definition insertUserSchema_partial (b : json) : option PartialInsertUser.t :=
  if negb (Zod.is_object b) then None else
  companyId <- Zod.optional Zod.string (prop "companyId" b) ;;
  roleId <- Zod.optional Zod.string (prop "roleId" b) ;;
  email <- Zod.optional zEmail (prop "email" b) ;;
  password <- Zod.optional Zod.string (prop "password" b) ;;
  name <- Zod.optional Zod.string (prop "name" b) ;;
  isActive <- Zod.optional Zod.boolean (prop "isActive" b) ;;
  Some (PartialInsertUser.mk companyId roleId email password name isActive).

End Schemas.

(** ** The flat-file store of [server/storage.ts] *)

(** The files of [server/data], each as the array [readFile] returns. *)
Record DataDir : Type := {
  companies_json : list Company.t;
  users_json : list User.t;
  roles_json : list Role.t;
  permissions_json : list Permission.t;
  products_json : list Product.t;
  customers_json : list Customer.t;
  invoices_json : list Invoice.t;
  invoice_items_json : list InvoiceItem.t
}.

(** What a request runs against: the files, the wall clock in seconds and the
    number of UUIDs drawn so far. Writes to the files always go through. *)
Record World : Type := {
  files : DataDir;
  clock : Z;
  drawn : nat
}.

Definition write_users (l : list User.t) (w : World) : World :=
  let d := files w in
  {| files := {| companies_json := companies_json d; users_json := l;
                 roles_json := roles_json d;
                 permissions_json := permissions_json d;
                 products_json := products_json d;
                 customers_json := customers_json d;
                 invoices_json := invoices_json d;
                 invoice_items_json := invoice_items_json d |};
     clock := clock w; drawn := drawn w |}.

Definition write_products (l : list Product.t) (w : World) : World :=
  let d := files w in
  {| files := {| companies_json := companies_json d; users_json := users_json d;
                 roles_json := roles_json d;
                 permissions_json := permissions_json d;
                 products_json := l;
                 customers_json := customers_json d;
                 invoices_json := invoices_json d;
                 invoice_items_json := invoice_items_json d |};
     clock := clock w; drawn := drawn w |}.

Definition write_customers (l : list Customer.t) (w : World) : World :=
  let d := files w in
  {| files := {| companies_json := companies_json d; users_json := users_json d;
                 roles_json := roles_json d;
                 permissions_json := permissions_json d;
                 products_json := products_json d;
                 customers_json := l;
                 invoices_json := invoices_json d;
                 invoice_items_json := invoice_items_json d |};
     clock := clock w; drawn := drawn w |}.

Definition write_invoices (l : list Invoice.t) (w : World) : World :=
  let d := files w in
  {| files := {| companies_json := companies_json d; users_json := users_json d;
                 roles_json := roles_json d;
                 permissions_json := permissions_json d;
                 products_json := products_json d;
                 customers_json := customers_json d;
                 invoices_json := l;
                 invoice_items_json := invoice_items_json d |};
     clock := clock w; drawn := drawn w |}.

Definition write_invoice_items (l : list InvoiceItem.t) (w : World) : World :=
  let d := files w in
  {| files := {| companies_json := companies_json d; users_json := users_json d;
                 roles_json := roles_json d;
                 permissions_json := permissions_json d;
                 products_json := products_json d;
                 customers_json := customers_json d;
                 invoices_json := invoices_json d;
                 invoice_items_json := l |};
     clock := clock w; drawn := drawn w |}.

Definition write_companies (l : list Company.t) (w : World) : World :=
  let d := files w in
  {| files := {| companies_json := l; users_json := users_json d;
                 roles_json := roles_json d;
                 permissions_json := permissions_json d;
                 products_json := products_json d;
                 customers_json := customers_json d;
                 invoices_json := invoices_json d;
                 invoice_items_json := invoice_items_json d |};
     clock := clock w; drawn := drawn w |}.

(** One more UUID has been drawn. *)
Definition draw (w : World) : World :=
  {| files := files w; clock := clock w; drawn := S (drawn w) |}.

(** [Array.prototype.findIndex]; [None] is [-1]. *)
Fixpoint findIndex {A : Type} (f : A -> bool) (l : list A) : option nat :=
  match l with
  | [] => None
  | x :: rest =>
      if f x then Some O
      else match findIndex f rest with
           | Some i => Some (S i)
           | None => None
           end
  end.

(** [l[i] = x] for an index inside the array. *)
Fixpoint assign {A : Type} (i : nat) (x : A) (l : list A) : list A :=
  match l, i with
  | [], _ => []
  | _ :: rest, O => x :: rest
  | y :: rest, S j => y :: assign j x rest
  end.

(** [{...old, ...patch}] on one key. *)
Definition spread {A : Type} (old : A) (patch : option A) : A :=
  match patch with
  | Some v => v
  | None => old
  end.

(** The same on a key whose value may be absent in [old]. *)
Definition spread_opt {A : Type} (old : option A) (patch : option A) : option A :=
  match patch with
  | Some v => Some v
  | None => old
  end.

Module Storage.
Section Storage.
Context {RT : Runtime}.

(** *** Users *)

Definition getUsers (companyId : option string) (w : World) : list User.t :=
  let users := users_json (files w) in
  match companyId with
  | Some c =>
      if String.eqb c "" then users
      else filter (fun u => String.eqb (User.companyId u) c) users
  | None => users
  end.

Definition getUser (id : string) (w : World) : option User.t :=
  find (fun u => String.eqb (User.id u) id) (getUsers None w).

Definition getUserByEmail (email : string) (w : World) : option User.t :=
  find (fun u => String.eqb (User.email u) email) (getUsers None w).

Definition getUserWithRole (id : string) (w : World) : option UserWithRole.t :=
  match getUser id w with
  | None => None
  | Some user =>
      let roles := roles_json (files w) in
      let companies := companies_json (files w) in
      let permissions := permissions_json (files w) in
      let role := find (fun r => String.eqb (Role.id r) (User.roleId user)) roles in
      let company :=
        find (fun c => String.eqb (Company.id c) (User.companyId user)) companies in
      let userPermissions :=
        filter (fun p => String.eqb (Permission.roleId p) (User.roleId user))
               permissions in
      match role, company with
      | Some role, Some company =>
          Some (UserWithRole.mk user role company userPermissions)
      | _, _ => None
      end
  end.

Definition getUserByEmailWithRole (email : string) (w : World)
    : option UserWithRole.t :=
  match getUserByEmail email w with
  | None => None
  | Some user => getUserWithRole (User.id user) w
  end.

Definition createUser (user : InsertUser.t) (w : World) : World * User.t :=
  let users := getUsers None w in
  let newUser :=
    User.mk (randomUUID (drawn w)) (InsertUser.companyId user)
            (InsertUser.roleId user) (InsertUser.email user)
            (InsertUser.password user) (InsertUser.name user)
            (InsertUser.isActive user)
            (toISOString (clock w)) (toISOString (clock w)) in
  (write_users (users ++ [newUser]) (draw w), newUser).

Definition updateUser (id : string) (user : PartialInsertUser.t) (w : World)
    : World * option User.t :=
  let users := getUsers None w in
  match findIndex (fun u => String.eqb (User.id u) id) users with
  | None => (w, None)
  | Some index =>
      match nth_error users index with
      | None => (w, None)
      | Some old =>
          let updated :=
            User.mk (User.id old)
                    (spread (User.companyId old) (PartialInsertUser.companyId user))
                    (spread (User.roleId old) (PartialInsertUser.roleId user))
                    (spread (User.email old) (PartialInsertUser.email user))
                    (spread (User.password old) (PartialInsertUser.password user))
                    (spread (User.name old) (PartialInsertUser.name user))
                    (spread (User.isActive old) (PartialInsertUser.isActive user))
                    (User.createdAt old)
                    (toISOString (clock w)) in
          (write_users (assign index updated users) w, Some updated)
      end
  end.

Definition deleteUser (id : string) (w : World) : World * bool :=
  let users := getUsers None w in
  let filtered := filter (fun u => negb (String.eqb (User.id u) id)) users in
  if Nat.eqb (List.length filtered) (List.length users) then (w, false)
  else (write_users filtered w, true).

(** *** Roles and permissions *)

Definition getPermissions (roleId : string) (w : World) : list Permission.t :=
  filter (fun p => String.eqb (Permission.roleId p) roleId)
         (permissions_json (files w)).

(** *** Products *)

Definition getProducts (companyId : string) (w : World) : list Product.t :=
  filter (fun p => String.eqb (Product.companyId p) companyId)
         (products_json (files w)).

Definition getProduct (id : string) (w : World) : option Product.t :=
  find (fun p => String.eqb (Product.id p) id) (products_json (files w)).

Definition createProduct (product : InsertProduct.t) (w : World)
    : World * Product.t :=
  let products := products_json (files w) in
  let newProduct :=
    Product.mk (randomUUID (drawn w)) (InsertProduct.companyId product)
               (InsertProduct.name product) (InsertProduct.description product)
               (InsertProduct.price product) (InsertProduct.unit product)
               (InsertProduct.category product) (InsertProduct.taxRate product)
               (InsertProduct.isActive product)
               (toISOString (clock w)) (toISOString (clock w)) in
  (write_products (products ++ [newProduct]) (draw w), newProduct).

Definition updateProduct (id : string) (product : PartialInsertProduct.t)
    (w : World) : World * option Product.t :=
  let products := products_json (files w) in
  match findIndex (fun p => String.eqb (Product.id p) id) products with
  | None => (w, None)
  | Some index =>
      match nth_error products index with
      | None => (w, None)
      | Some old =>
          let updated :=
            Product.mk (Product.id old)
              (spread (Product.companyId old) (PartialInsertProduct.companyId product))
              (spread (Product.name old) (PartialInsertProduct.name product))
              (spread_opt (Product.description old)
                          (PartialInsertProduct.description product))
              (spread (Product.price old) (PartialInsertProduct.price product))
              (spread_opt (Product.unit old) (PartialInsertProduct.unit product))
              (spread_opt (Product.category old)
                          (PartialInsertProduct.category product))
              (spread (Product.taxRate old) (PartialInsertProduct.taxRate product))
              (spread (Product.isActive old) (PartialInsertProduct.isActive product))
              (Product.createdAt old)
              (toISOString (clock w)) in
          (write_products (assign index updated products) w, Some updated)
      end
  end.

Definition deleteProduct (id : string) (w : World) : World * bool :=
  let products := products_json (files w) in
  let filtered := filter (fun p => negb (String.eqb (Product.id p) id)) products in
  if Nat.eqb (List.length filtered) (List.length products) then (w, false)
  else (write_products filtered w, true).

(** *** Customers *)

Definition getCustomers (companyId : string) (w : World) : list Customer.t :=
  filter (fun c => String.eqb (Customer.companyId c) companyId)
         (customers_json (files w)).

Definition createCustomer (customer : InsertCustomer.t) (w : World)
    : World * Customer.t :=
  let customers := customers_json (files w) in
  let newCustomer :=
    Customer.mk (randomUUID (drawn w)) (InsertCustomer.companyId customer)
                (InsertCustomer.name customer) (InsertCustomer.email customer)
                (InsertCustomer.phone customer) (InsertCustomer.address customer)
                (InsertCustomer.taxId customer) (InsertCustomer.isActive customer)
                (toISOString (clock w)) (toISOString (clock w)) in
  (write_customers (customers ++ [newCustomer]) (draw w), newCustomer).

(** *** Invoices *)

Definition getInvoices (companyId : string) (w : World) : list Invoice.t :=
  filter (fun i => String.eqb (Invoice.companyId i) companyId)
         (invoices_json (files w)).

Definition getInvoice (id : string) (w : World) : option Invoice.t :=
  find (fun i => String.eqb (Invoice.id i) id) (invoices_json (files w)).

Definition getInvoiceWithDetails (id : string) (w : World)
    : option InvoiceWithDetails.t :=
  match getInvoice id w with
  | None => None
  | Some invoice =>
      let customers := customers_json (files w) in
      let companies := companies_json (files w) in
      let items := invoice_items_json (files w) in
      let products := products_json (files w) in
      let customer :=
        find (fun c => String.eqb (Customer.id c) (Invoice.customerId invoice))
             customers in
      let company :=
        find (fun c => String.eqb (Company.id c) (Invoice.companyId invoice))
             companies in
      let invoiceItems :=
        filter (fun i => String.eqb (InvoiceItem.invoiceId i) (Invoice.id invoice))
               items in
      match customer, company with
      | Some customer, Some company =>
          let itemsWithProducts :=
            map (fun item =>
                   (item,
                    find (fun p => String.eqb (Product.id p)
                                     (InvoiceItem.productId item)) products))
                invoiceItems in
          Some (InvoiceWithDetails.mk invoice customer itemsWithProducts company)
      | _, _ => None
      end
  end.

(** [items.map(item => ({...item, id: randomUUID(), invoiceId}))], the first
    item taking draw number [n]. *)
Fixpoint newItems (invoiceId : string) (n : nat)
    (items : list InsertInvoiceItem.t) : list InvoiceItem.t :=
  match items with
  | [] => []
  | item :: rest =>
      InvoiceItem.mk (randomUUID n) invoiceId
                     (InsertInvoiceItem.productId item)
                     (InsertInvoiceItem.description item)
                     (InsertInvoiceItem.quantity item)
                     (InsertInvoiceItem.unitPrice item)
                     (InsertInvoiceItem.total item)
      :: newItems invoiceId (S n) rest
  end.

Definition createInvoice (invoice : InsertInvoice.t)
    (items : list InsertInvoiceItem.t) (w : World) : World * Invoice.t :=
  let invoices := invoices_json (files w) in
  let invoiceItems := invoice_items_json (files w) in
  let newInvoice :=
    Invoice.mk (randomUUID (drawn w)) (InsertInvoice.companyId invoice)
               (InsertInvoice.customerId invoice)
               (InsertInvoice.invoiceNumber invoice)
               (InsertInvoice.date invoice) (InsertInvoice.dueDate invoice)
               (InsertInvoice.subtotal invoice) (InsertInvoice.tax invoice)
               (InsertInvoice.total invoice) (InsertInvoice.status invoice)
               (InsertInvoice.notes invoice)
               (toISOString (clock w)) (toISOString (clock w)) in
  let added := newItems (Invoice.id newInvoice) (S (drawn w)) items in
  let w1 := write_invoices (invoices ++ [newInvoice]) w in
  let w2 := write_invoice_items (invoiceItems ++ added) w1 in
  ({| files := files w2; clock := clock w2;
      drawn := S (drawn w) + List.length items |}, newInvoice).

Definition updateInvoice (id : string) (invoice : PartialInsertInvoice.t)
    (w : World) : World * option Invoice.t :=
  let invoices := invoices_json (files w) in
  match findIndex (fun i => String.eqb (Invoice.id i) id) invoices with
  | None => (w, None)
  | Some index =>
      match nth_error invoices index with
      | None => (w, None)
      | Some old =>
          let updated :=
            Invoice.mk (Invoice.id old)
              (spread (Invoice.companyId old) (PartialInsertInvoice.companyId invoice))
              (spread (Invoice.customerId old) (PartialInsertInvoice.customerId invoice))
              (spread (Invoice.invoiceNumber old)
                      (PartialInsertInvoice.invoiceNumber invoice))
              (spread (Invoice.date old) (PartialInsertInvoice.date invoice))
              (spread (Invoice.dueDate old) (PartialInsertInvoice.dueDate invoice))
              (spread (Invoice.subtotal old) (PartialInsertInvoice.subtotal invoice))
              (spread (Invoice.tax old) (PartialInsertInvoice.tax invoice))
              (spread (Invoice.total old) (PartialInsertInvoice.total invoice))
              (spread (Invoice.status old) (PartialInsertInvoice.status invoice))
              (spread_opt (Invoice.notes old) (PartialInsertInvoice.notes invoice))
              (Invoice.createdAt old)
              (toISOString (clock w)) in
          (write_invoices (assign index updated invoices) w, Some updated)
      end
  end.

(** *** Companies, roles, and the remaining readers and deletions *)

Definition getCompanies (w : World) : list Company.t :=
  companies_json (files w).

Definition getCompany (id : string) (w : World) : option Company.t :=
  find (fun c => String.eqb (Company.id c) id) (getCompanies w).

Definition deleteCompany (id : string) (w : World) : World * bool :=
  let companies := getCompanies w in
  let filtered := filter (fun c => negb (String.eqb (Company.id c) id)) companies in
  if Nat.eqb (List.length filtered) (List.length companies) then (w, false)
  else (write_companies filtered w, true).

Definition getRoles (w : World) : list Role.t := roles_json (files w).

Definition getRole (id : string) (w : World) : option Role.t :=
  find (fun r => String.eqb (Role.id r) id) (getRoles w).

Definition getCustomer (id : string) (w : World) : option Customer.t :=
  find (fun c => String.eqb (Customer.id c) id) (customers_json (files w)).

Definition deleteCustomer (id : string) (w : World) : World * bool :=
  let customers := customers_json (files w) in
  let filtered :=
    filter (fun c => negb (String.eqb (Customer.id c) id)) customers in
  if Nat.eqb (List.length filtered) (List.length customers) then (w, false)
  else (write_customers filtered w, true).

Definition deleteInvoice (id : string) (w : World) : World * bool :=
  let invoices := invoices_json (files w) in
  let items := invoice_items_json (files w) in
  let filteredInvoices :=
    filter (fun i => negb (String.eqb (Invoice.id i) id)) invoices in
  let filteredItems :=
    filter (fun i => negb (String.eqb (InvoiceItem.invoiceId i) id)) items in
  if Nat.eqb (List.length filteredInvoices) (List.length invoices) then (w, false)
  else (write_invoice_items filteredItems (write_invoices filteredInvoices w), true).

(** *** Dashboard *)

Definition getDashboardStats (companyId : string) (w : World) : DashboardStats.t :=
  let invoices := getInvoices companyId w in
  let customers := getCustomers companyId w in
  let items := invoice_items_json (files w) in
  let totalRevenue :=
    fold_left (fun sum i => sum + Invoice.total i)
              (filter (fun i => Status_eqb (Invoice.status i) paid) invoices) 0 in
  let activeCustomers :=
    List.length (filter (fun c => Customer.isActive c) customers) in
  let pendingInvoices :=
    List.length (filter (fun i => Status_eqb (Invoice.status i) pending) invoices) in
  let productsSold :=
    fold_left (fun sum item => sum + InvoiceItem.quantity item)
              (filter (fun item =>
                         match find (fun i => String.eqb (Invoice.id i)
                                                (InvoiceItem.invoiceId item))
                                    invoices with
                         | Some invoice => Status_eqb (Invoice.status invoice) paid
                         | None => false
                         end)
                      items) 0 in
  DashboardStats.mk totalRevenue activeCustomers pendingInvoices productsSold.

End Storage.
End Storage.

(** ** The token service of [server/services/auth.ts] *)

Module AuthService.
Section AuthService.
Context {RT : Runtime} {BC : Bcrypt} {JW : Jwt}.

(** [process.env.SESSION_SECRET || 'fallback-secret-key']. *)
Definition JWT_SECRET : string :=
  match SESSION_SECRET with
  | Some s => if String.eqb s "" then "fallback-secret-key" else s
  | None => "fallback-secret-key"
  end.

(** ['24h'], in seconds. *)
Definition JWT_EXPIRES_IN : Z := 86400.

Definition hashPassword (password : string) : string :=
  let saltRounds := 12%nat in
  bcrypt_hash password saltRounds.

Definition comparePassword (password hash : string) : bool :=
  bcrypt_compare password hash.

Definition generateToken (user : UserWithRole.t) (now : Z) : string :=
  let payload :=
    JWTPayload.mk (User.id (UserWithRole.user user))
                  (User.companyId (UserWithRole.user user))
                  (User.roleId (UserWithRole.user user))
                  (User.email (UserWithRole.user user)) in
  jwt_sign payload JWT_SECRET JWT_EXPIRES_IN now.

(** The store is not among the arguments: the check is the library's, on the
    signature and the expiry. *)
Definition verifyToken (token : string) (now : Z) : option JWTPayload.t :=
  jwt_verify token JWT_SECRET now.

Definition extractTokenFromHeader (authHeader : option string) : option string :=
  match authHeader with
  | None => None
  | Some h =>
      if String.eqb h "" then None
      else if String.prefix "Bearer " h
           then Some (String.substring 7 (String.length h - 7) h)
           else None
  end.

End AuthService.
End AuthService.

(** ** Requests and responses *)

(** The four flags of a permission row, as the keys [permission[action]]. *)
Inductive Action : Type := canCreate | canRead | canUpdate | canDelete.

Definition flag (action : Action) (p : Permission.t) : bool :=
  match action with
  | canCreate => Permission.canCreate p
  | canRead => Permission.canRead p
  | canUpdate => Permission.canUpdate p
  | canDelete => Permission.canDelete p
  end.

(** The Express request as the handlers read it; [user] is the property
    [authMiddleware] sets. *)
Record Request : Type := {
  headers_authorization : option string;
  params : list (string * string);
  query : list (string * string);
  body : json;
  user : option UserWithRole.t
}.

Definition set_user (u : UserWithRole.t) (req : Request) : Request :=
  {| headers_authorization := headers_authorization req;
     params := params req; query := query req; body := body req;
     user := Some u |}.

(** The user object of the login and [/api/auth/me] answers. *)
Record SessionUser : Type := {
  su_id : string;
  su_email : string;
  su_name : string;
  su_role : Role.t;
  su_company : Company.t;
  su_permissions : list Permission.t
}.

Definition sessionUser (u : UserWithRole.t) : SessionUser :=
  {| su_id := User.id (UserWithRole.user u);
     su_email := User.email (UserWithRole.user u);
     su_name := User.name (UserWithRole.user u);
     su_role := UserWithRole.role u;
     su_company := UserWithRole.company u;
     su_permissions := UserWithRole.permissions u |}.

Inductive Payload : Type :=
| Message (message : string)
| Session (token : string) (u : SessionUser)
| UserJson (u : User.t)
| UsersJson (l : list User.t)
| ProductJson (p : Product.t)
| ProductsJson (l : list Product.t)
| CustomerJson (c : Customer.t)
| InvoiceJson (i : Invoice.t)
| InvoicesJson (l : list Invoice.t)
| InvoiceDetailsJson (i : InvoiceWithDetails.t)
| NoBody
| Uncaught.
(* [NoBody]: [res.status(204).send()]. [Uncaught]: an error thrown outside a
   [try] block, which Express answers with status 500. *)

Record Response : Type := {
  status : nat;
  payload : Payload
}.

Definition respond (code : nat) (p : Payload) : Response :=
  {| status := code; payload := p |}.

(** A middleware answers ([inl]) or calls [next()] ([inr], with the request it
    may have written to); a handler answers and may write to the store. *)
Definition Middleware : Type := World -> Request -> Response + Request.
Definition Handler : Type := World -> Request -> World * Response.

(** [app.METHOD(path, m1, ..., mn, handler)]. *)
Fixpoint route (chain : list Middleware) (handler : Handler) (w : World)
    (req : Request) : World * Response :=
  match chain with
  | [] => handler w req
  | m :: rest =>
      match m w req with
      | inl res => (w, res)
      | inr req' => route rest handler w req'
      end
  end.

(** The same for a route whose handler only reads and answers
    [res.json(a)]: [inr a] is status 200 with the value [a], [inl] the answer
    of a middleware or of the [catch] block; nothing is written. *)
Fixpoint route_json {A : Type} (chain : list Middleware)
    (handler : World -> Request -> Response + A) (w : World) (req : Request)
    : Response + A :=
  match chain with
  | [] => handler w req
  | m :: rest =>
      match m w req with
      | inl res => inl res
      | inr req' => route_json rest handler w req'
      end
  end.

(** ** The middlewares and routes of [server/routes.ts] *)

Module Routes.
Section Routes.
Context {RT : Runtime} {BC : Bcrypt} {JW : Jwt}.

Definition authMiddleware : Middleware := fun w req =>
  match AuthService.extractTokenFromHeader (headers_authorization req) with
  | None => inl (respond 401 (Message "Authentication required"))
  | Some token =>
      if String.eqb token ""
      then inl (respond 401 (Message "Authentication required"))
      else
        match AuthService.verifyToken token (clock w) with
        | None => inl (respond 401 (Message "Invalid token"))
        | Some payload =>
            match Storage.getUserWithRole (JWTPayload.userId payload) w with
            | None => inl (respond 401 (Message "User not found"))
            | Some u => inr (set_user u req)
            end
        end
  end.

(** The permission test on the user's rows; [true] lets the request pass. *)
Definition permitted (permissions : list Permission.t) (module : string)
    (action : Action) : bool :=
  match find (fun p => String.eqb (Permission.module p) module) permissions with
  | None => false
  | Some permission => flag action permission
  end.

Definition requirePermission (module : string) (action : Action)
    : Middleware := fun _ req =>
  match user req with
  | None => inl (respond 500 Uncaught)
  | Some u =>
      if negb (permitted (UserWithRole.permissions u) module action)
      then inl (respond 403 (Message "Insufficient permissions"))
      else inr req
  end.

Definition requireCompanyScope : Middleware := fun _ req =>
  match user req with
  | None => inl (respond 500 Uncaught)
  | Some u =>
      if String.eqb (Role.name (UserWithRole.role u)) "Super Admin"
      then inr req
      else
        let companyId :=
          js_or (js_or (option_map JStr (assoc "companyId" (params req)))
                       (prop "companyId" (body req)))
                (option_map JStr (assoc "companyId" (query req))) in
        if truthy companyId
           && strict_neq_str companyId (User.companyId (UserWithRole.user u))
        then inl (respond 403 (Message "Access denied to company data"))
        else inr req
  end.

(** [req.params.id] on a route whose path declares it. *)
Definition params_id (req : Request) : string :=
  match assoc "id" (params req) with
  | Some id => id
  | None => ""
  end.

(** *** Authentication *)

Definition post_auth_login : Handler := fun w req =>
  match loginSchema (body req) with
  | None => (w, respond 400 (Message "Invalid request data"))
  | Some (email, password) =>
      match Storage.getUserByEmailWithRole email w with
      | None => (w, respond 401 (Message "Invalid credentials"))
      | Some u =>
          if negb (AuthService.comparePassword password
                     (User.password (UserWithRole.user u)))
          then (w, respond 401 (Message "Invalid credentials"))
          else if negb (User.isActive (UserWithRole.user u))
          then (w, respond 401 (Message "Account is inactive"))
          else
            let token := AuthService.generateToken u (clock w) in
            (w, respond 200 (Session token (sessionUser u)))
      end
  end.

(** *** Users *)

Definition get_users : Handler :=
  route [authMiddleware; requirePermission "users" canRead; requireCompanyScope]
    (fun w req =>
       match user req with
       | None => (w, respond 500 (Message "Failed to fetch users"))
       | Some u =>
           let companyId :=
             if String.eqb (Role.name (UserWithRole.role u)) "Super Admin"
             then None else Some (User.companyId (UserWithRole.user u)) in
           (w, respond 200 (UsersJson (Storage.getUsers companyId w)))
       end).

Definition post_users : Handler :=
  route [authMiddleware; requirePermission "users" canCreate; requireCompanyScope]
    (fun w req =>
       match insertUserSchema (body req), user req with
       | Some userData, Some u =>
           let userData :=
             InsertUser.set_password
               (AuthService.hashPassword (InsertUser.password userData)) userData in
           let userData :=
             if negb (String.eqb (Role.name (UserWithRole.role u)) "Super Admin")
             then InsertUser.set_companyId (User.companyId (UserWithRole.user u))
                                           userData
             else userData in
           let (w', created) := Storage.createUser userData w in
           (w', respond 201 (UserJson created))
       | _, _ => (w, respond 400 (Message "Invalid user data"))
       end).

Definition delete_users_id : Handler :=
  route [authMiddleware; requirePermission "users" canDelete; requireCompanyScope]
    (fun w req =>
       let (w', deleted) := Storage.deleteUser (params_id req) w in
       if negb deleted then (w', respond 404 (Message "User not found"))
       else (w', respond 204 NoBody)).

(** *** Products *)

Definition get_products : Handler :=
  route [authMiddleware; requirePermission "products" canRead]
    (fun w req =>
       match user req with
       | None => (w, respond 500 (Message "Failed to fetch products"))
       | Some u =>
           (w, respond 200
                 (ProductsJson
                    (Storage.getProducts (User.companyId (UserWithRole.user u)) w)))
       end).

Definition post_products : Handler :=
  route [authMiddleware; requirePermission "products" canCreate]
    (fun w req =>
       match insertProductSchema (body req), user req with
       | Some productData, Some u =>
           let productData :=
             InsertProduct.set_companyId (User.companyId (UserWithRole.user u))
                                         productData in
           let (w', product) := Storage.createProduct productData w in
           (w', respond 201 (ProductJson product))
       | _, _ => (w, respond 400 (Message "Invalid product data"))
       end).

Definition put_products_id : Handler :=
  route [authMiddleware; requirePermission "products" canUpdate]
    (fun w req =>
       match insertProductSchema_partial (body req) with
       | None => (w, respond 400 (Message "Invalid product data"))
       | Some productData =>
           match Storage.updateProduct (params_id req) productData w with
           | (w', None) => (w', respond 404 (Message "Product not found"))
           | (w', Some product) => (w', respond 200 (ProductJson product))
           end
       end).

Definition delete_products_id : Handler :=
  route [authMiddleware; requirePermission "products" canDelete]
    (fun w req =>
       let (w', deleted) := Storage.deleteProduct (params_id req) w in
       if negb deleted then (w', respond 404 (Message "Product not found"))
       else (w', respond 204 NoBody)).

(** *** Customers *)

Definition post_customers : Handler :=
  route [authMiddleware; requirePermission "customers" canCreate]
    (fun w req =>
       match insertCustomerSchema (body req), user req with
       | Some customerData, Some u =>
           let customerData :=
             InsertCustomer.set_companyId (User.companyId (UserWithRole.user u))
                                          customerData in
           let (w', customer) := Storage.createCustomer customerData w in
           (w', respond 201 (CustomerJson customer))
       | _, _ => (w, respond 400 (Message "Invalid customer data"))
       end).

(** *** Invoices *)

Definition get_invoices : Handler :=
  route [authMiddleware; requirePermission "invoices" canRead]
    (fun w req =>
       match user req with
       | None => (w, respond 500 (Message "Failed to fetch invoices"))
       | Some u =>
           (w, respond 200
                 (InvoicesJson
                    (Storage.getInvoices (User.companyId (UserWithRole.user u)) w)))
       end).

Definition get_invoices_id : Handler :=
  route [authMiddleware; requirePermission "invoices" canRead]
    (fun w req =>
       match Storage.getInvoiceWithDetails (params_id req) w with
       | None => (w, respond 404 (Message "Invoice not found"))
       | Some invoice => (w, respond 200 (InvoiceDetailsJson invoice))
       end).

(** [const { items, ...invoiceData } = req.body]: the invoice schema has no
    key [items], so it reads [invoiceData] as it reads the body. *)
Definition post_invoices : Handler :=
  route [authMiddleware; requirePermission "invoices" canCreate]
    (fun w req =>
       let items := prop "items" (body req) in
       match insertInvoiceSchema (body req), user req with
       | Some validatedInvoice, Some u =>
           let validatedInvoice :=
             InsertInvoice.set_companyId (User.companyId (UserWithRole.user u))
                                         validatedInvoice in
           match Zod.array insertInvoiceItemSchema items with
           | None => (w, respond 400 (Message "Invalid invoice data"))
           | Some validatedItems =>
               let (w', invoice) :=
                 Storage.createInvoice validatedInvoice validatedItems w in
               (w', respond 201 (InvoiceJson invoice))
           end
       | _, _ => (w, respond 400 (Message "Invalid invoice data"))
       end).

Definition put_invoices_id : Handler :=
  route [authMiddleware; requirePermission "invoices" canUpdate]
    (fun w req =>
       match insertInvoiceSchema_partial (body req) with
       | None => (w, respond 400 (Message "Invalid invoice data"))
       | Some invoiceData =>
           match Storage.updateInvoice (params_id req) invoiceData w with
           | (w', None) => (w', respond 404 (Message "Invoice not found"))
           | (w', Some invoice) => (w', respond 200 (InvoiceJson invoice))
           end
       end).

(** *** The remaining routes *)

Definition get_auth_me : World -> Request -> Response + SessionUser :=
  route_json [authMiddleware]
    (fun _ req =>
       match user req with
       | None => inl (respond 500 Uncaught)
       | Some u => inr (sessionUser u)
       end).

Definition get_companies : World -> Request -> Response + list Company.t :=
  route_json [authMiddleware; requirePermission "companies" canRead]
    (fun w _ => inr (Storage.getCompanies w)).

Definition delete_companies_id : Handler :=
  route [authMiddleware; requirePermission "companies" canDelete]
    (fun w req =>
       let (w', deleted) := Storage.deleteCompany (params_id req) w in
       if negb deleted then (w', respond 404 (Message "Company not found"))
       else (w', respond 204 NoBody)).

Definition put_users_id : Handler :=
  route [authMiddleware; requirePermission "users" canUpdate; requireCompanyScope]
    (fun w req =>
       match insertUserSchema_partial (body req) with
       | None => (w, respond 400 (Message "Invalid user data"))
       | Some userData =>
           let userData :=
             match PartialInsertUser.password userData with
             | Some password =>
                 if String.eqb password "" then userData
                 else PartialInsertUser.mk
                        (PartialInsertUser.companyId userData)
                        (PartialInsertUser.roleId userData)
                        (PartialInsertUser.email userData)
                        (Some (AuthService.hashPassword password))
                        (PartialInsertUser.name userData)
                        (PartialInsertUser.isActive userData)
             | None => userData
             end in
           match Storage.updateUser (params_id req) userData w with
           | (w', None) => (w', respond 404 (Message "User not found"))
           | (w', Some updated) => (w', respond 200 (UserJson updated))
           end
       end).

Definition get_customers : World -> Request -> Response + list Customer.t :=
  route_json [authMiddleware; requirePermission "customers" canRead]
    (fun w req =>
       match user req with
       | None => inl (respond 500 (Message "Failed to fetch customers"))
       | Some u =>
           inr (Storage.getCustomers (User.companyId (UserWithRole.user u)) w)
       end).

Definition delete_customers_id : Handler :=
  route [authMiddleware; requirePermission "customers" canDelete]
    (fun w req =>
       let (w', deleted) := Storage.deleteCustomer (params_id req) w in
       if negb deleted then (w', respond 404 (Message "Customer not found"))
       else (w', respond 204 NoBody)).

Definition delete_invoices_id : Handler :=
  route [authMiddleware; requirePermission "invoices" canDelete]
    (fun w req =>
       let (w', deleted) := Storage.deleteInvoice (params_id req) w in
       if negb deleted then (w', respond 404 (Message "Invoice not found"))
       else (w', respond 204 NoBody)).

Definition get_dashboard_stats : World -> Request -> Response + DashboardStats.t :=
  route_json [authMiddleware]
    (fun w req =>
       match user req with
       | None => inl (respond 500 (Message "Failed to fetch dashboard stats"))
       | Some u =>
           inr (Storage.getDashboardStats (User.companyId (UserWithRole.user u)) w)
       end).

Definition get_roles : World -> Request -> Response + list Role.t :=
  route_json [authMiddleware] (fun w _ => inr (Storage.getRoles w)).

End Routes.
End Routes.

(** ** The client: permission helper, invoice forms and sales report *)

Module Client.

(** [hasPermission] of [client/src/lib/auth.ts]. *)
Definition hasPermission (user : option UserWithRole.t) (module : string)
    (action : Action) : bool :=
  match user with
  | None => false
  | Some u =>
      match find (fun p => String.eqb (Permission.module p) module)
                 (UserWithRole.permissions u) with
      | Some permission => flag action permission
      | None => false
      end
  end.

(** *** The invoice forms (create and edit modals) *)

(** One entry of the form's field array [items]; the three amounts are of
    type [number]. The create modal starts from quantity 1 and its quantity
    input writes [parseInt(e.target.value) || 0]; the edit modal resets the
    form to the stored items of the invoice, whatever numbers they hold, and
    its quantity input writes [parseInt(e.target.value) || 1]. *)
Record FormItem : Type := {
  fi_productId : string;
  fi_description : string;
  fi_quantity : Q;
  fi_unitPrice : Q;
  fi_total : Q
}.

Record InvoiceFormValues : Type := {
  fv_customerId : string;
  fv_invoiceNumber : string;
  fv_date : string;
  fv_dueDate : string;
  fv_notes : option string;
  fv_items : list FormItem
}.

(** [z.string().min(1, message)] on a form value: the issue raised, if any. *)
Definition min1 (s message : string) : list string :=
  if Nat.leb 1 (String.length s) then [] else [message].

(** The modal's [invoiceItemSchema]: the issues it raises on an item. *)
Definition invoiceItemSchema (item : FormItem) : list string :=
  min1 (fi_productId item) "Product is required"
  ++ min1 (fi_description item) "Description is required"
  ++ (if Qle_bool 1 (fi_quantity item) then []
      else ["Quantity must be at least 1"])
  ++ (if Qle_bool 0 (fi_unitPrice item) then []
      else ["Unit price must be positive"]).

(** [createInvoiceFormSchema] and [editInvoiceFormSchema] (the same shape). *)
Definition invoiceFormSchema (data : InvoiceFormValues) : list string :=
  min1 (fv_customerId data) "Customer is required"
  ++ min1 (fv_invoiceNumber data) "Invoice number is required"
  ++ min1 (fv_date data) "Date is required"
  ++ min1 (fv_dueDate data) "Due date is required"
  ++ flat_map invoiceItemSchema (fv_items data)
  ++ (if Nat.leb 1 (List.length (fv_items data)) then []
      else ["At least one item is required"]).

(** [itemsForServer]: the keys sent for each item (no [total]). *)
Definition itemForServer (item : FormItem) : json :=
  JObj [("productId", JStr (fi_productId item));
        ("description", JStr (fi_description item));
        ("quantity", JNum (fi_quantity item));
        ("unitPrice", JNum (fi_unitPrice item))].

(** The body the create modal posts to [/api/invoices]; [notes] is dropped by
    [JSON.stringify] when [undefined]. *)
Definition createInvoiceBody (data : InvoiceFormValues) : json :=
  JObj ([("customerId", JStr (fv_customerId data));
         ("invoiceNumber", JStr (fv_invoiceNumber data));
         ("date", JStr (fv_date data));
         ("dueDate", JStr (fv_dueDate data))]
        ++ match fv_notes data with
           | Some n => [("notes", JStr n)]
           | None => []
           end
        ++ [("items", JArr (map itemForServer (fv_items data)))]).

(** [form.handleSubmit(onSubmit)]: the issues shown, or the body posted. *)
Definition createInvoice_submit (data : InvoiceFormValues) : list string + json :=
  match invoiceFormSchema data with
  | [] => inr (createInvoiceBody data)
  | issues => inl issues
  end.

(** [isSuperAdmin] and [isCompanyAdmin] of [client/src/lib/auth.ts]. *)
Definition isSuperAdmin (user : option UserWithRole.t) : bool :=
  match user with
  | Some u => String.eqb (Role.name (UserWithRole.role u)) "Super Admin"
  | None => false
  end.

Definition isCompanyAdmin (user : option UserWithRole.t) : bool :=
  match user with
  | Some u => String.eqb (Role.name (UserWithRole.role u)) "Company Admin"
  | None => false
  end.

(** [availableRoles] of the create-user and edit-user modals; [roles] is
    [undefined] until the query has answered. *)
Definition availableRoles (user : option UserWithRole.t)
    (roles : option (list Role.t)) : option (list Role.t) :=
  option_map
    (filter (fun role =>
               if isSuperAdmin user then true
               else negb (String.eqb (Role.name role) "Super Admin")
                    && negb (String.eqb (Role.name role) "Company Admin")))
    roles.

(** The body the edit modal puts to [/api/invoices/:id]. *)
Definition editInvoiceBody (data : InvoiceFormValues) : json :=
  JObj ([("customerId", JStr (fv_customerId data));
         ("invoiceNumber", JStr (fv_invoiceNumber data));
         ("date", JStr (fv_date data));
         ("dueDate", JStr (fv_dueDate data))]
        ++ match fv_notes data with
           | Some n => [("notes", JStr n)]
           | None => []
           end
        ++ [("items", JArr (map itemForServer (fv_items data)))]).

End Client.

(** ** JavaScript numbers in arithmetic *)

(** The Number type in arithmetic: IEEE 754 binary64, rounding to nearest,
    ties to even. [add], [mul] and [div] are the operators [+], [*] and [/];
    [ltb a b] is [a < b]. *)
Module Double.

Definition t : Type := spec_float.

Definition prec : Z := 53.
Definition emax : Z := 1024.

Definition zero : t := S754_zero false.

Definition add : t -> t -> t := SFadd prec emax.
Definition mul : t -> t -> t := SFmul prec emax.
Definition div : t -> t -> t := SFdiv prec emax.
Definition ltb : t -> t -> bool := SFltb.

(** The Number a JSON literal of value [q] is read as: the double nearest to
    [q], the one with the even mantissa on a tie. The quotient of numerator
    and denominator is rounded once, by the division of [SpecFloat] on the
    two integers as they are. *)
Definition ofQ (q : Q) : t :=
  match Qnum q with
  | Z0 => zero
  | Zpos n =>
      SFdiv prec emax (S754_finite false n 0) (S754_finite false (Qden q) 0)
  | Zneg n =>
      SFdiv prec emax (S754_finite true n 0) (S754_finite false (Qden q) 0)
  end.

(** The literal [100]. *)
Definition hundred : t := Eval vm_compute in ofQ 100.

(** The magnitude [m * 2^e] of a finite double as a fraction. *)
Definition numerator (m : positive) (e : Z) : Z := Zpos m * 2 ^ Z.max e 0.
Definition denominator (e : Z) : Z := 2 ^ Z.max (- e) 0.

(** [x.toFixed(1)]. For a finite [x] of magnitude below [10^21]: whether a
    minus sign is written, and the integer [n] with [n / 10] nearest to the
    magnitude, the larger one on a tie; the text is [n] with a point before
    its last digit. A magnitude of [10^21] or more is written as [String(x)]
    writes it, and a value that is not finite by its name. *)
Inductive Fixed1 : Type :=
| Tenths (negative : bool) (n : Z)
| Large (negative : bool) (m : positive) (e : Z)
| TextInfinity
| TextNegInfinity
| TextNaN.

Definition toFixed1 (x : t) : Fixed1 :=
  match x with
  | S754_nan => TextNaN
  | S754_infinity false => TextInfinity
  | S754_infinity true => TextNegInfinity
  | S754_zero _ => Tenths false 0
  | S754_finite s m e =>
      if (10 ^ 21 * denominator e <=? numerator m e)%Z
      then Large s m e
      else Tenths s ((20 * numerator m e + denominator e)
                     / (2 * denominator e))%Z
  end.

End Double.

(** ** The sales report of the reports page *)

Module Reports.

(** One row of [salesByCustomer]. The count is a Number as well; it is
    exact as long as the list has fewer than [2^53] invoices. *)
Record CustomerSales : Type := {
  customerName : string;
  invoiceCount : nat;
  totalRevenue : Double.t;
  paidRevenue : Double.t
}.

Definition status_text (s : Status) : string :=
  match s with
  | pending => "pending"
  | paid => "paid"
  | overdue => "overdue"
  | cancelled => "cancelled"
  end.

(** [customers?.find(c => c.id === customerId)?.name || 'Unknown Customer']. *)
Definition getCustomerName (customers : option (list Customer.t))
    (customerId : string) : string :=
  match customers with
  | None => "Unknown Customer"
  | Some l =>
      match find (fun c => String.eqb (Customer.id c) customerId) l with
      | Some c =>
          if String.eqb (Customer.name c) "" then "Unknown Customer"
          else Customer.name c
      | None => "Unknown Customer"
      end
  end.

Definition filteredInvoices (customerFilter statusFilter : string)
    (invoices : list Invoice.t) : list Invoice.t :=
  filter (fun invoice =>
            let matchesCustomer :=
              String.eqb customerFilter "all"
              || String.eqb (Invoice.customerId invoice) customerFilter in
            let matchesStatus :=
              String.eqb statusFilter "all"
              || String.eqb (status_text (Invoice.status invoice)) statusFilter in
            matchesCustomer && matchesStatus)
         invoices.

(** The names every object inherits from [Object.prototype]. Under such a
    name [acc[customerName]] is the inherited member: it is truthy, so no row
    is created, and the three updates write to that member, not to [acc]. *)
Definition inherited (key : string) : bool :=
  existsb (String.eqb key)
    ["constructor"; "__defineGetter__"; "__defineSetter__"; "hasOwnProperty";
     "__lookupGetter__"; "__lookupSetter__"; "isPrototypeOf";
     "propertyIsEnumerable"; "toString"; "valueOf"; "__proto__";
     "toLocaleString"].

(** The three updates of the reducer on the row of [invoice]'s customer:
    [invoiceCount++], [totalRevenue += invoice.total] and, for a paid
    invoice, [paidRevenue += invoice.total]. *)
Definition record_invoice (invoice : Invoice.t) (row : CustomerSales)
    : CustomerSales :=
  {| customerName := customerName row;
     invoiceCount := S (invoiceCount row);
     totalRevenue :=
       Double.add (totalRevenue row) (Double.ofQ (Invoice.total invoice));
     paidRevenue :=
       if Status_eqb (Invoice.status invoice) paid
       then Double.add (paidRevenue row) (Double.ofQ (Invoice.total invoice))
       else paidRevenue row |}.

Fixpoint update_row (key : string) (f : CustomerSales -> CustomerSales)
    (acc : list (string * CustomerSales)) : list (string * CustomerSales) :=
  match acc with
  | [] => []
  | (k, row) :: rest =>
      if String.eqb key k then (k, f row) :: rest
      else (k, row) :: update_row key f rest
  end.

(** The reducer; [acc] holds the own properties of the accumulator object. *)
Definition salesByCustomer_step (customers : option (list Customer.t))
    (acc : list (string * CustomerSales)) (invoice : Invoice.t)
    : list (string * CustomerSales) :=
  let name := getCustomerName customers (Invoice.customerId invoice) in
  if inherited name then acc
  else
    let acc :=
      match assoc name acc with
      | Some _ => acc
      | None =>
          (acc ++ [(name, {| customerName := name; invoiceCount := 0;
                             totalRevenue := Double.zero;
                             paidRevenue := Double.zero |})])%list
      end in
    update_row name (record_invoice invoice) acc.

(** [filteredInvoices?.reduce(..., {}) || {}]. *)
Definition salesByCustomer (customers : option (list Customer.t))
    (filtered : option (list Invoice.t)) : list (string * CustomerSales) :=
  match filtered with
  | None => []
  | Some l => fold_left (salesByCustomer_step customers) l []
  end.

(** [Object.values(salesByCustomer)]; the order of the rows is not modelled. *)
Definition salesReportData (customers : option (list Customer.t))
    (filtered : option (list Invoice.t)) : list CustomerSales :=
  map snd (salesByCustomer customers filtered).

(** The content of the collection-rate cell before the percent sign: the
    string of [toFixed(1)], or the number [0]. *)
Inductive RateCell : Type :=
| RateText (t : Double.Fixed1)
| RateZero.

(** [item.totalRevenue > 0
      ? ((item.paidRevenue / item.totalRevenue) * 100).toFixed(1) : 0]. *)
Definition collectionRate (item : CustomerSales) : RateCell :=
  if Double.ltb Double.zero (totalRevenue item)
  then RateText (Double.toFixed1
                   (Double.mul (Double.div (paidRevenue item) (totalRevenue item))
                               Double.hundred))
  else RateZero.

End Reports.

(** The three figures above the sales report:
    [filteredInvoices?.reduce((sum, inv) => sum + inv.total, 0) || 0] and the
    same over the paid and the pending invoices. They are kept as sums of
    exact rationals: what is proved of them compares a figure only with the
    same sum over the same list. *)
Module ReportFigures.

(** [x || 0] on a number. *)
Definition or0 (x : Q) : Q := if Qeq_bool x 0 then 0 else x.

Definition sum_total (l : list Invoice.t) : Q :=
  fold_left (fun sum inv => sum + Invoice.total inv) l 0.

Definition totalRevenue (filtered : option (list Invoice.t)) : Q :=
  match filtered with
  | Some l => or0 (sum_total l)
  | None => 0
  end.

Definition paidRevenue (filtered : option (list Invoice.t)) : Q :=
  match filtered with
  | Some l =>
      or0 (sum_total (filter (fun inv => Status_eqb (Invoice.status inv) paid) l))
  | None => 0
  end.

Definition pendingRevenue (filtered : option (list Invoice.t)) : Q :=
  match filtered with
  | Some l =>
      or0 (sum_total (filter (fun inv => Status_eqb (Invoice.status inv) pending) l))
  | None => 0
  end.

End ReportFigures.

(** ** The HTML escaping of [server/services/emailService.ts] *)

Module EmailService.

(** [map[m]] for a character the pattern matches (ampersand, angle
    brackets, double quote, code 34, and single quote); [None] for any other
    character. *)
Definition entity (c : ascii) : option string :=
  if Ascii.eqb c "&" then Some "&amp;"
  else if Ascii.eqb c "<" then Some "&lt;"
  else if Ascii.eqb c ">" then Some "&gt;"
  else if Ascii.eqb c "034" then Some "&quot;"
  else if Ascii.eqb c "'" then Some "&#039;"
  else None.

(** [text.replace(pattern, (m) => map[m])], the pattern being global.  The
    text is read as its UTF-8 bytes: the five characters replaced are ASCII,
    and no byte of a longer sequence equals one of them. *)
Fixpoint escapeHtml (text : string) : string :=
  match text with
  | EmptyString => EmptyString
  | String c rest =>
      match entity c with
      | Some e => e ++ escapeHtml rest
      | None => String c (escapeHtml rest)
      end
  end.

End EmailService.

(** ** A concrete platform and data set

    Stand-ins for the external libraries, on which the handlers run by
    computation, and a small data directory with two tenants. *)

Module Demo.

(** Self-delimiting framing of a string: each character is preceded by a
    plus sign, a dot closes the frame. *)
Fixpoint frame (s : string) : string :=
  match s with
  | EmptyString => "."
  | String c rest => String "+" (String c (frame rest))
  end.

Fixpoint unframe (t : string) : option (string * string) :=
  match t with
  | EmptyString => None
  | String mark rest =>
      if Ascii.eqb mark "." then Some (EmptyString, rest)
      else
        match rest with
        | EmptyString => None
        | String c rest' =>
            match unframe rest' with
            | Some (s, r) => Some (String c s, r)
            | None => None
            end
        end
  end.

(** A symbolic token: the framed claims, the expiry and the signing secret;
    it verifies under the same secret before the expiry. *)
Definition sign (p : JWTPayload.t) (secret : string) (lifetime iat : Z) : string :=
  frame (JWTPayload.userId p) ++ frame (JWTPayload.companyId p)
  ++ frame (JWTPayload.roleId p) ++ frame (JWTPayload.email p)
  ++ frame (NilEmpty.string_of_int (Z.to_int (iat + lifetime)))
  ++ frame secret.

Definition verify (token secret : string) (now : Z) : option JWTPayload.t :=
  match unframe token with
  | None => None
  | Some (uid, r1) =>
  match unframe r1 with
  | None => None
  | Some (cid, r2) =>
  match unframe r2 with
  | None => None
  | Some (rid, r3) =>
  match unframe r3 with
  | None => None
  | Some (mail, r4) =>
  match unframe r4 with
  | None => None
  | Some (exp, r5) =>
  match unframe r5 with
  | None => None
  | Some (key, r6) =>
      match NilEmpty.int_of_string exp with
      | None => None
      | Some d =>
          if String.eqb r6 "" && String.eqb key secret && (now <? Z.of_int d)%Z
          then Some (JWTPayload.mk uid cid rid mail)
          else None
      end
  end end end end end end.

#[global] Instance jwt : Jwt := {
  jwt_sign := sign;
  jwt_verify := verify
}.

(** A transparent stand-in for the password hash. *)
#[global] Instance bcrypt : Bcrypt := {
  bcrypt_hash := fun password _ => "$2a$" ++ password;
  bcrypt_compare := fun password hash => String.eqb ("$2a$" ++ password) hash
}.

Fixpoint has_at (s : string) : bool :=
  match s with
  | EmptyString => false
  | String c rest => Ascii.eqb c "@" || has_at rest
  end.

#[global] Instance runtime : Runtime := {
  randomUUID := fun n => "uuid-" ++ NilEmpty.string_of_uint (Nat.to_uint n);
  toISOString := fun t => "T" ++ NilEmpty.string_of_int (Z.to_int t);
  isEmail := has_at;
  SESSION_SECRET := None
}.

(** *** Two tenants *)

Definition acme : Company.t :=
  Company.mk "comp-a" "Acme Corporation" "acme" None None None None None
             "T0" "T0" true.

Definition globex : Company.t :=
  Company.mk "comp-b" "Globex" "globex" None None None None None
             "T0" "T0" true.

Definition superAdmin : Role.t := Role.mk "role-super" "Super Admin" None.
Definition companyAdmin : Role.t := Role.mk "role-admin" "Company Admin" None.
Definition plainUser : Role.t := Role.mk "role-user" "User" None.

Definition full (id roleId module : string) : Permission.t :=
  Permission.mk id roleId module true true true true.

Definition permissions : list Permission.t :=
  [full "perm-1" "role-super" "users";
   full "perm-2" "role-super" "products";
   full "perm-3" "role-admin" "users";
   full "perm-4" "role-admin" "products";
   full "perm-5" "role-admin" "customers";
   full "perm-6" "role-admin" "invoices";
   Permission.mk "perm-7" "role-user" "invoices" false true false false].

Definition root : User.t :=
  User.mk "user-root" "comp-a" "role-super" "super@admin.com" "$2a$password"
          "Root" true "T0" "T0".

Definition alice : User.t :=
  User.mk "user-alice" "comp-a" "role-admin" "admin@acme.com" "$2a$password"
          "Alice" true "T0" "T0".

Definition bob : User.t :=
  User.mk "user-bob" "comp-a" "role-user" "bob@acme.com" "$2a$hunter2"
          "Bob" false "T0" "T0".

Definition carol : User.t :=
  User.mk "user-carol" "comp-b" "role-admin" "admin@globex.com" "$2a$secret"
          "Carol" true "T0" "T0".

Definition anvil : Product.t :=
  Product.mk "prod-a1" "comp-a" "Anvil" None 10 None None 0 true "T0" "T0".

Definition reactor : Product.t :=
  Product.mk "prod-b1" "comp-b" "Reactor" None 5000 None None 0 true "T0" "T0".

Definition coyote : Customer.t :=
  Customer.mk "cust-a1" "comp-a" "W. Coyote" "coyote@example.com" None None None
              true "T0" "T0".

Definition homer : Customer.t :=
  Customer.mk "cust-b1" "comp-b" "H. Simpson" "homer@example.com" None None None
              true "T0" "T0".

Definition globexInvoice : Invoice.t :=
  Invoice.mk "inv-b1" "comp-b" "cust-b1" "INV-001" "2024-01-01" "2024-01-31"
             5000 400 5400 pending None "T0" "T0".

Definition globexItem : InvoiceItem.t :=
  InvoiceItem.mk "item-b1" "inv-b1" "prod-b1" "Reactor" 1 5000 5000.

Definition data : DataDir :=
  {| companies_json := [acme; globex];
     users_json := [root; alice; bob; carol];
     roles_json := [superAdmin; companyAdmin; plainUser];
     permissions_json := permissions;
     products_json := [anvil; reactor];
     customers_json := [coyote; homer];
     invoices_json := [globexInvoice];
     invoice_items_json := [globexItem] |}.

(** The data directory at clock reading [1000], no UUID drawn yet. *)
Definition world : World := {| files := data; clock := 1000; drawn := 0 |}.

(** The session of [u], issued at clock reading [iat]. *)
Definition tokenOf (u : User.t) (iat : Z) : string :=
  sign (JWTPayload.mk (User.id u) (User.companyId u) (User.roleId u)
                      (User.email u))
       "fallback-secret-key" 86400 iat.

(** A request carrying [token] as bearer credential. *)
Definition request (token : string) (params : list (string * string))
    (body : json) : Request :=
  {| headers_authorization := Some ("Bearer " ++ token);
     params := params; query := []; body := body; user := None |}.

(** Alice's session, issued at clock reading 0. *)
Definition aliceToken : string := tokenOf alice 0.

(** *** Requests *)

(** Alice, of Acme, renames a product of Globex. *)
Definition takeover : Request :=
  request aliceToken [("id", "prod-b1")] (JObj [("name", JStr "taken over")]).

(** Alice reads an invoice of Globex, and deletes a user of Globex. *)
Definition peek : Request := request aliceToken [("id", "inv-b1")] (JObj []).
Definition evict : Request := request aliceToken [("id", "user-carol")] (JObj []).

Definition invoiceBody (subtotal tax total : Q) (items : list json) : json :=
  JObj [("companyId", JStr "comp-b"); ("customerId", JStr "cust-a1");
        ("invoiceNumber", JStr "INV-7"); ("date", JStr "2024-02-01");
        ("dueDate", JStr "2024-03-01"); ("subtotal", JNum subtotal);
        ("tax", JNum tax); ("total", JNum total); ("status", JStr "pending");
        ("items", JArr items)].

Definition lineBody (quantity unitPrice total : Q) : json :=
  JObj [("invoiceId", JStr ""); ("productId", JStr "prod-a1");
        ("description", JStr "Anvil"); ("quantity", JNum quantity);
        ("unitPrice", JNum unitPrice); ("total", JNum total)].

(** An invoice whose amounts agree neither with each other nor with its one
    item. *)
Definition skewed : Request :=
  request aliceToken [] (invoiceBody 100 0 5 [lineBody 2 10 20]).

(** An invoice without items. *)
Definition itemless : Request :=
  request aliceToken [] (invoiceBody 0 0 0 []).

(** A product whose body names the other tenant. *)
Definition newProduct : Request :=
  request aliceToken []
    (JObj [("companyId", JStr "comp-b"); ("name", JStr "Rocket skates");
           ("price", JNum 25); ("isActive", JBool true)]).

Definition credentials (email password : string) : Request :=
  {| headers_authorization := None; params := []; query := [];
     body := JObj [("email", JStr email); ("password", JStr password)];
     user := None |}.

(** *** Alice is demoted *)

(** The store after [updateUser] gave Alice the role "User", read at clock
    reading 5000: her session of clock reading 0 has not expired. *)
Definition demotion : PartialInsertUser.t :=
  PartialInsertUser.mk None (Some "role-user") None None None None.

Definition afterDemotion : World :=
  {| files := files (fst (Storage.updateUser "user-alice" demotion world));
     clock := 5000; drawn := 0 |}.

(** Bob as [getUserWithRole] loads him, and a request of his past
    [authMiddleware]. *)
Definition bobLoaded : UserWithRole.t :=
  UserWithRole.mk bob plainUser acme
    [Permission.mk "perm-7" "role-user" "invoices" false true false false].

Definition bobsRequest : Request :=
  {| headers_authorization := Some ("Bearer " ++ tokenOf bob 0);
     params := []; query := []; body := JObj []; user := Some bobLoaded |}.

(** A form with one item of quantity 0. *)
Definition idle : Client.FormItem :=
  {| Client.fi_productId := "prod-a1"; Client.fi_description := "Anvil";
     Client.fi_quantity := 0; Client.fi_unitPrice := 10;
     Client.fi_total := 7 |}.

(** Three invoices of Acme: two of W. Coyote, one of them paid, and one of
    amount 0 whose customer is not on file. *)
Definition acmeInvoices : list Invoice.t :=
  [Invoice.mk "inv-a1" "comp-a" "cust-a1" "INV-101" "2024-01-01" "2024-01-31"
              100 0 100 paid None "T0" "T0";
   Invoice.mk "inv-a2" "comp-a" "cust-a1" "INV-102" "2024-01-02" "2024-02-01"
              200 0 200 pending None "T0" "T0";
   Invoice.mk "inv-a3" "comp-a" "cust-zz" "INV-103" "2024-01-03" "2024-02-02"
              0 0 0 pending None "T0" "T0"].

(** The row of a customer who paid a third of the invoiced amount. *)
Definition paidUp : Reports.CustomerSales :=
  {| Reports.customerName := "W. Coyote"; Reports.invoiceCount := 2;
     Reports.totalRevenue := Double.ofQ 300;
     Reports.paidRevenue := Double.ofQ 100 |}.

(** *** Lines, sessions, accounts and amounts at the edges *)

(** An invoice whose amounts agree with its two lines, of which the first
    has quantity 3/2 and the second quantity -2, unit price -5 and total 7. *)
Definition badLines : Request :=
  request aliceToken []
    (invoiceBody 22 (44 # 25) (594 # 25)
       [lineBody (3 # 2) 10 15; lineBody (-2) (-5) 7]).

(** A session of Alice issued at clock reading 0 with the role "User" in its
    claims; in [world] her stored role is "Company Admin". *)
Definition staleToken : string :=
  sign (JWTPayload.mk "user-alice" "comp-a" "role-user" "admin@acme.com")
       "fallback-secret-key" 86400 0.

Definition staleProduct : Request := request staleToken [] (body newProduct).


(** Two paid invoices of W. Coyote of 1e308 each. *)
Definition hugeInvoices : list Invoice.t :=
  [Invoice.mk "inv-h1" "comp-a" "cust-a1" "INV-201" "2024-01-01" "2024-01-31"
              (10 ^ 308 # 1) 0 (10 ^ 308 # 1) paid None "T0" "T0";
   Invoice.mk "inv-h2" "comp-a" "cust-a1" "INV-202" "2024-01-02" "2024-02-01"
              (10 ^ 308 # 1) 0 (10 ^ 308 # 1) paid None "T0" "T0"].

(** Three invoices of W. Coyote: 1e300 paid, -1e300 and 1e-300 pending. *)
Definition swingInvoices : list Invoice.t :=
  [Invoice.mk "inv-s1" "comp-a" "cust-a1" "INV-301" "2024-01-01" "2024-01-31"
              (10 ^ 300 # 1) 0 (10 ^ 300 # 1) paid None "T0" "T0";
   Invoice.mk "inv-s2" "comp-a" "cust-a1" "INV-302" "2024-01-02" "2024-02-01"
              (- 10 ^ 300 # 1) 0 (- 10 ^ 300 # 1) pending None "T0" "T0";
   Invoice.mk "inv-s3" "comp-a" "cust-a1" "INV-303" "2024-01-03" "2024-02-02"
              (1 # 10 ^ 300) 0 (1 # 10 ^ 300) pending None "T0" "T0"].

(** Three pending invoices of W. Coyote: 1e16, 1 and 1. *)
Definition driftInvoices : list Invoice.t :=
  [Invoice.mk "inv-d1" "comp-a" "cust-a1" "INV-401" "2024-01-01" "2024-01-31"
              (10 ^ 16 # 1) 0 (10 ^ 16 # 1) pending None "T0" "T0";
   Invoice.mk "inv-d2" "comp-a" "cust-a1" "INV-402" "2024-01-02" "2024-02-01"
              1 0 1 pending None "T0" "T0";
   Invoice.mk "inv-d3" "comp-a" "cust-a1" "INV-403" "2024-01-03" "2024-02-02"
              1 0 1 pending None "T0" "T0"].

(** The row of a customer who paid 23 of 80. *)
Definition quarterPaid : Reports.CustomerSales :=
  {| Reports.customerName := "H. Simpson"; Reports.invoiceCount := 2;
     Reports.totalRevenue := Double.ofQ 80;
     Reports.paidRevenue := Double.ofQ 23 |}.

(** *** Further requests and data *)

(** Alice as [getUserWithRole] loads her. *)
Definition aliceLoaded : UserWithRole.t :=
  UserWithRole.mk alice companyAdmin acme
    [full "perm-3" "role-admin" "users";
     full "perm-4" "role-admin" "products";
     full "perm-5" "role-admin" "customers";
     full "perm-6" "role-admin" "invoices"].

(** The same files read at clock reading 2000, and after a day and more. *)
Definition later : World := {| files := data; clock := 2000; drawn := 0 |}.
Definition nextDay : World := {| files := data; clock := 90000; drawn := 0 |}.

(** Alice lists, and asks for a product that is not stored. *)
Definition listing : Request := request aliceToken [] (JObj []).
Definition missing : Request := request aliceToken [("id", "prod-zz")] (JObj []).

(** Alice creates the user Dave in her company, and tries to create him in
    Globex. *)
Definition daveBody (companyId : string) : json :=
  JObj [("companyId", JStr companyId); ("roleId", JStr "role-user");
        ("email", JStr "dave@acme.com"); ("password", JStr "s3cret");
        ("name", JStr "Dave"); ("isActive", JBool true)].

Definition dave : InsertUser.t :=
  InsertUser.mk "comp-a" "role-user" "dave@acme.com" "s3cret" "Dave" true.

Definition newUser : Request := request aliceToken [] (daveBody "comp-a").
Definition foreignUser : Request := request aliceToken [] (daveBody "comp-b").

(** A filled-in invoice form. *)
Definition orderForm : Client.InvoiceFormValues :=
  {| Client.fv_customerId := "cust-b1"; Client.fv_invoiceNumber := "INV-002";
     Client.fv_date := "2024-03-01"; Client.fv_dueDate := "2024-03-31";
     Client.fv_notes := None;
     Client.fv_items :=
       [{| Client.fi_productId := "prod-b1"; Client.fi_description := "Reactor";
           Client.fi_quantity := 2; Client.fi_unitPrice := 5000;
           Client.fi_total := 10000 |}] |}.

(** Carol, of Globex, saves the form over the invoice "inv-b1". *)
Definition carolToken : string := tokenOf carol 0.

Definition saveForm : Request :=
  request carolToken [("id", "inv-b1")] (Client.editInvoiceBody orderForm).

Definition postForm : Request :=
  request carolToken [] (Client.createInvoiceBody orderForm).

(** An invoice of a given company and status, and a product, as storage
    receives them. *)
Definition order (companyId : string) (status : Status) : InsertInvoice.t :=
  InsertInvoice.mk companyId "cust-b1" "INV-003" "2024-04-01" "2024-04-30"
                   100 8 108 status None.

Definition orderLine : InsertInvoiceItem.t :=
  InsertInvoiceItem.mk "" "prod-b1" "Reactor" 1 100 100.

Definition skates : InsertProduct.t :=
  InsertProduct.mk "comp-a" "Rocket skates" None 25 None None 0 true.

End Demo.

(** ** Predicates of the specification *)

(** At most one permission row per (role, module) pair. *)
Definition unique_rows (rows : list Permission.t) : Prop :=
  forall p q,
    In p rows -> In q rows ->
    Permission.roleId p = Permission.roleId q ->
    Permission.module p = Permission.module q ->
    p = q.

(** A quantity that is a positive integer. *)
Definition positive_integer (q : Q) : Prop :=
  exists n : Z, (0 < n)%Z /\ q == inject_Z n.

(** The tolerance and the tax-rate policy value of the specification. *)
Definition tolerance : Q := 1 # 1000000000.
Definition taxRatePolicy : Q := 8 # 100.

Definition within_tolerance (a b : Q) : Prop := Qabs (a - b) <= tolerance.

(** The items stored for an invoice, and the sum of their totals. *)
Definition items_of (w : World) (i : Invoice.t) : list InvoiceItem.t :=
  filter (fun item => String.eqb (InvoiceItem.invoiceId item) (Invoice.id i))
         (invoice_items_json (files w)).

Definition sum_of_totals (items : list InvoiceItem.t) : Q :=
  fold_right (fun item acc => InvoiceItem.total item + acc) 0 items.

(** The invoice invariant: subtotal, tax and total agree with the items. *)
Definition invoice_totals_consistent (w : World) (i : Invoice.t) : Prop :=
  within_tolerance (Invoice.subtotal i) (sum_of_totals (items_of w i))
  /\ within_tolerance (Invoice.tax i) (Invoice.subtotal i * taxRatePolicy)
  /\ within_tolerance (Invoice.total i) (Invoice.subtotal i + Invoice.tax i).

(** The invoices reported under a customer name, the paid ones among them,
    and the revenue of a list of invoices: its totals added up as doubles
    from 0, in the order of the list. *)
Definition invoices_of (customers : option (list Customer.t)) (name : string)
    (l : list Invoice.t) : list Invoice.t :=
  filter (fun i => String.eqb (Reports.getCustomerName customers
                                 (Invoice.customerId i)) name) l.

Definition revenue (l : list Invoice.t) : Double.t :=
  fold_left (fun sum i => Double.add sum (Double.ofQ (Invoice.total i)))
            l Double.zero.

Definition paid_only (l : list Invoice.t) : list Invoice.t :=
  filter (fun i => Status_eqb (Invoice.status i) paid) l.

(** A double that is a number: neither NaN nor an infinity. *)
Definition finite_number (x : Double.t) : bool :=
  match x with
  | S754_zero _ | S754_finite _ _ _ => true
  | S754_infinity _ | S754_nan => false
  end.

(** What a row of the sales report holds for the invoices [seen]. *)
Definition row_sums (customers : option (list Customer.t))
    (seen : list Invoice.t) (key : string) (row : Reports.CustomerSales) : Prop :=
  let mine := invoices_of customers key seen in
  Reports.customerName row = key
  /\ Reports.inherited key = false
  /\ mine <> []
  /\ Reports.invoiceCount row = List.length mine
  /\ Reports.totalRevenue row = revenue mine
  /\ Reports.paidRevenue row = revenue (paid_only mine).

(** The accumulator of the reducer after the invoices [seen]. *)
Definition aggregated (customers : option (list Customer.t))
    (seen : list Invoice.t) (acc : list (string * Reports.CustomerSales)) : Prop :=
  NoDup (map fst acc)
  /\ (forall key row, In (key, row) acc -> row_sums customers seen key row)
  /\ (forall key, Reports.inherited key = false -> ~ In key (map fst acc) ->
                  invoices_of customers key seen = []).

(** Whether a character occurs in a string. *)
Fixpoint occurs (x : ascii) (s : string) : bool :=
  match s with
  | EmptyString => false
  | String c rest => Ascii.eqb c x || occurs x rest
  end.

(** * Properties *)

Unset Implicit Arguments.

(** ** Lists, lookups and the middleware chain *)

Lemma find_first_match {A : Type} (f : A -> bool) (l : list A) (x : A) :
  In x l -> f x = true -> exists y, find f l = Some y /\ In y l /\ f y = true.
Proof.
  induction l as [|a l IH]; simpl; intros Hin Hf.
  - contradiction.
  - destruct (f a) eqn:Ha.
    + exists a. auto.
    + destruct Hin as [->|Hin]; [congruence|].
      destruct (IH Hin Hf) as (y & Hy & Hyin & Hfy). exists y. auto.
Qed.

Lemma findIndex_of_find {A : Type} (f : A -> bool) (l : list A) (x : A) :
  find f l = Some x ->
  exists i, findIndex f l = Some i /\ nth_error l i = Some x.
Proof.
  induction l as [|a l IH]; simpl; intros H.
  - discriminate.
  - destruct (f a).
    + exists O. inversion H. auto.
    + destruct (IH H) as (i & Hi & Hn). exists (S i). rewrite Hi. auto.
Qed.

Lemma findIndex_none_of_find {A : Type} (f : A -> bool) (l : list A) :
  find f l = None -> findIndex f l = None.
Proof.
  induction l as [|a l IH]; simpl; intros H; auto.
  destruct (f a); [discriminate|]. now rewrite IH.
Qed.

Lemma assign_nth {A : Type} (l : list A) (i : nat) (x y : A) :
  nth_error l i = Some y -> nth_error (assign i x l) i = Some x.
Proof.
  revert i. induction l as [|a l IH]; intros [|i]; simpl; intros H;
    try discriminate; auto.
Qed.

Lemma in_assign {A : Type} (l : list A) (i : nat) (x y : A) :
  nth_error l i = Some y -> In x (assign i x l).
Proof.
  intros H. eapply nth_error_In. eapply assign_nth. eassumption.
Qed.

Section Properties.
Context {RT : Runtime} {BC : Bcrypt} {JW : Jwt}.

(** What [authMiddleware] has established when it calls [next()]. *)
Lemma authMiddleware_next (w : World) (req req' : Request) :
  Routes.authMiddleware w req = inr req' ->
  exists token payload u,
    AuthService.extractTokenFromHeader (headers_authorization req) = Some token
    /\ AuthService.verifyToken token (clock w) = Some payload
    /\ Storage.getUserWithRole (JWTPayload.userId payload) w = Some u
    /\ req' = set_user u req.
Proof.
  unfold Routes.authMiddleware. intros H.
  destruct (AuthService.extractTokenFromHeader _) as [token|] eqn:Ht;
    [|discriminate].
  destruct (String.eqb token ""); [discriminate|].
  destruct (AuthService.verifyToken token (clock w)) as [payload|] eqn:Hv;
    [|discriminate].
  destruct (Storage.getUserWithRole _ w) as [u|] eqn:Hu; [|discriminate].
  inversion H. exists token, payload, u. auto.
Qed.

(** Every answer [authMiddleware] gives itself is a 401. *)
Lemma authMiddleware_answer (w : World) (req : Request) (res : Response) :
  Routes.authMiddleware w req = inl res -> status res = 401%nat.
Proof.
  unfold Routes.authMiddleware. intros H.
  destruct (AuthService.extractTokenFromHeader _) as [token|];
    [|inversion H; reflexivity].
  destruct (String.eqb token ""); [inversion H; reflexivity|].
  destruct (AuthService.verifyToken token (clock w)) as [payload|];
    [|inversion H; reflexivity].
  destruct (Storage.getUserWithRole _ w); inversion H; reflexivity.
Qed.

(** A route guarded by authentication and one permission: either a
    middleware answered (401 or 403, nothing written), or the handler ran
    for a user the store holds and whose rows grant the action. *)
Lemma guarded_route (module : string) (action : Action) (h : Handler)
    (w w' : World) (req : Request) (res : Response) :
  route [Routes.authMiddleware; Routes.requirePermission module action] h w req
    = (w', res) ->
  (w' = w /\ (status res = 401%nat \/ status res = 403%nat))
  \/ exists u,
       Routes.authMiddleware w req = inr (set_user u req)
       /\ Routes.permitted (UserWithRole.permissions u) module action = true
       /\ h w (set_user u req) = (w', res).
Proof.
  simpl. intros H.
  destruct (Routes.authMiddleware w req) as [r|req'] eqn:Hauth.
  - inversion H; subst. left. split; [reflexivity|].
    left. eapply authMiddleware_answer; eauto.
  - destruct (authMiddleware_next _ _ _ Hauth) as (token & payload & u & _ & _ & _ & ->).
    unfold Routes.requirePermission in H. simpl in H.
    destruct (Routes.permitted _ module action) eqn:Hp; simpl in H.
    + right. exists u. auto.
    + inversion H; subst. left. auto.
Qed.

(** The rows attached to a loaded user are the stored rows of the user's
    role. *)
Lemma getUserWithRole_rows (id : string) (w : World) (u : UserWithRole.t) :
  Storage.getUserWithRole id w = Some u ->
  UserWithRole.permissions u
  = filter (fun p => String.eqb (Permission.roleId p)
                                (User.roleId (UserWithRole.user u)))
           (permissions_json (files w)).
Proof.
  unfold Storage.getUserWithRole. intros H.
  destruct (Storage.getUser id w) as [usr|]; [|discriminate].
  destruct (find _ (roles_json (files w))); [|discriminate].
  destruct (find _ (companies_json (files w))); [|discriminate].
  inversion H. reflexivity.
Qed.

(** ** Authorization (C6) *)

(** C6, amended. Authorization is default-deny on the role the store
    holds for the user now, not on the role of the token's claims. For a
    user loaded from the store, under the invariant of one permission row
    per (role, module): when a stored row exists for the user's stored role
    and the module, [requirePermission] lets a create request pass exactly
    when the row's [canCreate] is set, a read request when [canRead] is, an
    update request when [canUpdate] is and a delete request when [canDelete]
    is, and answers 403 otherwise; when no such row exists it answers 403
    for every action. The client helper [hasPermission] reads the same
    flags. *)
Theorem requirePermission_default_deny
    (w : World) (id : string) (u : UserWithRole.t) (req : Request)
    (module : string) :
  Storage.getUserWithRole id w = Some u ->
  user req = Some u ->
  unique_rows (permissions_json (files w)) ->
  (forall p,
      In p (permissions_json (files w)) ->
      Permission.roleId p = User.roleId (UserWithRole.user u) ->
      Permission.module p = module ->
      (Routes.requirePermission module canCreate w req
       = if Permission.canCreate p then inr req
         else inl (respond 403 (Message "Insufficient permissions")))
      /\ (Routes.requirePermission module canRead w req
          = if Permission.canRead p then inr req
            else inl (respond 403 (Message "Insufficient permissions")))
      /\ (Routes.requirePermission module canUpdate w req
          = if Permission.canUpdate p then inr req
            else inl (respond 403 (Message "Insufficient permissions")))
      /\ (Routes.requirePermission module canDelete w req
          = if Permission.canDelete p then inr req
            else inl (respond 403 (Message "Insufficient permissions")))
      /\ Client.hasPermission (Some u) module canCreate = Permission.canCreate p
      /\ Client.hasPermission (Some u) module canRead = Permission.canRead p
      /\ Client.hasPermission (Some u) module canUpdate = Permission.canUpdate p
      /\ Client.hasPermission (Some u) module canDelete = Permission.canDelete p)
  /\ ((forall p,
         In p (permissions_json (files w)) ->
         Permission.roleId p = User.roleId (UserWithRole.user u) ->
         Permission.module p <> module) ->
      forall action,
        Routes.requirePermission module action w req
        = inl (respond 403 (Message "Insufficient permissions"))
        /\ Client.hasPermission (Some u) module action = false).
Proof.
  intros Hu Hreq Huniq.
  pose proof (getUserWithRole_rows _ _ _ Hu) as Hrows.
  unfold Routes.requirePermission, Routes.permitted, Client.hasPermission.
  rewrite Hreq, Hrows.
  set (rows := filter _ (permissions_json (files w))).
  set (f := fun p : Permission.t => String.eqb (Permission.module p) module).
  split.
  - intros p Hin Hrole Hmod.
    assert (Hp : In p rows).
    { apply filter_In. split; [assumption|]. now apply String.eqb_eq. }
    assert (Hfp : f p = true) by (now apply String.eqb_eq).
    destruct (find_first_match f rows p Hp Hfp) as (q & Hq & Hqin & Hfq).
    rewrite Hq.
    apply filter_In in Hqin. destruct Hqin as [Hqin Hqrole].
    apply String.eqb_eq in Hqrole. apply String.eqb_eq in Hfq.
    assert (q = p) as ->.
    { apply Huniq; try assumption; congruence. }
    cbn [flag].
    destruct (Permission.canCreate p), (Permission.canRead p),
      (Permission.canUpdate p), (Permission.canDelete p);
      repeat split; reflexivity.
  - intros Hnone action.
    destruct (find f rows) as [q|] eqn:Hq; [|split; reflexivity].
    apply find_some in Hq. destruct Hq as [Hqin Hfq].
    apply filter_In in Hqin. destruct Hqin as [Hqin Hqrole].
    apply String.eqb_eq in Hqrole. apply String.eqb_eq in Hfq.
    exfalso. exact (Hnone q Hqin Hqrole Hfq).
Qed.

(** ** Login (C7, C8) *)

(** C7. For login requests the schema accepts, an e-mail no user has and an
    e-mail a user has, given with a password that does not match the stored
    hash, get the same answer: status 401 with the message
    "Invalid credentials", and the store is left as it was. *)
Theorem login_invalid_credentials_uniform
    (w : World) (req1 req2 : Request)
    (email1 password1 email2 password2 : string) (existing : User.t) :
  loginSchema (body req1) = Some (email1, password1) ->
  loginSchema (body req2) = Some (email2, password2) ->
  Storage.getUserByEmail email1 w = None ->
  Storage.getUserByEmail email2 w = Some existing ->
  (forall u,
      Storage.getUserByEmailWithRole email2 w = Some u ->
      AuthService.comparePassword password2 (User.password (UserWithRole.user u))
      = false) ->
  Routes.post_auth_login w req1
  = (w, respond 401 (Message "Invalid credentials"))
  /\ Routes.post_auth_login w req2 = Routes.post_auth_login w req1.
Proof.
  intros Hs1 Hs2 Hnone Hsome Hwrong.
  assert (H1 : Routes.post_auth_login w req1
               = (w, respond 401 (Message "Invalid credentials"))).
  { unfold Routes.post_auth_login. rewrite Hs1.
    unfold Storage.getUserByEmailWithRole. rewrite Hnone. reflexivity. }
  split; [exact H1|].
  rewrite H1. unfold Routes.post_auth_login. rewrite Hs2.
  destruct (Storage.getUserByEmailWithRole email2 w) as [u|] eqn:Hu;
    [|reflexivity].
  rewrite (Hwrong u eq_refl). reflexivity.
Qed.

(** A request the login schema rejects is answered 400 whatever the store
    holds: the answer says nothing about which accounts exist. *)
Lemma login_malformed (w : World) (req : Request) :
  loginSchema (body req) = None ->
  Routes.post_auth_login w req
  = (w, respond 400 (Message "Invalid request data")).
Proof.
  intros Hs. unfold Routes.post_auth_login. rewrite Hs. reflexivity.
Qed.


(** ** Creation under the caller's tenant (C10) *)

(** [requireCompanyScope] never writes to the request. *)
Lemma requireCompanyScope_next (w : World) (req req' : Request) :
  Routes.requireCompanyScope w req = inr req' -> req' = req.
Proof.
  unfold Routes.requireCompanyScope. intros H.
  destruct (user req); [|discriminate].
  destruct (String.eqb _ "Super Admin"); [now inversion H|].
  destruct (truthy _ && _); [discriminate|now inversion H].
Qed.

Lemma requireCompanyScope_answer (w : World) (req : Request) (res : Response) :
  Routes.requireCompanyScope w req = inl res ->
  status res = 403%nat \/ status res = 500%nat.
Proof.
  unfold Routes.requireCompanyScope. intros H.
  destruct (user req); [|inversion H; auto].
  destruct (String.eqb _ "Super Admin"); [discriminate|].
  destruct (truthy _ && _); inversion H; auto.
Qed.

Lemma post_products_created (w w' : World) (req : Request) (res : Response) :
  Routes.post_products w req = (w', res) ->
  status res = 201%nat ->
  exists u p,
    Routes.authMiddleware w req = inr (set_user u req)
    /\ payload res = ProductJson p
    /\ Product.companyId p = User.companyId (UserWithRole.user u)
    /\ In p (products_json (files w')).
Proof.
  intros H Hcode. apply guarded_route in H.
  destruct H as [[_ [Hs|Hs]] | (u & Hauth & _ & Hh)];
    try (rewrite Hs in Hcode; discriminate).
  simpl in Hh.
  destruct (insertProductSchema (body req)) as [productData|];
    [|inversion Hh; subst; discriminate].
  inversion Hh; subst; clear Hh.
  eexists u, _. repeat split; try reflexivity; try assumption.
  simpl. apply in_or_app. right. left. reflexivity.
Qed.

Lemma post_customers_created (w w' : World) (req : Request) (res : Response) :
  Routes.post_customers w req = (w', res) ->
  status res = 201%nat ->
  exists u c,
    Routes.authMiddleware w req = inr (set_user u req)
    /\ payload res = CustomerJson c
    /\ Customer.companyId c = User.companyId (UserWithRole.user u)
    /\ In c (customers_json (files w')).
Proof.
  intros H Hcode. apply guarded_route in H.
  destruct H as [[_ [Hs|Hs]] | (u & Hauth & _ & Hh)];
    try (rewrite Hs in Hcode; discriminate).
  simpl in Hh.
  destruct (insertCustomerSchema (body req)) as [customerData|];
    [|inversion Hh; subst; discriminate].
  inversion Hh; subst; clear Hh.
  eexists u, _. repeat split; try reflexivity; try assumption.
  simpl. apply in_or_app. right. left. reflexivity.
Qed.

Lemma post_invoices_created (w w' : World) (req : Request) (res : Response) :
  Routes.post_invoices w req = (w', res) ->
  status res = 201%nat ->
  exists u i,
    Routes.authMiddleware w req = inr (set_user u req)
    /\ payload res = InvoiceJson i
    /\ Invoice.companyId i = User.companyId (UserWithRole.user u)
    /\ In i (invoices_json (files w')).
Proof.
  intros H Hcode. apply guarded_route in H.
  destruct H as [[_ [Hs|Hs]] | (u & Hauth & _ & Hh)];
    try (rewrite Hs in Hcode; discriminate).
  simpl in Hh.
  destruct (insertInvoiceSchema (body req)) as [validatedInvoice|];
    [|inversion Hh; subst; discriminate].
  destruct (Zod.array insertInvoiceItemSchema (prop "items" (body req)))
    as [validatedItems|]; [|inversion Hh; subst; discriminate].
  inversion Hh; subst; clear Hh.
  eexists u, _. repeat split; try reflexivity; try assumption.
  simpl. apply in_or_app. right. left. reflexivity.
Qed.

Lemma post_users_created (w w' : World) (req : Request) (res : Response) :
  Routes.post_users w req = (w', res) ->
  status res = 201%nat ->
  exists u x,
    Routes.authMiddleware w req = inr (set_user u req)
    /\ payload res = UserJson x
    /\ In x (users_json (files w'))
    /\ (Role.name (UserWithRole.role u) <> "Super Admin" ->
        User.companyId x = User.companyId (UserWithRole.user u)).
Proof.
  unfold Routes.post_users. cbn [route]. intros H Hcode.
  destruct (Routes.authMiddleware w req) as [r|req'] eqn:Hauth.
  { inversion H; subst. apply authMiddleware_answer in Hauth.
    rewrite Hauth in Hcode. discriminate. }
  destruct (authMiddleware_next _ _ _ Hauth) as (token & payload & u & _ & _ & _ & ->).
  unfold Routes.requirePermission in H. cbn [user set_user] in H.
  destruct (Routes.permitted _ "users" canCreate); cbn [negb] in H;
    [|inversion H; subst; discriminate].
  destruct (Routes.requireCompanyScope w (set_user u req)) as [r|req'] eqn:Hscope.
  { inversion H; subst. apply requireCompanyScope_answer in Hscope.
    destruct Hscope as [Hs|Hs]; rewrite Hs in Hcode; discriminate. }
  apply requireCompanyScope_next in Hscope. subst req'.
  cbn [user set_user body] in H.
  destruct (insertUserSchema (body req)) as [userData|];
    [|inversion H; subst; discriminate].
  inversion H; subst; clear H.
  eexists u, _. repeat split; try reflexivity.
  - simpl. apply in_or_app. right. left. reflexivity.
  - intros Hrole. apply String.eqb_neq in Hrole. rewrite Hrole. reflexivity.
Qed.

(** C10. A create request for a product, a customer, an invoice or a user
    that is answered 201 was made by a user [authMiddleware] loaded from the
    store, and the record returned and appended to the collection carries
    that user's [companyId], whatever the body said; for a user record this
    holds whenever the caller's role is not Super Admin. *)
Theorem create_takes_caller_company
    (w w' : World) (req : Request) (res : Response) :
  status res = 201%nat ->
  (Routes.post_products w req = (w', res) ->
   exists u p,
     Routes.authMiddleware w req = inr (set_user u req)
     /\ payload res = ProductJson p
     /\ Product.companyId p = User.companyId (UserWithRole.user u)
     /\ In p (products_json (files w')))
  /\ (Routes.post_customers w req = (w', res) ->
      exists u c,
        Routes.authMiddleware w req = inr (set_user u req)
        /\ payload res = CustomerJson c
        /\ Customer.companyId c = User.companyId (UserWithRole.user u)
        /\ In c (customers_json (files w')))
  /\ (Routes.post_invoices w req = (w', res) ->
      exists u i,
        Routes.authMiddleware w req = inr (set_user u req)
        /\ payload res = InvoiceJson i
        /\ Invoice.companyId i = User.companyId (UserWithRole.user u)
        /\ In i (invoices_json (files w')))
  /\ (Routes.post_users w req = (w', res) ->
      exists u x,
        Routes.authMiddleware w req = inr (set_user u req)
        /\ payload res = UserJson x
        /\ In x (users_json (files w'))
        /\ (Role.name (UserWithRole.role u) <> "Super Admin" ->
            User.companyId x = User.companyId (UserWithRole.user u))).
Proof.
  intros Hcode. repeat split; intros H.
  - eapply post_products_created; eauto.
  - eapply post_customers_created; eauto.
  - eapply post_invoices_created; eauto.
  - eapply post_users_created; eauto.
Qed.

(** ** What the by-id and invoice routes do not check *)

(** Past authentication and the permission test the handler runs. *)
Lemma guarded_route_run (module : string) (action : Action) (h : Handler)
    (w : World) (req : Request) (u : UserWithRole.t) :
  Routes.authMiddleware w req = inr (set_user u req) ->
  Routes.permitted (UserWithRole.permissions u) module action = true ->
  route [Routes.authMiddleware; Routes.requirePermission module action] h w req
  = h w (set_user u req).
Proof.
  intros Hauth Hperm. cbn [route]. rewrite Hauth.
  unfold Routes.requirePermission. cbn [user set_user]. rewrite Hperm.
  reflexivity.
Qed.

(** [PUT /api/products/:id] updates whichever product has the id: for a
    caller with the update permission the answer is 200 for every stored
    product, and the product's [companyId] is never compared with the
    caller's. *)
Lemma put_products_id_any_tenant (w : World) (req : Request)
    (u : UserWithRole.t) (patch : PartialInsertProduct.t) (old : Product.t) :
  Routes.authMiddleware w req = inr (set_user u req) ->
  Routes.permitted (UserWithRole.permissions u) "products" canUpdate = true ->
  insertProductSchema_partial (body req) = Some patch ->
  Storage.getProduct (Routes.params_id req) w = Some old ->
  exists w' p,
    Routes.put_products_id w req = (w', respond 200 (ProductJson p))
    /\ Product.id p = Product.id old
    /\ Product.companyId p
       = spread (Product.companyId old) (PartialInsertProduct.companyId patch)
    /\ In p (products_json (files w')).
Proof.
  intros Hauth Hperm Hbody Hold.
  unfold Routes.put_products_id.
  rewrite (guarded_route_run _ _ _ _ _ _ Hauth Hperm).
  cbn [body set_user]. rewrite Hbody.
  unfold Storage.getProduct in Hold.
  destruct (findIndex_of_find _ _ _ Hold) as (index & Hindex & Hnth).
  unfold Storage.updateProduct.
  change (Routes.params_id (set_user u req)) with (Routes.params_id req).
  rewrite Hindex, Hnth.
  eexists _, _. repeat split.
  simpl. eapply in_assign. eassumption.
Qed.

(** [POST /api/invoices] stores the three amounts as the body gives them and
    the items as they come, an empty list included. *)
Lemma post_invoices_stores_body (w : World) (req : Request)
    (u : UserWithRole.t) (given : InsertInvoice.t)
    (items : list InsertInvoiceItem.t) :
  Routes.authMiddleware w req = inr (set_user u req) ->
  Routes.permitted (UserWithRole.permissions u) "invoices" canCreate = true ->
  insertInvoiceSchema (body req) = Some given ->
  Zod.array insertInvoiceItemSchema (prop "items" (body req)) = Some items ->
  exists w' i,
    Routes.post_invoices w req = (w', respond 201 (InvoiceJson i))
    /\ Invoice.subtotal i = InsertInvoice.subtotal given
    /\ Invoice.tax i = InsertInvoice.tax given
    /\ Invoice.total i = InsertInvoice.total given
    /\ invoices_json (files w') = (invoices_json (files w) ++ [i])%list
    /\ invoice_items_json (files w')
       = (invoice_items_json (files w)
          ++ Storage.newItems (Invoice.id i) (S (drawn w)) items)%list.
Proof.
  intros Hauth Hperm Hbody Hitems.
  unfold Routes.post_invoices.
  rewrite (guarded_route_run _ _ _ _ _ _ Hauth Hperm).
  cbn [body user set_user]. rewrite Hbody, Hitems.
  eexists _, _. repeat split.
Qed.

(** ** Session verification (C5) *)

(** C5, amended. For a request whose header carries a non-empty bearer
    token: [verifyToken] looks at the token and the clock only; when it
    fails the answer is 401 "Invalid token"; when it yields claims,
    [authMiddleware] reads the user with the claimed [userId] from the store
    as it is now and the request goes on as that stored user, with the role,
    company and permission rows stored now (the other claims are not used),
    or is answered 401 "User not found" when the user, the role or the
    company is no longer stored. The [isActive] flag is not read. *)
Theorem authMiddleware_reloads_user
    (w : World) (req : Request) (token : string) :
  AuthService.extractTokenFromHeader (headers_authorization req) = Some token ->
  token <> "" ->
  Routes.authMiddleware w req
  = match AuthService.verifyToken token (clock w) with
    | None => inl (respond 401 (Message "Invalid token"))
    | Some claims =>
        match Storage.getUserWithRole (JWTPayload.userId claims) w with
        | None => inl (respond 401 (Message "User not found"))
        | Some u => inr (set_user u req)
        end
    end.
Proof.
  intros Hheader Htoken. unfold Routes.authMiddleware. rewrite Hheader.
  apply String.eqb_neq in Htoken. rewrite Htoken. reflexivity.
Qed.

Lemma substring_all (s : string) : String.substring 0 (String.length s) s = s.
Proof. induction s as [|c s IH]; simpl; [reflexivity|now rewrite IH]. Qed.

Lemma extractTokenFromHeader_bearer (token : string) :
  AuthService.extractTokenFromHeader (Some ("Bearer " ++ token)) = Some token.
Proof.
  unfold AuthService.extractTokenFromHeader. simpl.
  rewrite Nat.sub_0_r, substring_all. destruct token; reflexivity.
Qed.

(** The token [generateToken] issues, carried as bearer credential: within
    24 hours of issuance the request proceeds exactly when the user with the
    token's [userId] still loads from the store, as the stored user; from the
    expiry on the answer is 401 "Invalid token". *)
Lemma session_lifetime (issuer : UserWithRole.t) (iat : Z) (w : World)
    (req : Request) :
  Jwt_lawful JW ->
  headers_authorization req
  = Some ("Bearer " ++ AuthService.generateToken issuer iat) ->
  AuthService.generateToken issuer iat <> "" ->
  ((iat <= clock w < iat + 86400)%Z ->
   Routes.authMiddleware w req
   = match Storage.getUserWithRole (User.id (UserWithRole.user issuer)) w with
     | None => inl (respond 401 (Message "User not found"))
     | Some u => inr (set_user u req)
     end)
  /\ ((iat + 86400 <= clock w)%Z ->
      Routes.authMiddleware w req = inl (respond 401 (Message "Invalid token"))).
Proof.
  intros [Hfresh Hexpired] Hheader Hnonempty.
  apply String.eqb_neq in Hnonempty.
  unfold Routes.authMiddleware.
  rewrite Hheader, extractTokenFromHeader_bearer, Hnonempty.
  unfold AuthService.verifyToken, AuthService.generateToken,
    AuthService.JWT_EXPIRES_IN.
  split; intros Hclock.
  - rewrite Hfresh by exact Hclock. reflexivity.
  - rewrite Hexpired by exact Hclock. reflexivity.
Qed.

(** A request that names no company passes [requireCompanyScope] for every
    authenticated user: the middleware never looks at a stored record. *)
Lemma requireCompanyScope_unnamed (w : World) (req : Request)
    (u : UserWithRole.t) :
  user req = Some u ->
  assoc "companyId" (params req) = None ->
  prop "companyId" (body req) = None ->
  assoc "companyId" (query req) = None ->
  Routes.requireCompanyScope w req = inr req.
Proof.
  intros Hu Hparams Hbody Hquery. unfold Routes.requireCompanyScope.
  rewrite Hu, Hparams, Hbody, Hquery. simpl.
  destruct (String.eqb _ "Super Admin"); reflexivity.
Qed.

End Properties.

(** ** The invoice form *)

Lemma min1_accepts (s message : string) : Client.min1 s message = [] <-> s <> "".
Proof.
  unfold Client.min1. destruct s as [|c s]; simpl.
  - split; [discriminate|congruence].
  - split; [discriminate|reflexivity].
Qed.

Lemma app_nil_iff {A : Type} (l1 l2 : list A) :
  (l1 ++ l2)%list = [] <-> l1 = [] /\ l2 = [].
Proof.
  split.
  - apply app_eq_nil.
  - intros [-> ->]. reflexivity.
Qed.

(** The item schema of the invoice forms accepts an item exactly when its
    product id and description are non-empty, its quantity is at least 1 and
    its unit price is at least 0; a quantity below 1 raises
    "Quantity must be at least 1" and a unit price below 0 raises
    "Unit price must be positive". *)
Lemma form_item_rule (item : Client.FormItem) :
  (Client.invoiceItemSchema item = []
   <-> Client.fi_productId item <> "" /\ Client.fi_description item <> ""
       /\ 1 <= Client.fi_quantity item /\ 0 <= Client.fi_unitPrice item)
  /\ (Client.fi_quantity item < 1 ->
      In "Quantity must be at least 1" (Client.invoiceItemSchema item))
  /\ (Client.fi_unitPrice item < 0 ->
      In "Unit price must be positive" (Client.invoiceItemSchema item)).
Proof.
  unfold Client.invoiceItemSchema. repeat split.
  - rewrite !app_nil_iff in H. apply min1_accepts with (message := "Product is required"). tauto.
  - rewrite !app_nil_iff in H. apply min1_accepts with (message := "Description is required"). tauto.
  - rewrite !app_nil_iff in H. destruct H as (_ & _ & H & _).
    destruct (Qle_bool 1 (Client.fi_quantity item)) eqn:E; [|discriminate].
    now apply Qle_bool_iff.
  - rewrite !app_nil_iff in H. destruct H as (_ & _ & _ & H).
    destruct (Qle_bool 0 (Client.fi_unitPrice item)) eqn:E; [|discriminate].
    now apply Qle_bool_iff.
  - intros (Hp & Hd & Hq & Hu).
    apply Qle_bool_iff in Hq. apply Qle_bool_iff in Hu. rewrite Hq, Hu.
    apply (min1_accepts _ "Product is required") in Hp.
    apply (min1_accepts _ "Description is required") in Hd.
    rewrite Hp, Hd. reflexivity.
  - intros Hq.
    destruct (Qle_bool 1 (Client.fi_quantity item)) eqn:E.
    + apply Qle_bool_iff in E. exfalso. apply (Qlt_not_le _ _ Hq E).
    + apply in_or_app. right. apply in_or_app. right. left. reflexivity.
  - intros Hu.
    destruct (Qle_bool 0 (Client.fi_unitPrice item)) eqn:E.
    + apply Qle_bool_iff in E. exfalso. apply (Qlt_not_le _ _ Hu E).
    + apply in_or_app. right. apply in_or_app. right.
      apply in_or_app. right. left. reflexivity.
Qed.

(** ** The rows of the sales report *)

Lemma map_fst_update_row key f acc :
  map fst (Reports.update_row key f acc) = map fst acc.
Proof.
  induction acc as [|[k r] acc IH]; simpl; [reflexivity|].
  destruct (String.eqb key k); simpl; [reflexivity|now rewrite IH].
Qed.

Lemma assoc_none_not_in {A : Type} key (acc : list (string * A)) :
  assoc key acc = None -> ~ In key (map fst acc).
Proof.
  induction acc as [|[k r] acc IH]; simpl; intros H; [tauto|].
  destruct (String.eqb key k) eqn:E; [discriminate|].
  apply String.eqb_neq in E. intros [Hk|Hin]; [congruence|]. now apply IH.
Qed.

Lemma assoc_some_in {A : Type} key (acc : list (string * A)) r :
  assoc key acc = Some r -> In (key, r) acc.
Proof.
  induction acc as [|[k r0] acc IH]; simpl; intros H; [discriminate|].
  destruct (String.eqb key k) eqn:E.
  - apply String.eqb_eq in E. inversion H; subst. now left.
  - right. now apply IH.
Qed.

Lemma in_update_row key f acc k row :
  NoDup (map fst acc) ->
  In (k, row) (Reports.update_row key f acc) ->
  (k <> key /\ In (k, row) acc)
  \/ (k = key /\ exists r0, In (key, r0) acc /\ row = f r0).
Proof.
  induction acc as [|[k0 r0] acc IH]; simpl; intros Hnd Hin; [contradiction|].
  inversion Hnd as [|? ? Hnotin Hnd']; subst.
  destruct (String.eqb key k0) eqn:E.
  - apply String.eqb_eq in E. subst k0. destruct Hin as [Heq|Hin].
    + inversion Heq; subst. right. split; [reflexivity|]. exists r0. auto.
    + left. split; [|now right].
      intros ->. apply Hnotin. apply (in_map fst) in Hin. exact Hin.
  - apply String.eqb_neq in E. destruct Hin as [Heq|Hin].
    + inversion Heq; subst. left. split; [congruence|now left].
    + destruct (IH Hnd' Hin) as [[Hne Hin']|[-> (r1 & Hin' & ->)]].
      * left. split; [assumption|now right].
      * right. split; [reflexivity|]. exists r1. split; [now right|reflexivity].
Qed.

Lemma NoDup_snoc {A : Type} (l : list A) (x : A) :
  NoDup l -> ~ In x l -> NoDup (l ++ [x]).
Proof.
  induction l as [|a l IH]; simpl; intros Hnd Hx.
  - constructor; [tauto|constructor].
  - inversion Hnd as [|? ? Ha Hnd']; subst. constructor.
    + intros Hin. apply in_app_or in Hin. destruct Hin as [Hin|[->|[]]]; tauto.
    + apply IH; tauto.
Qed.

Lemma revenue_snoc l i :
  revenue (l ++ [i]) = Double.add (revenue l) (Double.ofQ (Invoice.total i)).
Proof. unfold revenue. rewrite fold_left_app. reflexivity. Qed.

Lemma invoices_of_snoc customers key seen i :
  invoices_of customers key (seen ++ [i])
  = (invoices_of customers key seen
     ++ if String.eqb (Reports.getCustomerName customers (Invoice.customerId i)) key
        then [i] else [])%list.
Proof.
  unfold invoices_of. rewrite filter_app. simpl.
  destruct (String.eqb _ key); reflexivity.
Qed.

Lemma row_sums_other customers seen i key row :
  Reports.getCustomerName customers (Invoice.customerId i) <> key ->
  row_sums customers seen key row ->
  row_sums customers (seen ++ [i]) key row.
Proof.
  intros Hne H. unfold row_sums in *. rewrite invoices_of_snoc.
  apply String.eqb_neq in Hne. rewrite Hne, app_nil_r. exact H.
Qed.

Lemma aggregated_step customers seen acc i :
  aggregated customers seen acc ->
  aggregated customers (seen ++ [i]) (Reports.salesByCustomer_step customers acc i).
Proof.
  intros (Hnd & Hrows & Hnone). unfold Reports.salesByCustomer_step.
  set (name := Reports.getCustomerName customers (Invoice.customerId i)).
  destruct (Reports.inherited name) eqn:Hinh.
  - split; [exact Hnd|]. split.
    + intros key row Hin. apply row_sums_other; [|now apply Hrows].
      fold name. intros ->. destruct (Hrows _ _ Hin) as (_ & Hk & _). congruence.
    + intros key Hk Hnotin. rewrite invoices_of_snoc. fold name.
      assert (Hne : name <> key) by (intros ->; congruence).
      apply String.eqb_neq in Hne. rewrite Hne, app_nil_r. now apply Hnone.
  - set (acc1 := match assoc name acc with
                 | Some _ => acc
                 | None => (acc ++ [(name, {| Reports.customerName := name;
                                              Reports.invoiceCount := 0;
                                              Reports.totalRevenue := Double.zero;
                                              Reports.paidRevenue := Double.zero |})])%list
                 end).
    assert (Hnd1 : NoDup (map fst acc1)).
    { unfold acc1. destruct (assoc name acc) eqn:Ha; [exact Hnd|].
      rewrite map_app. simpl. apply NoDup_snoc; [exact Hnd|].
      now apply assoc_none_not_in. }
    assert (Hkeys : In name (map fst acc1)).
    { unfold acc1. destruct (assoc name acc) eqn:Ha.
      - apply assoc_some_in in Ha. apply (in_map fst) in Ha. exact Ha.
      - rewrite map_app. apply in_or_app. right. now left. }
    split; [now rewrite map_fst_update_row|]. split.
    + intros key row Hin.
      destruct (in_update_row _ _ _ _ _ Hnd1 Hin)
        as [[Hne Hin1]|[-> (r0 & Hin1 & ->)]].
      * apply row_sums_other; [fold name; congruence|]. apply Hrows.
        unfold acc1 in Hin1. destruct (assoc name acc); [exact Hin1|].
        apply in_app_or in Hin1. destruct Hin1 as [Hin1|[Heq|[]]]; [exact Hin1|].
        inversion Heq; subst. congruence.
      * unfold row_sums. rewrite invoices_of_snoc. fold name.
        rewrite String.eqb_refl.
        assert (Hr0 : Reports.customerName r0 = name
                      /\ Reports.invoiceCount r0
                         = List.length (invoices_of customers name seen)
                      /\ Reports.totalRevenue r0
                         = revenue (invoices_of customers name seen)
                      /\ Reports.paidRevenue r0
                         = revenue (paid_only (invoices_of customers name seen))).
        { unfold acc1 in Hin1. destruct (assoc name acc) eqn:Ha.
          - destruct (Hrows _ _ Hin1) as (H1 & _ & _ & H2 & H3 & H4). auto.
          - apply in_app_or in Hin1. destruct Hin1 as [Hin1|[Heq|[]]].
            + exfalso. apply (assoc_none_not_in _ _ Ha).
              apply (in_map fst) in Hin1. exact Hin1.
            + inversion Heq; subst r0.
              rewrite (Hnone name Hinh (assoc_none_not_in _ _ Ha)).
              simpl. repeat split; reflexivity. }
        destruct Hr0 as (Hn & Hc & Ht & Hp).
        split; [exact Hn|]. split; [exact Hinh|].
        split; [intros Habs; apply app_eq_nil in Habs; destruct Habs; discriminate|].
        split; [simpl; rewrite Hc, length_app; simpl; lia|].
        split.
        -- simpl. rewrite Ht, revenue_snoc. reflexivity.
        -- unfold paid_only. rewrite filter_app. simpl.
           destruct (Status_eqb (Invoice.status i) paid); simpl.
           ++ rewrite Hp, revenue_snoc. reflexivity.
           ++ rewrite Hp, app_nil_r. reflexivity.
    + intros key Hk Hnotin. rewrite map_fst_update_row in Hnotin.
      rewrite invoices_of_snoc. fold name.
      assert (Hne : name <> key) by (intros ->; contradiction).
      apply String.eqb_neq in Hne. rewrite Hne, app_nil_r. apply Hnone; [exact Hk|].
      intros Hin. apply Hnotin. unfold acc1. destruct (assoc name acc); [exact Hin|].
      rewrite map_app. apply in_or_app. now left.
Qed.

Lemma aggregated_fold customers l : forall seen acc,
  aggregated customers seen acc ->
  aggregated customers (seen ++ l)
    (fold_left (Reports.salesByCustomer_step customers) l acc).
Proof.
  induction l as [|i l IH]; intros seen acc H; simpl.
  - now rewrite app_nil_r.
  - replace (seen ++ i :: l)%list with ((seen ++ [i]) ++ l)%list
      by (rewrite <- app_assoc; reflexivity).
    apply IH. now apply aggregated_step.
Qed.

(** X11. Every row of the report counts and sums the invoices shown under
    its customer name: [invoiceCount] is their number, [totalRevenue] their
    totals added up as doubles from 0 in the order of the list, and
    [paidRevenue] the same sum over the paid ones among them. *)
Lemma salesReportData_rows customers l row :
  In row (Reports.salesReportData customers (Some l)) ->
  row_sums customers l (Reports.customerName row) row.
Proof.
  unfold Reports.salesReportData, Reports.salesByCustomer. intros Hin.
  apply in_map_iff in Hin. destruct Hin as ([key r] & Heq & Hin). simpl in Heq. subst r.
  assert (Hagg : aggregated customers ([] ++ l)
            (fold_left (Reports.salesByCustomer_step customers) l [])).
  { apply aggregated_fold. split; [constructor|]. split.
    - intros ? ? [].
    - reflexivity. }
  destruct Hagg as (_ & Hrows & _). simpl in Hrows.
  pose proof (Hrows _ _ Hin) as H.
  assert (Hname : Reports.customerName row = key) by apply H.
  rewrite Hname. exact H.
Qed.

(** ** The collection rate (C9) *)

(** Rounding a mantissa that is not negative never yields NaN. *)
Lemma iter_pos_invariant {A : Type} (P : A -> Prop) (f : A -> A) :
  (forall x, P x -> P (f x)) -> forall n x, P x -> P (iter_pos f n x).
Proof.
  intros Hf. induction n as [n IH|n IH|]; intros x Hx; simpl.
  - apply IH, IH, Hf, Hx.
  - apply IH, IH, Hx.
  - apply Hf, Hx.
Qed.

Lemma shr_1_nonneg (mrs : shr_record) :
  (0 <= shr_m mrs)%Z -> (0 <= shr_m (shr_1 mrs))%Z.
Proof.
  destruct mrs as [m r x]. simpl.
  destruct m as [|[p|p|]|p]; simpl; intros H; lia.
Qed.

Lemma shr_fexp_nonneg (m e : Z) (l : location) :
  (0 <= m)%Z ->
  (0 <= shr_m (fst (shr_fexp Double.prec Double.emax m e l)))%Z.
Proof.
  intros Hm. unfold shr_fexp, shr.
  assert (H0 : (0 <= shr_m (shr_record_of_loc m l))%Z)
    by (destruct l as [|[]]; exact Hm).
  destruct (fexp Double.prec Double.emax (Zdigits2 m + e) - e)%Z as [|n|n];
    simpl; try exact H0.
  apply (iter_pos_invariant (fun mrs => (0 <= shr_m mrs)%Z));
    [apply shr_1_nonneg|exact H0].
Qed.

Lemma round_nearest_even_nonneg (m : Z) (l : location) :
  (0 <= m)%Z -> (0 <= round_nearest_even m l)%Z.
Proof.
  intros Hm. destruct l as [|[]]; simpl; try lia.
  destruct (Z.even m); lia.
Qed.

Lemma binary_round_aux_not_nan (s : bool) (m e : Z) (l : location) :
  (0 <= m)%Z ->
  binary_round_aux Double.prec Double.emax s m e l <> S754_nan.
Proof.
  intros Hm. unfold binary_round_aux.
  pose proof (shr_fexp_nonneg m e l Hm) as H1.
  destruct (shr_fexp Double.prec Double.emax m e l) as [mrs1 e1]. simpl in H1.
  pose proof (shr_fexp_nonneg _ e1 loc_Exact
                (round_nearest_even_nonneg _ (loc_of_shr_record mrs1) H1)) as H2.
  destruct (shr_fexp Double.prec Double.emax
              (round_nearest_even (shr_m mrs1) (loc_of_shr_record mrs1))
              e1 loc_Exact) as [mrs2 e2].
  simpl in H2. destruct (shr_m mrs2) as [|q|q].
  - discriminate.
  - destruct (e2 <=? Double.emax - Double.prec)%Z; discriminate.
  - lia.
Qed.

(** The quotient and the product of two finite doubles that are not zero
    are numbers or infinities. *)
Lemma div_finite_not_nan (s1 s2 : bool) (m1 m2 : positive) (e1 e2 : Z) :
  Double.div (S754_finite s1 m1 e1) (S754_finite s2 m2 e2) <> S754_nan.
Proof.
  unfold Double.div, SFdiv, SFdiv_core_binary.
  set (shift := (e1 - e2
                 - Z.min (fexp Double.prec Double.emax
                            (Zdigits2 (Z.pos m1) + e1 - (Zdigits2 (Z.pos m2) + e2)))
                         (e1 - e2))%Z).
  set (dividend := match shift with
                   | Z0 => Z.pos m1
                   | Zpos _ => Z.shiftl (Z.pos m1) shift
                   | Zneg _ => 0%Z
                   end).
  assert (Hd : (0 <= dividend)%Z).
  { unfold dividend. destruct shift; try lia. apply Z.shiftl_nonneg. lia. }
  pose proof (Z.div_pos dividend (Z.pos m2) Hd ltac:(lia)) as Hq.
  unfold Z.div in Hq.
  destruct (Z.div_eucl dividend (Z.pos m2)) as [q r].
  apply binary_round_aux_not_nan. exact Hq.
Qed.

Lemma mul_finite_not_nan (s1 s2 : bool) (m1 m2 : positive) (e1 e2 : Z) :
  Double.mul (S754_finite s1 m1 e1) (S754_finite s2 m2 e2) <> S754_nan.
Proof.
  unfold Double.mul, SFmul. apply binary_round_aux_not_nan. lia.
Qed.

Lemma toFixed1_NaN (x : Double.t) :
  Double.toFixed1 x = Double.TextNaN <-> x = S754_nan.
Proof.
  split; [|intros ->; reflexivity].
  destruct x as [s|[|]| |s m e]; simpl; try discriminate; try reflexivity.
  destruct (_ <=? _)%Z; discriminate.
Qed.

(** The product with 100 is NaN only for NaN. *)
Lemma mul_hundred_nan (x : Double.t) :
  Double.mul x Double.hundred = S754_nan <-> x = S754_nan.
Proof.
  split; [|intros ->; reflexivity].
  destruct x as [s|s| |s m e]; try discriminate; try reflexivity.
  intros H. exfalso. revert H. apply mul_finite_not_nan.
Qed.

(** C9, amended. For every row of the sales report, in the doubles the
    page computes with: when [totalRevenue > 0] does not hold, in particular
    when the total revenue is 0, the cell shows 0, so that nothing is divided
    by zero; when it holds, the cell shows [toFixed(1)] of the quotient of
    paid and total revenue times 100. The cell shows NaN exactly when the
    guard is passed with a paid revenue that is NaN, or with an infinite paid
    revenue over an infinite total revenue; with a finite paid revenue it
    never shows NaN. *)
Theorem collection_rate_guarded (item : Reports.CustomerSales) :
  (Double.ltb Double.zero (Reports.totalRevenue item) = false ->
   Reports.collectionRate item = Reports.RateZero)
  /\ (forall s,
         Reports.totalRevenue item = S754_zero s ->
         Reports.collectionRate item = Reports.RateZero)
  /\ (Double.ltb Double.zero (Reports.totalRevenue item) = true ->
      Reports.collectionRate item
      = Reports.RateText
          (Double.toFixed1
             (Double.mul (Double.div (Reports.paidRevenue item)
                                     (Reports.totalRevenue item))
                         Double.hundred)))
  /\ (Reports.collectionRate item = Reports.RateText Double.TextNaN
      <-> Double.ltb Double.zero (Reports.totalRevenue item) = true
          /\ (Reports.paidRevenue item = S754_nan
              \/ (Reports.totalRevenue item = S754_infinity false
                  /\ exists s, Reports.paidRevenue item = S754_infinity s)))
  /\ (finite_number (Reports.paidRevenue item) = true ->
      Reports.collectionRate item <> Reports.RateText Double.TextNaN).
Proof.
  assert (Hnan : Reports.collectionRate item = Reports.RateText Double.TextNaN
            <-> Double.ltb Double.zero (Reports.totalRevenue item) = true
                /\ (Reports.paidRevenue item = S754_nan
                    \/ (Reports.totalRevenue item = S754_infinity false
                        /\ exists s, Reports.paidRevenue item = S754_infinity s))).
  { unfold Reports.collectionRate.
    destruct (Double.ltb Double.zero (Reports.totalRevenue item)) eqn:Hgt.
    - split.
      + intros H. split; [reflexivity|].
        assert (Hq : Double.div (Reports.paidRevenue item)
                                (Reports.totalRevenue item) = S754_nan).
        { apply mul_hundred_nan, toFixed1_NaN. congruence. }
        destruct (Reports.totalRevenue item) as [st|[|]| |[|] mt et];
          try discriminate Hgt;
          destruct (Reports.paidRevenue item) as [sp|sp| |sp mp ep];
          try discriminate Hq; try (left; reflexivity);
          try (right; split; [reflexivity|exists sp; reflexivity]).
        exfalso. revert Hq. apply div_finite_not_nan.
      + intros [_ [Hp|[Ht [s Hp]]]].
        * rewrite Hp. reflexivity.
        * rewrite Ht, Hp. reflexivity.
    - split; [discriminate|]. intros [H _]. discriminate H. }
  split; [|split; [|split; [|split]]].
  - intros Hgt. unfold Reports.collectionRate. rewrite Hgt. reflexivity.
  - intros s Hs. unfold Reports.collectionRate. rewrite Hs. reflexivity.
  - intros Hgt. unfold Reports.collectionRate. rewrite Hgt. reflexivity.
  - exact Hnan.
  - intros Hfin H. apply Hnan in H. destruct H as [_ [Hp|[_ [s Hp]]]];
      rewrite Hp in Hfin; discriminate Hfin.
Qed.

(** * Runs on the concrete data *)

(** The stand-in for [jsonwebtoken] keeps the library's promise. *)
Lemma unframe_frame (s rest : string) :
  Demo.unframe (Demo.frame s ++ rest) = Some (s, rest).
Proof.
  induction s as [|c s IH]; simpl.
  - reflexivity.
  - rewrite IH. reflexivity.
Qed.

Lemma demo_jwt_lawful : Jwt_lawful Demo.jwt.
Proof.
  assert (Hverify : forall p secret lifetime iat now,
             Demo.verify (Demo.sign p secret lifetime iat) secret now
             = if (now <? iat + lifetime)%Z then Some p else None).
  { intros [uid cid rid mail] secret lifetime iat now.
    unfold Demo.verify, Demo.sign. cbn [JWTPayload.userId JWTPayload.companyId
      JWTPayload.roleId JWTPayload.email].
    rewrite !unframe_frame.
    replace (Demo.frame secret) with (Demo.frame secret ++ "")
      by (clear; induction (Demo.frame secret) as [|c t IH]; simpl; congruence).
    rewrite unframe_frame.
    rewrite NilEmpty.isi, DecimalZ.of_to.
    rewrite !String.eqb_refl. simpl. reflexivity. }
  split; intros p secret lifetime iat now Hnow; simpl; rewrite Hverify.
  - destruct (Z.ltb_spec now (iat + lifetime)); [reflexivity|lia].
  - destruct (Z.ltb_spec now (iat + lifetime)); [lia|reflexivity].
Qed.

(** ** Tenant scope on the by-id routes (C1) *)

(** C1, on the code. Alice is a Company Admin of Acme ("comp-a"); the product
    "prod-b1" belongs to Globex ("comp-b"). Her [PUT /api/products/prod-b1]
    is answered 200 and renames Globex's product, her
    [GET /api/invoices/inv-b1] returns Globex's invoice, and her
    [DELETE /api/users/user-carol] removes Globex's user: none is answered
    403. *)
Theorem cross_tenant_by_id_requests_succeed :
  (exists u,
      Routes.authMiddleware Demo.world Demo.takeover
      = inr (set_user u Demo.takeover)
      /\ Role.name (UserWithRole.role u) = "Company Admin"
      /\ User.companyId (UserWithRole.user u) = "comp-a")
  /\ option_map Product.companyId (Storage.getProduct "prod-b1" Demo.world)
     = Some "comp-b"
  /\ status (snd (Routes.put_products_id Demo.world Demo.takeover)) = 200%nat
  /\ option_map Product.name
       (Storage.getProduct "prod-b1"
          (fst (Routes.put_products_id Demo.world Demo.takeover)))
     = Some "taken over"
  /\ (exists details,
        snd (Routes.get_invoices_id Demo.world Demo.peek)
        = respond 200 (InvoiceDetailsJson details)
        /\ Invoice.companyId (InvoiceWithDetails.invoice details) = "comp-b")
  /\ snd (Routes.delete_users_id Demo.world Demo.evict) = respond 204 NoBody
  /\ Storage.getUser "user-carol"
       (fst (Routes.delete_users_id Demo.world Demo.evict)) = None.
Proof.
  split; [eexists; split; [vm_compute; reflexivity|split; reflexivity]|].
  split; [reflexivity|].
  split; [vm_compute; reflexivity|].
  split; [vm_compute; reflexivity|].
  split; [eexists; split; [vm_compute; reflexivity|reflexivity]|].
  split; vm_compute; reflexivity.
Qed.

(** ** Invoice amounts and items on the server (C2, C3) *)

(** C2, on the code. [POST /api/invoices] with subtotal 100, tax 0, total 5
    and one item of total 20 is answered 201, and the invoice is stored with
    these amounts: the stored invoice breaks the invariant. *)
Theorem skewed_invoice_is_stored :
  exists i,
    snd (Routes.post_invoices Demo.world Demo.skewed)
    = respond 201 (InvoiceJson i)
    /\ In i (invoices_json (files (fst (Routes.post_invoices Demo.world Demo.skewed))))
    /\ Invoice.subtotal i = 100
    /\ Invoice.tax i = 0
    /\ Invoice.total i = 5
    /\ sum_of_totals (items_of (fst (Routes.post_invoices Demo.world Demo.skewed)) i)
       == 20
    /\ ~ invoice_totals_consistent
           (fst (Routes.post_invoices Demo.world Demo.skewed)) i.
Proof.
  eexists. split; [vm_compute; reflexivity|].
  split; [vm_compute; auto|].
  repeat split.
  intros [Hsub _]. unfold within_tolerance in Hsub.
  apply Qle_bool_iff in Hsub. vm_compute in Hsub. discriminate.
Qed.

(** [PUT /api/invoices/:id] overwrites the amounts it is given and leaves the
    others: a new subtotal alone breaks the invariant of a consistent
    invoice. *)
Lemma put_invoice_subtotal_alone :
  invoice_totals_consistent Demo.world Demo.globexInvoice
  /\ exists i,
       snd (Routes.put_invoices_id Demo.world
              (Demo.request Demo.aliceToken [("id", "inv-b1")]
                 (JObj [("subtotal", JNum 1)])))
       = respond 200 (InvoiceJson i)
       /\ Invoice.subtotal i = 1 /\ Invoice.tax i = 400 /\ Invoice.total i = 5400.
Proof.
  split.
  - unfold invoice_totals_consistent, within_tolerance.
    repeat split; apply Qle_bool_iff; vm_compute; reflexivity.
  - eexists. split; [vm_compute; reflexivity|]. repeat split.
Qed.

(** Nothing the create modal posts passes the server's invoice schema: the
    body has no [companyId], amounts or status. *)
Lemma create_modal_body_rejected (data : Client.InvoiceFormValues) :
  insertInvoiceSchema (Client.createInvoiceBody data) = None.
Proof.
  unfold Client.createInvoiceBody.
  destruct (Client.fv_notes data); reflexivity.
Qed.

(** C3, on the code. [POST /api/invoices] with an empty list of items is
    answered 201: an invoice row is written, and it has no items. *)
Theorem itemless_invoice_is_stored :
  exists i,
    snd (Routes.post_invoices Demo.world Demo.itemless)
    = respond 201 (InvoiceJson i)
    /\ invoices_json (files (fst (Routes.post_invoices Demo.world Demo.itemless)))
       = (invoices_json (files Demo.world) ++ [i])%list
    /\ items_of (fst (Routes.post_invoices Demo.world Demo.itemless)) i = [].
Proof.
  eexists. split; [vm_compute; reflexivity|].
  split; vm_compute; reflexivity.
Qed.

(** The forms do refuse an empty list: nothing is posted. *)
Lemma form_refuses_no_items (data : Client.InvoiceFormValues) :
  Client.fv_items data = [] ->
  exists issues,
    Client.createInvoice_submit data = inl issues
    /\ In "At least one item is required" issues.
Proof.
  intros Hitems. unfold Client.createInvoice_submit.
  assert (Hin : In "At least one item is required" (Client.invoiceFormSchema data)).
  { unfold Client.invoiceFormSchema. rewrite Hitems. simpl.
    repeat (apply in_or_app; right). left. reflexivity. }
  destruct (Client.invoiceFormSchema data) as [|issue issues].
  - contradiction.
  - eexists. split; [reflexivity|exact Hin].
Qed.

(** ** Invoice lines on the server (C4) *)

(** C4, on the code. [POST /api/invoices] with a line of quantity 3/2 and a
    line of quantity -2, unit price -5 and total 7 is answered 201, and both
    lines are stored as they came: the first has a quantity that is not a
    positive integer, the second a negative unit price and a total that is
    not quantity times unit price. The amounts of the invoice itself agree
    with the two lines, so the line rule alone is broken. *)
Theorem invalid_line_items_are_stored :
  exists i first second,
    snd (Routes.post_invoices Demo.world Demo.badLines)
    = respond 201 (InvoiceJson i)
    /\ items_of (fst (Routes.post_invoices Demo.world Demo.badLines)) i
       = [first; second]
    /\ InvoiceItem.quantity first = 3 # 2
    /\ ~ positive_integer (InvoiceItem.quantity first)
    /\ InvoiceItem.quantity second = -2
    /\ ~ positive_integer (InvoiceItem.quantity second)
    /\ InvoiceItem.unitPrice second = -5
    /\ InvoiceItem.unitPrice second < 0
    /\ InvoiceItem.total second = 7
    /\ ~ InvoiceItem.total second
         == InvoiceItem.quantity second * InvoiceItem.unitPrice second
    /\ invoice_totals_consistent
         (fst (Routes.post_invoices Demo.world Demo.badLines)) i.
Proof.
  eexists. eexists. eexists.
  split; [vm_compute; reflexivity|].
  split; [vm_compute; reflexivity|].
  split; [reflexivity|].
  split; [intros (n & Hpos & Heq); unfold Qeq in Heq; simpl in Heq; lia|].
  split; [reflexivity|].
  split; [intros (n & Hpos & Heq); unfold Qeq in Heq; simpl in Heq; lia|].
  split; [reflexivity|].
  split; [reflexivity|].
  split; [reflexivity|].
  split; [intros Heq; vm_compute in Heq; discriminate Heq|].
  unfold invoice_totals_consistent, within_tolerance.
  repeat split; apply Qle_bool_iff; vm_compute; reflexivity.
Qed.

(** The forms do refuse a quantity below 1; an instance of
    [form_item_rule]. *)
Lemma form_refuses_idle_line :
  In "Quantity must be at least 1" (Client.invoiceItemSchema Demo.idle).
Proof.
  apply (proj1 (proj2 (form_item_rule Demo.idle))). reflexivity.
Qed.

(** ** Sessions against the current store (C5) *)

(** C5 as stated fails. Alice's session was issued while she was Company
    Admin. After her demotion to "User" the same unexpired token still
    verifies to the claims of issuance, role "role-admin" included, and that
    role still has a row granting product creation; yet her
    [POST /api/products], answered 201 before, is answered 403: she is
    treated according to the store, not the claims. *)
Lemma demoted_session_follows_store :
  AuthService.verifyToken Demo.aliceToken (clock Demo.afterDemotion)
  = Some (JWTPayload.mk "user-alice" "comp-a" "role-admin" "admin@acme.com")
  /\ Routes.permitted (Storage.getPermissions "role-admin" Demo.afterDemotion)
       "products" canCreate = true
  /\ status (snd (Routes.post_products Demo.world Demo.newProduct)) = 201%nat
  /\ snd (Routes.post_products Demo.afterDemotion Demo.newProduct)
     = respond 403 (Message "Insufficient permissions").
Proof.
  repeat split; vm_compute; reflexivity.
Qed.

(** Bob's account is inactive; his unexpired session is accepted all the
    same. *)
Lemma inactive_user_session_accepted :
  User.isActive Demo.bob = false
  /\ Routes.authMiddleware Demo.world
       (Demo.request (Demo.tokenOf Demo.bob 0) [] (JObj []))
     = inr (set_user Demo.bobLoaded
              (Demo.request (Demo.tokenOf Demo.bob 0) [] (JObj []))).
Proof. split; vm_compute; reflexivity. Qed.

Lemma authMiddleware_reloads_user_witness :
  exists u,
    Routes.authMiddleware Demo.afterDemotion Demo.newProduct
    = inr (set_user u Demo.newProduct)
    /\ Role.name (UserWithRole.role u) = "User".
Proof.
  rewrite (authMiddleware_reloads_user Demo.afterDemotion Demo.newProduct
             Demo.aliceToken);
    [|reflexivity|intros H; vm_compute in H; discriminate H].
  eexists. split; [vm_compute; reflexivity|reflexivity].
Defined.

(** ** The role of the claims and accounts that do not load (C6, C8) *)

(** C6 as stated fails. A session of Alice carries the role "User" in its
    claims, and no permission row exists for that role and the module
    "products"; her stored role is "Company Admin", and her
    [POST /api/products] is answered 201: the row looked up is the one of
    the stored role. *)
Lemma stale_role_claim_is_not_consulted :
  AuthService.verifyToken Demo.staleToken (clock Demo.world)
  = Some (JWTPayload.mk "user-alice" "comp-a" "role-user" "admin@acme.com")
  /\ (forall p,
         In p (permissions_json (files Demo.world)) ->
         Permission.roleId p = "role-user" ->
         Permission.module p <> "products")
  /\ Routes.permitted (Storage.getPermissions "role-user" Demo.world)
       "products" canCreate = false
  /\ option_map User.roleId (Storage.getUser "user-alice" Demo.world)
     = Some "role-admin"
  /\ status (snd (Routes.post_products Demo.world Demo.staleProduct)) = 201%nat.
Proof.
  split; [vm_compute; reflexivity|].
  split.
  - simpl. intros p Hp Hr.
    repeat match goal with
           | H : _ \/ _ |- _ => destruct H as [H|H]
           | H : False |- _ => destruct H
           end; subst; simpl in *; discriminate.
  - repeat split; vm_compute; reflexivity.
Qed.


(** ** Instances of the properties above *)

Lemma requirePermission_default_deny_witness :
  Storage.getUserWithRole "user-bob" Demo.world = Some Demo.bobLoaded
  /\ Routes.requirePermission "invoices" canRead Demo.world Demo.bobsRequest
     = inr Demo.bobsRequest
  /\ Routes.requirePermission "invoices" canCreate Demo.world Demo.bobsRequest
     = inl (respond 403 (Message "Insufficient permissions"))
  /\ Routes.requirePermission "products" canRead Demo.world Demo.bobsRequest
     = inl (respond 403 (Message "Insufficient permissions")).
Proof.
  assert (Hrows : unique_rows (permissions_json (files Demo.world))).
  { unfold unique_rows. simpl. intros p q Hp Hq Hr Hm.
    repeat match goal with
           | H : _ \/ _ |- _ => destruct H as [H|H]
           | H : False |- _ => destruct H
           end; subst; try reflexivity; simpl in *; discriminate. }
  split; [reflexivity|].
  destruct (requirePermission_default_deny Demo.world "user-bob" Demo.bobLoaded
              Demo.bobsRequest "invoices" eq_refl eq_refl Hrows)
    as [Hrow _].
  destruct (Hrow (Permission.mk "perm-7" "role-user" "invoices"
                                false true false false))
    as (Hcreate & Hread & _).
  { simpl. tauto. }
  { reflexivity. }
  { reflexivity. }
  split; [exact Hread|]. split; [exact Hcreate|].
  destruct (requirePermission_default_deny Demo.world "user-bob" Demo.bobLoaded
              Demo.bobsRequest "products" eq_refl eq_refl Hrows)
    as [_ Hnone].
  apply Hnone.
  simpl. intros p Hp Hr Hm.
  repeat match goal with
         | H : _ \/ _ |- _ => destruct H as [H|H]
         | H : False |- _ => destruct H
         end; subst; simpl in *; discriminate.
Defined.

Lemma login_invalid_credentials_uniform_witness :
  Routes.post_auth_login Demo.world (Demo.credentials "nobody@acme.com" "password")
  = (Demo.world, respond 401 (Message "Invalid credentials"))
  /\ Routes.post_auth_login Demo.world (Demo.credentials "admin@acme.com" "guess")
     = Routes.post_auth_login Demo.world
         (Demo.credentials "nobody@acme.com" "password").
Proof.
  apply (login_invalid_credentials_uniform Demo.world
           (Demo.credentials "nobody@acme.com" "password")
           (Demo.credentials "admin@acme.com" "guess")
           "nobody@acme.com" "password" "admin@acme.com" "guess" Demo.alice);
    try reflexivity.
  intros u Hu. vm_compute in Hu. inversion Hu. reflexivity.
Defined.


(** The report on three invoices: W. Coyote paid 100 of 300, shown as 33.3;
    the customer not on file has no revenue, shown as 0. *)
Lemma sales_report_of_acme :
  Reports.salesReportData (Some [Demo.coyote; Demo.homer])
    (Some (Reports.filteredInvoices "all" "all" Demo.acmeInvoices))
  = [Demo.paidUp;
     {| Reports.customerName := "Unknown Customer"; Reports.invoiceCount := 1;
        Reports.totalRevenue := Double.zero;
        Reports.paidRevenue := Double.zero |}]
  /\ map Reports.collectionRate
       (Reports.salesReportData (Some [Demo.coyote; Demo.homer])
          (Some (Reports.filteredInvoices "all" "all" Demo.acmeInvoices)))
     = [Reports.RateText (Double.Tenths false 333); Reports.RateZero].
Proof. split; vm_compute; reflexivity. Qed.

(** The rows add as the page does: 1e16, 1 and 1 add up to 1e16, each 1
    being lost to rounding. *)
Lemma sales_report_adds_in_doubles :
  Reports.salesReportData (Some [Demo.coyote; Demo.homer])
    (Some Demo.driftInvoices)
  = [{| Reports.customerName := "W. Coyote"; Reports.invoiceCount := 3;
        Reports.totalRevenue := Double.ofQ (10 ^ 16 # 1);
        Reports.paidRevenue := Double.zero |}].
Proof. vm_compute. reflexivity. Qed.

(** The rate shown is the rounding of the double: 23 of 80 is the double
    just below 28.75 and is shown as 28.7; -1 of 2000 is the double just
    below -0.05, whose magnitude is rounded: it is shown as -0.1. *)
Lemma collection_rate_rounds_the_double :
  Reports.collectionRate Demo.quarterPaid
  = Reports.RateText (Double.Tenths false 287)
  /\ Reports.collectionRate
       {| Reports.customerName := "H. Simpson"; Reports.invoiceCount := 2;
          Reports.totalRevenue := Double.ofQ 2000;
          Reports.paidRevenue := Double.ofQ (-1) |}
     = Reports.RateText (Double.Tenths true 1).
Proof. split; vm_compute; reflexivity. Qed.

(** C9 as stated fails. Two paid invoices of 1e308 add up to Infinity in
    both columns of the row: the guard is passed and the cell shows NaN.
    With 1e300 paid and -1e300 and 1e-300 pending, both revenues are finite
    and positive and the cell shows Infinity. *)
Lemma collection_rate_overflows :
  Reports.salesReportData (Some [Demo.coyote; Demo.homer])
    (Some Demo.hugeInvoices)
  = [{| Reports.customerName := "W. Coyote"; Reports.invoiceCount := 2;
        Reports.totalRevenue := S754_infinity false;
        Reports.paidRevenue := S754_infinity false |}]
  /\ map Reports.collectionRate
       (Reports.salesReportData (Some [Demo.coyote; Demo.homer])
          (Some Demo.hugeInvoices))
     = [Reports.RateText Double.TextNaN]
  /\ (exists row,
         Reports.salesReportData (Some [Demo.coyote; Demo.homer])
           (Some Demo.swingInvoices) = [row]
         /\ Reports.totalRevenue row = Double.ofQ (1 # 10 ^ 300)
         /\ Reports.paidRevenue row = Double.ofQ (10 ^ 300 # 1)
         /\ finite_number (Reports.totalRevenue row) = true
         /\ finite_number (Reports.paidRevenue row) = true
         /\ Reports.collectionRate row = Reports.RateText Double.TextInfinity).
Proof.
  split; [vm_compute; reflexivity|].
  split; [vm_compute; reflexivity|].
  eexists. split; [vm_compute; reflexivity|].
  repeat split; vm_compute; reflexivity.
Qed.

Lemma collection_rate_guarded_witness :
  Reports.collectionRate Demo.paidUp
  = Reports.RateText (Double.Tenths false 333)
  /\ Reports.collectionRate Demo.paidUp <> Reports.RateText Double.TextNaN.
Proof.
  destruct (collection_rate_guarded Demo.paidUp) as (_ & _ & Hrate & _ & Hfinite).
  split.
  - rewrite Hrate; [vm_compute; reflexivity|reflexivity].
  - apply Hfinite. reflexivity.
Defined.

Lemma create_takes_caller_company_witness :
  prop "companyId" (body Demo.newProduct) = Some (JStr "comp-b")
  /\ exists u p,
       Routes.authMiddleware Demo.world Demo.newProduct
       = inr (set_user u Demo.newProduct)
       /\ payload (snd (Routes.post_products Demo.world Demo.newProduct))
          = ProductJson p
       /\ Product.companyId p = User.companyId (UserWithRole.user u)
       /\ In p (products_json
                  (files (fst (Routes.post_products Demo.world Demo.newProduct)))).
Proof.
  split; [reflexivity|].
  refine (proj1 (create_takes_caller_company Demo.world _ Demo.newProduct _ _) _);
    [vm_compute; reflexivity|apply surjective_pairing].
Defined.

(** * Further properties of the code *)

(** ** Bearer credentials and sessions *)

Lemma prefix_split (p s : string) :
  String.prefix p s = true ->
  s = p ++ String.substring (String.length p) (String.length s - String.length p) s.
Proof.
  revert s. induction p as [|a p IH]; intros s H.
  - simpl. rewrite Nat.sub_0_r.
    clear H. induction s as [|c s IHs]; simpl; [reflexivity|].
    f_equal. exact IHs.
  - destruct s as [|b s]; simpl in H; [discriminate|].
    destruct (ascii_dec a b) as [->|]; [|discriminate].
    simpl. f_equal. apply IH. exact H.
Qed.

(** X1. [extractTokenFromHeader] yields a token exactly for a header that is
    the word Bearer, one space and the token: the token is what follows the
    seven characters, and a missing header, another scheme or another
    letter case yield nothing. *)
Theorem extractTokenFromHeader_iff (authHeader : option string) (token : string) :
  AuthService.extractTokenFromHeader authHeader = Some token
  <-> authHeader = Some ("Bearer " ++ token).
Proof.
  split.
  - unfold AuthService.extractTokenFromHeader.
    destruct authHeader as [h|]; [|discriminate].
    destruct (String.eqb h ""); [discriminate|].
    destruct (String.prefix "Bearer " h) eqn:Hp; [|discriminate].
    intros H. inversion H as [Ht]. f_equal.
    apply prefix_split in Hp. simpl String.length in Hp. exact Hp.
  - intros ->. apply extractTokenFromHeader_bearer.
Qed.

Section Sessions.
Context {RT : Runtime} {BC : Bcrypt} {JW : Jwt}.

Lemma getUserWithRole_files (id : string) (w1 w2 : World) :
  files w1 = files w2 ->
  Storage.getUserWithRole id w1 = Storage.getUserWithRole id w2.
Proof.
  intros H. unfold Storage.getUserWithRole, Storage.getUser, Storage.getUsers.
  rewrite H. reflexivity.
Qed.

(** X3. What [getUserWithRole] returns is consistent with the store: the
    user is a stored user with the id asked for, the role and the company are
    stored records with the user's [roleId] and [companyId], and the
    permission rows are exactly the stored rows of that role. *)
Theorem getUserWithRole_consistent (id : string) (w : World) (u : UserWithRole.t) :
  Storage.getUserWithRole id w = Some u ->
  User.id (UserWithRole.user u) = id
  /\ In (UserWithRole.user u) (users_json (files w))
  /\ In (UserWithRole.role u) (roles_json (files w))
  /\ Role.id (UserWithRole.role u) = User.roleId (UserWithRole.user u)
  /\ In (UserWithRole.company u) (companies_json (files w))
  /\ Company.id (UserWithRole.company u) = User.companyId (UserWithRole.user u)
  /\ (forall p,
        In p (UserWithRole.permissions u)
        <-> In p (permissions_json (files w))
            /\ Permission.roleId p = User.roleId (UserWithRole.user u)).
Proof.
  unfold Storage.getUserWithRole, Storage.getUser, Storage.getUsers. intros H.
  destruct (find _ (users_json (files w))) as [usr|] eqn:Hu; [|discriminate].
  destruct (find _ (roles_json (files w))) as [r|] eqn:Hr; [|discriminate].
  destruct (find _ (companies_json (files w))) as [c|] eqn:Hc; [|discriminate].
  inversion H; subst; clear H. simpl.
  apply find_some in Hu. apply find_some in Hr. apply find_some in Hc.
  destruct Hu as [Hu1 Hu2]. destruct Hr as [Hr1 Hr2]. destruct Hc as [Hc1 Hc2].
  apply String.eqb_eq in Hu2. apply String.eqb_eq in Hr2. apply String.eqb_eq in Hc2.
  do 6 (split; [assumption|]).
  intros p. rewrite filter_In, String.eqb_eq. reflexivity.
Qed.

Lemma getUserWithRole_id (id : string) (w : World) (u : UserWithRole.t) :
  Storage.getUserWithRole id w = Some u -> User.id (UserWithRole.user u) = id.
Proof.
  unfold Storage.getUserWithRole, Storage.getUser, Storage.getUsers. intros H.
  destruct (find _ (users_json (files w))) as [usr|] eqn:Hu; [|discriminate].
  destruct (find _ (roles_json (files w))); [|discriminate].
  destruct (find _ (companies_json (files w))); [|discriminate].
  inversion H; subst. simpl. apply find_some in Hu.
  now apply String.eqb_eq.
Qed.

(** X2. The token of a successful login authenticates its user: with a JWT
    library that keeps its promise, a request carrying the token within 24
    hours, against the store as it was at login, passes [authMiddleware] as
    the user the login answered with, that user is active, and
    [GET /api/auth/me] answers with the user object of the login. *)
Theorem login_token_authenticates
    (w w2 : World) (req req2 : Request) (token : string) (su : SessionUser) :
  Jwt_lawful JW ->
  snd (Routes.post_auth_login w req) = respond 200 (Session token su) ->
  token <> "" ->
  files w2 = files w ->
  (clock w <= clock w2 < clock w + 86400)%Z ->
  headers_authorization req2 = Some ("Bearer " ++ token) ->
  exists u,
    Routes.authMiddleware w2 req2 = inr (set_user u req2)
    /\ sessionUser u = su
    /\ User.isActive (UserWithRole.user u) = true
    /\ Routes.get_auth_me w2 req2 = inr su.
Proof.
  intros Hlaw Hlogin Hnonempty Hfiles Hclock Hheader.
  unfold Routes.post_auth_login in Hlogin.
  destruct (loginSchema (body req)) as [[email password]|]; [|discriminate].
  destruct (Storage.getUserByEmailWithRole email w) as [u|] eqn:Hu;
    [|discriminate].
  destruct (AuthService.comparePassword _ _); [|discriminate].
  destruct (User.isActive (UserWithRole.user u)) eqn:Hactive; [|discriminate].
  simpl in Hlogin. inversion Hlogin; subst token su; clear Hlogin.
  exists u.
  assert (Hauth : Routes.authMiddleware w2 req2 = inr (set_user u req2)).
  { destruct (session_lifetime u (clock w) w2 req2 Hlaw Hheader Hnonempty)
      as [Hfresh _].
    rewrite (Hfresh Hclock).
    unfold Storage.getUserByEmailWithRole in Hu.
    destruct (Storage.getUserByEmail email w) as [usr|]; [|discriminate].
    rewrite (getUserWithRole_id _ _ _ Hu).
    rewrite (getUserWithRole_files _ w2 w Hfiles), Hu. reflexivity. }
  split; [exact Hauth|]. split; [reflexivity|]. split; [exact Hactive|].
  unfold Routes.get_auth_me. cbn [route_json]. rewrite Hauth. reflexivity.
Qed.

End Sessions.

(** ** Lists by tenant, and requests that fail *)

Section Tenancy.
Context {RT : Runtime} {BC : Bcrypt} {JW : Jwt}.

(** The reading routes behind authentication and one permission. *)
Lemma guarded_json {A : Type} (module : string) (action : Action)
    (h : World -> Request -> Response + A) (w : World) (req : Request) (a : A) :
  route_json [Routes.authMiddleware; Routes.requirePermission module action] h w req
  = inr a ->
  exists u,
    Routes.authMiddleware w req = inr (set_user u req)
    /\ Routes.permitted (UserWithRole.permissions u) module action = true
    /\ h w (set_user u req) = inr a.
Proof.
  simpl. intros H.
  destruct (Routes.authMiddleware w req) as [r|req'] eqn:Hauth; [discriminate|].
  destruct (authMiddleware_next _ _ _ Hauth) as (token & payload & u & _ & _ & _ & ->).
  unfold Routes.requirePermission in H. simpl in H.
  destruct (Routes.permitted _ module action) eqn:Hp; simpl in H; [|discriminate].
  exists u. auto.
Qed.

(** X4. The list routes answer with the caller's tenant only: a 200 from
    [GET /api/products] or [GET /api/invoices], or the list
    [GET /api/customers] answers with, holds exactly the stored records whose
    [companyId] is that of the user [authMiddleware] loaded, and the store is
    left as it was. *)
Theorem list_routes_return_own_tenant (w : World) (req : Request) :
  (forall w' res,
      Routes.get_products w req = (w', res) -> status res = 200%nat ->
      w' = w
      /\ exists u l,
           Routes.authMiddleware w req = inr (set_user u req)
           /\ payload res = ProductsJson l
           /\ forall p, In p l
                        <-> In p (products_json (files w))
                            /\ Product.companyId p
                               = User.companyId (UserWithRole.user u))
  /\ (forall w' res,
         Routes.get_invoices w req = (w', res) -> status res = 200%nat ->
         w' = w
         /\ exists u l,
              Routes.authMiddleware w req = inr (set_user u req)
              /\ payload res = InvoicesJson l
              /\ forall i, In i l
                           <-> In i (invoices_json (files w))
                               /\ Invoice.companyId i
                                  = User.companyId (UserWithRole.user u))
  /\ (forall l,
         Routes.get_customers w req = inr l ->
         exists u,
           Routes.authMiddleware w req = inr (set_user u req)
           /\ forall c, In c l
                        <-> In c (customers_json (files w))
                            /\ Customer.companyId c
                               = User.companyId (UserWithRole.user u)).
Proof.
  split; [|split].
  - intros w' res H Hcode. apply guarded_route in H.
    destruct H as [[_ [Hs|Hs]] | (u & Hauth & _ & Hh)];
      try (rewrite Hs in Hcode; discriminate).
    simpl in Hh. inversion Hh; subst; clear Hh. split; [reflexivity|].
    exists u. eexists. split; [exact Hauth|]. split; [reflexivity|].
    intros p. unfold Storage.getProducts. rewrite filter_In, String.eqb_eq.
    reflexivity.
  - intros w' res H Hcode. apply guarded_route in H.
    destruct H as [[_ [Hs|Hs]] | (u & Hauth & _ & Hh)];
      try (rewrite Hs in Hcode; discriminate).
    simpl in Hh. inversion Hh; subst; clear Hh. split; [reflexivity|].
    exists u. eexists. split; [exact Hauth|]. split; [reflexivity|].
    intros i. unfold Storage.getInvoices. rewrite filter_In, String.eqb_eq.
    reflexivity.
  - intros l H. apply guarded_json in H. destruct H as (u & Hauth & _ & Hh).
    simpl in Hh. inversion Hh; subst; clear Hh.
    exists u. split; [exact Hauth|].
    intros c. unfold Storage.getCustomers. rewrite filter_In, String.eqb_eq.
    reflexivity.
Qed.

(** X5. [GET /api/users] answered 200 lists every stored user for a Super
    Admin and, for any other caller, exactly the users of the caller's
    company; a caller whose [companyId] is the empty string is listed every
    user, the empty string counting as no filter. *)
Theorem get_users_scope (w w' : World) (req : Request) (res : Response) :
  Routes.get_users w req = (w', res) ->
  status res = 200%nat ->
  w' = w
  /\ exists u l,
       Routes.authMiddleware w req = inr (set_user u req)
       /\ payload res = UsersJson l
       /\ (Role.name (UserWithRole.role u) = "Super Admin" ->
           l = users_json (files w))
       /\ (Role.name (UserWithRole.role u) <> "Super Admin" ->
           User.companyId (UserWithRole.user u) <> "" ->
           forall x, In x l
                     <-> In x (users_json (files w))
                         /\ User.companyId x
                            = User.companyId (UserWithRole.user u))
       /\ (User.companyId (UserWithRole.user u) = "" ->
           l = users_json (files w)).
Proof.
  unfold Routes.get_users. cbn [route]. intros H Hcode.
  destruct (Routes.authMiddleware w req) as [r|req'] eqn:Hauth.
  { inversion H; subst. apply authMiddleware_answer in Hauth.
    rewrite Hauth in Hcode. discriminate. }
  destruct (authMiddleware_next _ _ _ Hauth) as (token & payload & u & _ & _ & _ & ->).
  unfold Routes.requirePermission in H. cbn [user set_user] in H.
  destruct (Routes.permitted _ "users" canRead); cbn [negb] in H;
    [|inversion H; subst; discriminate].
  destruct (Routes.requireCompanyScope w (set_user u req)) as [r|req'] eqn:Hscope.
  { inversion H; subst. apply requireCompanyScope_answer in Hscope.
    destruct Hscope as [Hs|Hs]; rewrite Hs in Hcode; discriminate. }
  apply requireCompanyScope_next in Hscope. subst req'.
  cbn [user set_user] in H. inversion H; subst; clear H.
  split; [reflexivity|]. exists u. eexists.
  split; [reflexivity|]. split; [reflexivity|].
  unfold Storage.getUsers. split; [|split].
  - intros Hrole. apply String.eqb_eq in Hrole. rewrite Hrole. reflexivity.
  - intros Hrole Hcompany x.
    apply String.eqb_neq in Hrole. apply String.eqb_neq in Hcompany.
    rewrite Hrole, Hcompany, filter_In, String.eqb_eq. reflexivity.
  - intros Hempty. rewrite Hempty.
    destruct (String.eqb _ "Super Admin"); reflexivity.
Qed.

End Tenancy.

Section Failures.
Context {RT : Runtime} {BC : Bcrypt} {JW : Jwt}.

(** A storage operation that reports failure has written nothing. *)
Lemma updateUser_none (id : string) (patch : PartialInsertUser.t) (w w' : World) :
  Storage.updateUser id patch w = (w', None) -> w' = w.
Proof.
  unfold Storage.updateUser. intros H.
  destruct (findIndex _ _); [|now inversion H].
  destruct (nth_error _ _); now inversion H.
Qed.

Lemma updateProduct_none (id : string) (patch : PartialInsertProduct.t)
    (w w' : World) :
  Storage.updateProduct id patch w = (w', None) -> w' = w.
Proof.
  unfold Storage.updateProduct. intros H.
  destruct (findIndex _ _); [|now inversion H].
  destruct (nth_error _ _); now inversion H.
Qed.

Lemma updateInvoice_none (id : string) (patch : PartialInsertInvoice.t)
    (w w' : World) :
  Storage.updateInvoice id patch w = (w', None) -> w' = w.
Proof.
  unfold Storage.updateInvoice. intros H.
  destruct (findIndex _ _); [|now inversion H].
  destruct (nth_error _ _); now inversion H.
Qed.

Lemma deleteUser_false (id : string) (w w' : World) :
  Storage.deleteUser id w = (w', false) -> w' = w.
Proof.
  unfold Storage.deleteUser. intros H. destruct (Nat.eqb _ _); now inversion H.
Qed.

Lemma deleteProduct_false (id : string) (w w' : World) :
  Storage.deleteProduct id w = (w', false) -> w' = w.
Proof.
  unfold Storage.deleteProduct. intros H. destruct (Nat.eqb _ _); now inversion H.
Qed.

Lemma deleteCustomer_false (id : string) (w w' : World) :
  Storage.deleteCustomer id w = (w', false) -> w' = w.
Proof.
  unfold Storage.deleteCustomer. intros H. destruct (Nat.eqb _ _); now inversion H.
Qed.

Lemma deleteInvoice_false (id : string) (w w' : World) :
  Storage.deleteInvoice id w = (w', false) -> w' = w.
Proof.
  unfold Storage.deleteInvoice. intros H. destruct (Nat.eqb _ _); now inversion H.
Qed.

Lemma deleteCompany_false (id : string) (w w' : World) :
  Storage.deleteCompany id w = (w', false) -> w' = w.
Proof.
  unfold Storage.deleteCompany. intros H. destruct (Nat.eqb _ _); now inversion H.
Qed.

(** One step of a case analysis on the first test a handler's outcome
    depends on. *)
Ltac split_outcome H :=
  match type of H with
  | context [if negb ?x then _ else _] => destruct x eqn:?
  | context [match ?x with _ => _ end] => destruct x eqn:?
  | context [if ?x then _ else _] => destruct x eqn:?
  end.

Ltac settle_outcome H Hcode :=
  repeat (cbn [user set_user body negb fst snd] in H; split_outcome H);
  inversion H; subst; clear H;
  try reflexivity;
  try (exfalso; cbn [status respond] in Hcode; lia);
  eauto using updateUser_none, updateProduct_none, updateInvoice_none,
    deleteUser_false, deleteProduct_false, deleteCustomer_false,
    deleteInvoice_false, deleteCompany_false.

Lemma guarded_failure (module : string) (action : Action) (h : Handler) :
  (forall w w' req res,
      h w req = (w', res) -> (400 <= status res)%nat -> w' = w) ->
  forall w w' req res,
    route [Routes.authMiddleware; Routes.requirePermission module action] h w req
    = (w', res) ->
    (400 <= status res)%nat -> w' = w.
Proof.
  intros Hh w w' req res H Hcode. apply guarded_route in H.
  destruct H as [[Hw _] | (u & _ & _ & Hrun)]; [exact Hw|].
  eapply Hh; eauto.
Qed.

Lemma scoped_failure (module : string) (action : Action) (h : Handler) :
  (forall w w' req res,
      h w req = (w', res) -> (400 <= status res)%nat -> w' = w) ->
  forall w w' req res,
    route [Routes.authMiddleware; Routes.requirePermission module action;
           Routes.requireCompanyScope] h w req
    = (w', res) ->
    (400 <= status res)%nat -> w' = w.
Proof.
  intros Hh w w' req res H Hcode. cbn [route] in H.
  destruct (Routes.authMiddleware w req) as [r|req1]; [now inversion H|].
  destruct (Routes.requirePermission module action w req1) as [r|req2];
    [now inversion H|].
  destruct (Routes.requireCompanyScope w req2) as [r|req3]; [now inversion H|].
  eapply Hh; eauto.
Qed.

(** X6. A request that is answered with a status of 400 or above leaves the
    store as it was, on login and on each of the twelve writing routes
    listed: a rejected, unauthenticated, forbidden or not-found request
    writes nothing. *)
Theorem failed_requests_write_nothing
    (h : Handler) (w w' : World) (req : Request) (res : Response) :
  In h [Routes.post_auth_login;
        Routes.post_users; Routes.put_users_id; Routes.delete_users_id;
        Routes.post_products; Routes.put_products_id; Routes.delete_products_id;
        Routes.post_customers; Routes.delete_customers_id;
        Routes.post_invoices; Routes.put_invoices_id; Routes.delete_invoices_id;
        Routes.delete_companies_id] ->
  h w req = (w', res) ->
  (400 <= status res)%nat ->
  w' = w.
Proof.
  intros Hin H Hcode. simpl in Hin.
  repeat (destruct Hin as [<-|Hin]); [..|contradiction].
  - unfold Routes.post_auth_login in H. settle_outcome H Hcode.
  - revert w w' req res H Hcode. apply scoped_failure.
    intros w w' req res H Hcode.
    settle_outcome H Hcode.
  - revert w w' req res H Hcode. apply scoped_failure.
    intros w w' req res H Hcode.
    settle_outcome H Hcode.
  - revert w w' req res H Hcode. apply scoped_failure.
    intros w w' req res H Hcode.
    settle_outcome H Hcode.
  - revert w w' req res H Hcode. apply guarded_failure.
    intros w w' req res H Hcode.
    settle_outcome H Hcode.
  - revert w w' req res H Hcode. apply guarded_failure.
    intros w w' req res H Hcode.
    settle_outcome H Hcode.
  - revert w w' req res H Hcode. apply guarded_failure.
    intros w w' req res H Hcode.
    settle_outcome H Hcode.
  - revert w w' req res H Hcode. apply guarded_failure.
    intros w w' req res H Hcode.
    settle_outcome H Hcode.
  - revert w w' req res H Hcode. apply guarded_failure.
    intros w w' req res H Hcode.
    settle_outcome H Hcode.
  - revert w w' req res H Hcode. apply guarded_failure.
    intros w w' req res H Hcode.
    settle_outcome H Hcode.
  - revert w w' req res H Hcode. apply guarded_failure.
    intros w w' req res H Hcode.
    settle_outcome H Hcode.
  - revert w w' req res H Hcode. apply guarded_failure.
    intros w w' req res H Hcode.
    settle_outcome H Hcode.
  - revert w w' req res H Hcode. apply guarded_failure.
    intros w w' req res H Hcode.
    settle_outcome H Hcode.
Qed.

End Failures.

(** ** The collections of the store *)

Lemma filter_keeps_length {A : Type} (f : A -> bool) (l : list A) :
  List.length (filter f l) = List.length l -> filter f l = l.
Proof.
  induction l as [|a l IH]; simpl; intros H; [reflexivity|].
  destruct (f a); simpl in H.
  - f_equal. apply IH. congruence.
  - pose proof (filter_length_le f l). lia.
Qed.

Lemma find_none_filter_self {A : Type} (key : A -> string) (k : string)
    (l : list A) :
  find (fun x => String.eqb (key x) k) l = None
  <-> filter (fun x => negb (String.eqb (key x) k)) l = l.
Proof.
  induction l as [|a l IH]; simpl; [tauto|].
  destruct (String.eqb (key a) k) eqn:E; simpl.
  - split; [discriminate|]. intros H.
    assert (Hlen : List.length (filter (fun x => negb (String.eqb (key x) k)) l)
                   = S (List.length l)) by (rewrite H; reflexivity).
    pose proof (filter_length_le (fun x => negb (String.eqb (key x) k)) l). lia.
  - rewrite IH. split; [congruence|]. intros H. injection H as H. exact H.
Qed.

Lemma find_after_removal {A : Type} (key : A -> string) (k k' : string)
    (l : list A) :
  find (fun x => String.eqb (key x) k')
       (filter (fun x => negb (String.eqb (key x) k)) l)
  = if String.eqb k' k then None
    else find (fun x => String.eqb (key x) k') l.
Proof.
  induction l as [|a l IH]; simpl.
  - destruct (String.eqb k' k); reflexivity.
  - destruct (String.eqb (key a) k) eqn:E; simpl.
    + rewrite IH. destruct (String.eqb k' k) eqn:E'; [reflexivity|].
      apply String.eqb_eq in E. apply String.eqb_neq in E'.
      assert (Hne : String.eqb (key a) k' = false)
        by (apply String.eqb_neq; congruence).
      rewrite Hne. reflexivity.
    + destruct (String.eqb (key a) k') eqn:E2.
      * apply String.eqb_eq in E2. apply String.eqb_neq in E.
        assert (Hne : String.eqb k' k = false)
          by (apply String.eqb_neq; congruence).
        rewrite Hne. reflexivity.
      * exact IH.
Qed.

Lemma find_snoc {A : Type} (f : A -> bool) (l : list A) (x : A) :
  find f (l ++ [x])
  = match find f l with
    | Some y => Some y
    | None => if f x then Some x else None
    end.
Proof.
  induction l as [|a l IH]; simpl; [reflexivity|].
  destruct (f a); [reflexivity|exact IH].
Qed.

Lemma findIndex_first {A : Type} (f : A -> bool) (l : list A) (i : nat) :
  findIndex f l = Some i ->
  exists x, nth_error l i = Some x /\ f x = true /\ find f l = Some x.
Proof.
  revert i. induction l as [|a l IH]; simpl; intros i H; [discriminate|].
  destruct (f a) eqn:Ha.
  - inversion H; subst. exists a. auto.
  - destruct (findIndex f l) as [j|]; [|discriminate].
    inversion H; subst. destruct (IH j eq_refl) as (x & Hn & Hf & Hfind).
    exists x. auto.
Qed.

Lemma find_assign_first {A : Type} (f : A -> bool) (l : list A) (i : nat)
    (new : A) :
  findIndex f l = Some i -> f new = true -> find f (assign i new l) = Some new.
Proof.
  revert i. induction l as [|a l IH]; simpl; intros i H Hnew; [discriminate|].
  destruct (f a) eqn:Ha.
  - inversion H; subst. simpl. now rewrite Hnew.
  - destruct (findIndex f l) as [j|]; [|discriminate].
    inversion H; subst. simpl. rewrite Ha. now apply IH.
Qed.

Lemma find_assign_other {A : Type} (g : A -> bool) (l : list A) (i : nat)
    (old new : A) :
  nth_error l i = Some old -> g old = false -> g new = false ->
  find g (assign i new l) = find g l.
Proof.
  revert i. induction l as [|a l IH]; intros [|i]; simpl; intros Hn Hold Hnew;
    try discriminate.
  - inversion Hn; subst. now rewrite Hold, Hnew.
  - destruct (g a); [reflexivity|]. now apply IH.
Qed.

Lemma map_assign {A B : Type} (key : A -> B) (l : list A) (i : nat) (old new : A) :
  nth_error l i = Some old -> key new = key old ->
  map key (assign i new l) = map key l.
Proof.
  revert i. induction l as [|a l IH]; intros [|i]; simpl; intros Hn Hk;
    try discriminate.
  - inversion Hn; subst. now rewrite Hk.
  - f_equal. now apply IH.
Qed.

Section Collections.
Context {RT : Runtime}.

(** X7. [deleteInvoice] reports [true] exactly when an invoice has the id;
    it then removes every invoice with the id and every item of that
    invoice, and nothing else: the other invoices are found as before and
    the items of other invoices stay. When it reports [false] nothing is
    written, items that name the missing invoice included. *)
Theorem deleteInvoice_cascade (id : string) (w w' : World) (deleted : bool) :
  Storage.deleteInvoice id w = (w', deleted) ->
  (deleted = true <-> Storage.getInvoice id w <> None)
  /\ (deleted = false -> w' = w)
  /\ (deleted = true ->
      Storage.getInvoice id w' = None
      /\ (forall id', id' <> id ->
                      Storage.getInvoice id' w' = Storage.getInvoice id' w)
      /\ (forall item,
             In item (invoice_items_json (files w'))
             <-> In item (invoice_items_json (files w))
                 /\ InvoiceItem.invoiceId item <> id)
      /\ products_json (files w') = products_json (files w)
      /\ customers_json (files w') = customers_json (files w)).
Proof.
  unfold Storage.deleteInvoice, Storage.getInvoice. intros H.
  destruct (Nat.eqb _ _) eqn:Hlen; inversion H; subst; clear H.
  - apply Nat.eqb_eq in Hlen. apply filter_keeps_length in Hlen.
    apply (find_none_filter_self Invoice.id) in Hlen.
    split; [split; [discriminate|congruence]|].
    split; [reflexivity|discriminate].
  - apply Nat.eqb_neq in Hlen.
    split.
    { split; [|reflexivity]. intros _ Hnone.
      apply (find_none_filter_self Invoice.id) in Hnone.
      apply Hlen. now rewrite Hnone. }
    split; [discriminate|]. intros _. simpl.
    split.
    { rewrite (find_after_removal Invoice.id), String.eqb_refl. reflexivity. }
    split.
    { intros id' Hne. rewrite (find_after_removal Invoice.id).
      apply String.eqb_neq in Hne. now rewrite Hne. }
    split; [|split; reflexivity].
    intros item. rewrite filter_In, negb_true_iff, String.eqb_neq. reflexivity.
Qed.

(** X19. [deleteProduct] reports [true] exactly when a product has the id;
    afterwards no product has it and every other product is found as
    before; when it reports [false] nothing is written. *)
Theorem deleteProduct_removes (id : string) (w w' : World) (deleted : bool) :
  Storage.deleteProduct id w = (w', deleted) ->
  (deleted = true <-> Storage.getProduct id w <> None)
  /\ (deleted = false -> w' = w)
  /\ Storage.getProduct id w' = None
  /\ (forall id', id' <> id ->
                  Storage.getProduct id' w' = Storage.getProduct id' w).
Proof.
  unfold Storage.deleteProduct, Storage.getProduct. intros H.
  destruct (Nat.eqb _ _) eqn:Hlen; inversion H; subst; clear H.
  - apply Nat.eqb_eq in Hlen. apply filter_keeps_length in Hlen.
    apply (find_none_filter_self Product.id) in Hlen.
    split; [split; [discriminate|congruence]|].
    split; [reflexivity|]. split; [exact Hlen|reflexivity].
  - apply Nat.eqb_neq in Hlen.
    split.
    { split; [|reflexivity]. intros _ Hnone.
      apply (find_none_filter_self Product.id) in Hnone.
      apply Hlen. now rewrite Hnone. }
    split; [discriminate|]. simpl.
    split.
    { rewrite (find_after_removal Product.id), String.eqb_refl. reflexivity. }
    intros id' Hne. rewrite (find_after_removal Product.id).
    apply String.eqb_neq in Hne. now rewrite Hne.
Qed.

(** X8. [updateProduct] rewrites the first product with the id and nothing
    else: the result keeps the id and the creation time, is what a lookup of
    the id finds afterwards, the ids of the collection stay in place and
    every other id is found as before. Without a product of that id it
    returns nothing and writes nothing. *)
Theorem updateProduct_keeps_identity
    (id : string) (patch : PartialInsertProduct.t) (w w' : World) :
  (forall p,
      Storage.updateProduct id patch w = (w', Some p) ->
      exists old,
        Storage.getProduct id w = Some old
        /\ Product.id p = id
        /\ Product.createdAt p = Product.createdAt old
        /\ Storage.getProduct id w' = Some p
        /\ map Product.id (products_json (files w'))
           = map Product.id (products_json (files w))
        /\ (forall id', id' <> id ->
                        Storage.getProduct id' w' = Storage.getProduct id' w))
  /\ (Storage.updateProduct id patch w = (w', None) ->
      Storage.getProduct id w = None /\ w' = w)
  /\ (Storage.getProduct id w = None ->
      Storage.updateProduct id patch w = (w, None)).
Proof.
  unfold Storage.updateProduct, Storage.getProduct.
  set (f := fun p : Product.t => String.eqb (Product.id p) id).
  split; [|split].
  - intros p H.
    destruct (findIndex f (products_json (files w))) as [index|] eqn:Hi;
      [|discriminate].
    destruct (findIndex_first _ _ _ Hi) as (old & Hn & Hf & Hfind).
    rewrite Hn in H. inversion H; subst; clear H.
    assert (Hid : Product.id old = id) by (now apply String.eqb_eq).
    exists old. simpl.
    split; [exact Hfind|]. split; [exact Hid|]. split; [reflexivity|].
    split.
    { apply find_assign_first; [exact Hi|]. unfold f. simpl.
      now apply String.eqb_eq. }
    split.
    { eapply map_assign; [exact Hn|reflexivity]. }
    intros id' Hne. eapply find_assign_other; [exact Hn| |].
    + apply String.eqb_neq. congruence.
    + simpl. apply String.eqb_neq. congruence.
  - intros H.
    destruct (findIndex f (products_json (files w))) as [index|] eqn:Hi.
    + destruct (findIndex_first _ _ _ Hi) as (old & Hn & _).
      rewrite Hn in H. discriminate.
    + inversion H; subst. split; [|reflexivity].
      destruct (find f (products_json (files w'))) as [x|] eqn:Hx; [|reflexivity].
      destruct (findIndex_of_find _ _ _ Hx) as (i & Hi' & _). congruence.
  - intros Hnone. now rewrite (findIndex_none_of_find _ _ Hnone).
Qed.

(** X9. [createProduct] appends: every product found before is found as
    before, the new product is listed under its company after those already
    there, and when its UUID is not the id of a stored product a lookup of
    the new id finds the new product. *)
Theorem createProduct_round_trip
    (product : InsertProduct.t) (w w' : World) (x : Product.t) :
  Storage.createProduct product w = (w', x) ->
  Storage.getProduct (Product.id x) w = None ->
  Storage.getProduct (Product.id x) w' = Some x
  /\ (forall id, id <> Product.id x ->
                 Storage.getProduct id w' = Storage.getProduct id w)
  /\ Storage.getProducts (InsertProduct.companyId product) w'
     = (Storage.getProducts (InsertProduct.companyId product) w ++ [x])%list
  /\ (forall c, c <> InsertProduct.companyId product ->
                Storage.getProducts c w' = Storage.getProducts c w)
  /\ drawn w' = S (drawn w).
Proof.
  unfold Storage.createProduct, Storage.getProduct, Storage.getProducts.
  intros H Hfresh. inversion H; subst; clear H. simpl in *.
  split.
  { rewrite find_snoc, Hfresh. simpl. now rewrite String.eqb_refl. }
  split.
  { intros id Hne. rewrite find_snoc. simpl.
    assert (Hq : String.eqb (randomUUID (drawn w)) id = false)
      by (apply String.eqb_neq; congruence).
    rewrite Hq.
    destruct (find (fun p => String.eqb (Product.id p) id)
                   (products_json (files w))); reflexivity. }
  split.
  { rewrite filter_app. simpl. now rewrite String.eqb_refl. }
  split; [|reflexivity].
  intros c Hne. rewrite filter_app. simpl.
  assert (Hq : String.eqb (InsertProduct.companyId product) c = false)
    by (apply String.eqb_neq; congruence).
  rewrite Hq. apply app_nil_r.
Qed.

End Collections.

(** ** The dashboard, the invoice modals and the user routes *)

Lemma find_none_filter {A : Type} (f g : A -> bool) (l : list A) :
  find f l = None -> find f (filter g l) = None.
Proof.
  induction l as [|a l IH]; simpl; intros H; [reflexivity|].
  destruct (f a) eqn:Ha; [discriminate|].
  destruct (g a); simpl; [rewrite Ha|]; now apply IH.
Qed.

Section Composition.
Context {RT : Runtime} {BC : Bcrypt} {JW : Jwt}.

Lemma newItems_invoiceId (invoiceId : string) (items : list InsertInvoiceItem.t) :
  forall n item,
    In item (Storage.newItems invoiceId n items) ->
    InvoiceItem.invoiceId item = invoiceId.
Proof.
  induction items as [|i items IH]; simpl; intros n item Hin; [contradiction|].
  destruct Hin as [<-|Hin]; [reflexivity|]. eapply IH; eauto.
Qed.

Lemma filter_nothing {A : Type} (f : A -> bool) (l : list A) :
  (forall x, In x l -> f x = false) -> filter f l = [].
Proof.
  induction l as [|a l IH]; simpl; intros H; [reflexivity|].
  rewrite (H a) by now left. apply IH. intros x Hx. apply H. now right.
Qed.

(** X10. The dashboard figures of a company are not moved by an invoice
    created for another company: when the new invoice's UUID is not yet the
    id of a stored invoice, [getDashboardStats] of the first company is the
    same before and after [createInvoice], whatever items come with it. *)
Theorem dashboard_ignores_other_tenants
    (companyId : string) (invoice : InsertInvoice.t)
    (items : list InsertInvoiceItem.t) (w : World) :
  InsertInvoice.companyId invoice <> companyId ->
  Storage.getInvoice (randomUUID (drawn w)) w = None ->
  Storage.getDashboardStats companyId (fst (Storage.createInvoice invoice items w))
  = Storage.getDashboardStats companyId w.
Proof.
  intros Hother Hfresh.
  unfold Storage.getDashboardStats, Storage.createInvoice, Storage.getInvoices,
    Storage.getCustomers. simpl.
  rewrite !filter_app. simpl.
  apply String.eqb_neq in Hother. rewrite Hother, !app_nil_r.
  rewrite (filter_nothing _ (Storage.newItems _ _ _)); [now rewrite app_nil_r|].
  intros item Hin. apply newItems_invoiceId in Hin. rewrite Hin.
  unfold Storage.getInvoice in Hfresh.
  now rewrite (find_none_filter _ _ _ Hfresh).
Qed.

(** X22. A pending invoice created for a company shows on its dashboard as
    one more pending invoice and nothing else: when the new invoice's UUID is
    not yet the id of a stored invoice, the revenue, the products sold and
    the active customers stay as they were, whatever items come with it. *)
Theorem dashboard_counts_new_pending_invoice
    (invoice : InsertInvoice.t) (items : list InsertInvoiceItem.t) (w : World) :
  InsertInvoice.status invoice = pending ->
  Storage.getInvoice (randomUUID (drawn w)) w = None ->
  let before := Storage.getDashboardStats (InsertInvoice.companyId invoice) w in
  let after :=
    Storage.getDashboardStats (InsertInvoice.companyId invoice)
      (fst (Storage.createInvoice invoice items w)) in
  DashboardStats.pendingInvoices after = S (DashboardStats.pendingInvoices before)
  /\ DashboardStats.totalRevenue after = DashboardStats.totalRevenue before
  /\ DashboardStats.productsSold after = DashboardStats.productsSold before
  /\ DashboardStats.activeCustomers after
     = DashboardStats.activeCustomers before.
Proof.
  intros Hpending Hfresh.
  unfold Storage.getDashboardStats, Storage.createInvoice, Storage.getInvoices,
    Storage.getCustomers. simpl.
  rewrite !filter_app. simpl. rewrite String.eqb_refl. simpl.
  rewrite ?filter_app. simpl. rewrite Hpending. simpl.
  rewrite ?app_nil_r.
  split; [rewrite length_app; simpl; lia|].
  split; [reflexivity|]. split; [|reflexivity].
  f_equal.
  unfold Storage.getInvoice in Hfresh.
  pose proof (find_none_filter _
                (fun i => String.eqb (Invoice.companyId i)
                            (InsertInvoice.companyId invoice)) _ Hfresh) as Hmine.
  rewrite (filter_nothing _ (Storage.newItems _ _ _)).
  - rewrite app_nil_r. apply filter_ext. intros item.
    rewrite find_snoc. simpl.
    destruct (find (fun i => String.eqb (Invoice.id i) (InvoiceItem.invoiceId item))
                   (filter (fun i => String.eqb (Invoice.companyId i)
                                       (InsertInvoice.companyId invoice))
                           (invoices_json (files w)))); [reflexivity|].
    destruct (String.eqb _ (InvoiceItem.invoiceId item)); reflexivity.
  - intros item Hin. apply newItems_invoiceId in Hin. rewrite Hin.
    rewrite find_snoc, Hmine. simpl. rewrite String.eqb_refl. reflexivity.
Qed.

(** X13. The create-invoice modal cannot create an invoice: the body it
    posts has no [companyId], amounts or status, so [POST /api/invoices]
    answers 400 to it (or 401 or 403 before that) and writes nothing,
    whatever the form holds. *)
Theorem create_modal_never_creates
    (data : Client.InvoiceFormValues) (w : World) (req : Request) :
  body req = Client.createInvoiceBody data ->
  exists res,
    Routes.post_invoices w req = (w, res)
    /\ (status res = 400%nat \/ status res = 401%nat \/ status res = 403%nat).
Proof.
  intros Hbody. unfold Routes.post_invoices. cbn [route].
  destruct (Routes.authMiddleware w req) as [r|req'] eqn:Hauth.
  { exists r. split; [reflexivity|]. right. left.
    eapply authMiddleware_answer; eauto. }
  destruct (authMiddleware_next _ _ _ Hauth) as (token & payload & u & _ & _ & _ & ->).
  unfold Routes.requirePermission. cbn [user set_user].
  destruct (Routes.permitted _ "invoices" canCreate); cbn [negb].
  - cbn [body set_user]. rewrite Hbody, create_modal_body_rejected.
    eexists. split; [reflexivity|]. left. reflexivity.
  - eexists. split; [reflexivity|]. right. right. reflexivity.
Qed.

(** X14. Saving the edit-invoice modal stores the header fields only:
    [PUT /api/invoices/:id] never writes to the invoice items, and with the
    body the modal puts, a 200 leaves subtotal, tax, total, status and
    company of the invoice as they were while customer, number and dates
    become those of the form. *)
Theorem edit_modal_saves_header_only
    (data : Client.InvoiceFormValues) (w w' : World) (req : Request)
    (res : Response) :
  body req = Client.editInvoiceBody data ->
  Routes.put_invoices_id w req = (w', res) ->
  invoice_items_json (files w') = invoice_items_json (files w)
  /\ (status res = 200%nat ->
      exists old new,
        Storage.getInvoice (Routes.params_id req) w = Some old
        /\ payload res = InvoiceJson new
        /\ Invoice.subtotal new = Invoice.subtotal old
        /\ Invoice.tax new = Invoice.tax old
        /\ Invoice.total new = Invoice.total old
        /\ Invoice.status new = Invoice.status old
        /\ Invoice.companyId new = Invoice.companyId old
        /\ Invoice.customerId new = Client.fv_customerId data
        /\ Invoice.invoiceNumber new = Client.fv_invoiceNumber data
        /\ Invoice.date new = Client.fv_date data
        /\ Invoice.dueDate new = Client.fv_dueDate data).
Proof.
  intros Hbody H. apply guarded_route in H.
  destruct H as [[-> [Hs|Hs]] | (u & _ & _ & Hh)];
    try (split; [reflexivity|]; intros Hcode; rewrite Hs in Hcode; discriminate).
  cbn [body set_user] in Hh. rewrite Hbody in Hh.
  change (Routes.params_id (set_user u req)) with (Routes.params_id req) in Hh.
  assert (Hparse : exists notes,
             insertInvoiceSchema_partial (Client.editInvoiceBody data)
             = Some (PartialInsertInvoice.mk None
                       (Some (Client.fv_customerId data))
                       (Some (Client.fv_invoiceNumber data))
                       (Some (Client.fv_date data))
                       (Some (Client.fv_dueDate data))
                       None None None None notes)).
  { unfold Client.editInvoiceBody.
    destruct (Client.fv_notes data); eexists; reflexivity. }
  destruct Hparse as (notes & Hparse). rewrite Hparse in Hh.
  unfold Storage.updateInvoice, Storage.getInvoice in *.
  destruct (findIndex _ (invoices_json (files w))) as [index|] eqn:Hi.
  - destruct (findIndex_first _ _ _ Hi) as (old & Hn & _ & Hfind).
    rewrite Hn in Hh. inversion Hh; subst; clear Hh.
    split; [reflexivity|]. intros _. exists old. eexists.
    split; [exact Hfind|]. split; [reflexivity|]. simpl. repeat split.
  - inversion Hh; subst; clear Hh. split; [reflexivity|]. discriminate.
Qed.

(** X15. [deleteCompany] removes the company and nothing else, and the
    company's users are locked out by it: their records stay, but
    [getUserWithRole] no longer loads them, so a request with a valid token
    of such a user is answered 401 "User not found". *)
Theorem deleteCompany_locks_out_users (id : string) (w w' : World) :
  Storage.deleteCompany id w = (w', true) ->
  Storage.getCompany id w' = None
  /\ users_json (files w') = users_json (files w)
  /\ (forall uid usr,
         Storage.getUser uid w' = Some usr ->
         User.companyId usr = id ->
         Storage.getUserWithRole uid w' = None)
  /\ (forall req token claims usr,
         AuthService.extractTokenFromHeader (headers_authorization req)
         = Some token ->
         token <> "" ->
         AuthService.verifyToken token (clock w') = Some claims ->
         Storage.getUser (JWTPayload.userId claims) w' = Some usr ->
         User.companyId usr = id ->
         Routes.authMiddleware w' req
         = inl (respond 401 (Message "User not found"))).
Proof.
  unfold Storage.deleteCompany. intros H.
  destruct (Nat.eqb _ _); inversion H; subst; clear H.
  assert (Hgone : Storage.getCompany id
                    (write_companies
                       (filter (fun c => negb (String.eqb (Company.id c) id))
                               (Storage.getCompanies w)) w) = None).
  { unfold Storage.getCompany, Storage.getCompanies. simpl.
    rewrite (find_after_removal Company.id), String.eqb_refl. reflexivity. }
  assert (Hlocked : forall uid usr,
             Storage.getUser uid
               (write_companies
                  (filter (fun c => negb (String.eqb (Company.id c) id))
                          (Storage.getCompanies w)) w) = Some usr ->
             User.companyId usr = id ->
             Storage.getUserWithRole uid
               (write_companies
                  (filter (fun c => negb (String.eqb (Company.id c) id))
                          (Storage.getCompanies w)) w) = None).
  { intros uid usr Hu Hc. unfold Storage.getUserWithRole. rewrite Hu, Hc.
    unfold Storage.getCompany, Storage.getCompanies in *. rewrite Hgone.
    destruct (find _ (roles_json _)); reflexivity. }
  split; [exact Hgone|]. split; [reflexivity|]. split; [exact Hlocked|].
  intros req token claims usr Hheader Htoken Hverify Hu Hc.
  unfold Routes.authMiddleware. rewrite Hheader.
  apply String.eqb_neq in Htoken. rewrite Htoken, Hverify.
  now rewrite (Hlocked _ _ Hu Hc).
Qed.

(** X16. The users routes refuse a body that names another company: for a
    caller who is not Super Admin, a request whose body has a non-empty
    [companyId] string other than the caller's is answered 403 on
    [GET], [POST], [PUT] and [DELETE /api/users], and nothing is written. *)
Theorem users_routes_refuse_foreign_company
    (h : Handler) (w : World) (req : Request) (u : UserWithRole.t) (c : string) :
  In h [Routes.get_users; Routes.post_users; Routes.put_users_id;
        Routes.delete_users_id] ->
  Routes.authMiddleware w req = inr (set_user u req) ->
  Role.name (UserWithRole.role u) <> "Super Admin" ->
  assoc "companyId" (params req) = None ->
  prop "companyId" (body req) = Some (JStr c) ->
  c <> "" ->
  c <> User.companyId (UserWithRole.user u) ->
  exists res, h w req = (w, res) /\ status res = 403%nat.
Proof.
  intros Hin Hauth Hrole Hparams Hbody Hc Hforeign.
  assert (Hscope : Routes.requireCompanyScope w (set_user u req)
                   = inl (respond 403 (Message "Access denied to company data"))).
  { unfold Routes.requireCompanyScope. cbn [user set_user params body query].
    apply String.eqb_neq in Hrole. rewrite Hrole, Hparams, Hbody.
    apply String.eqb_neq in Hc. apply String.eqb_neq in Hforeign.
    unfold js_or. simpl. rewrite Hc. simpl. rewrite Hc. simpl.
    rewrite Hforeign. reflexivity. }
  simpl in Hin.
  repeat (destruct Hin as [<-|Hin]); [..|contradiction];
    unfold Routes.get_users, Routes.post_users, Routes.put_users_id,
      Routes.delete_users_id;
    cbn [route]; rewrite Hauth;
    unfold Routes.requirePermission; cbn [user set_user];
    (destruct (Routes.permitted (UserWithRole.permissions u) "users" _);
     cbn [negb]; [rewrite Hscope|]);
    eexists; split; reflexivity.
Qed.

End Composition.

(** ** From user creation to login *)

Section Onboarding.
Context {RT : Runtime} {BC : Bcrypt} {JW : Jwt}.

Lemma insertUserSchema_email (b : json) (d : InsertUser.t) :
  insertUserSchema b = Some d -> isEmail (InsertUser.email d) = true.
Proof.
  unfold insertUserSchema, zEmail, Zod.bind. intros H.
  destruct (Zod.string (prop "companyId" b)); [|discriminate].
  destruct (Zod.string (prop "roleId" b)); [|discriminate].
  destruct (Zod.string (prop "email" b)) as [e|]; [|discriminate].
  destruct (isEmail e) eqn:He; [|discriminate].
  destruct (Zod.string (prop "password" b)); [|discriminate].
  destruct (Zod.string (prop "name" b)); [|discriminate].
  destruct (Zod.boolean (prop "isActive" b)); [|discriminate].
  inversion H; subst. exact He.
Qed.

(** X17. A user created through [POST /api/users] can log in: the stored
    password is the hash of the one given, and when the hash library accepts
    what it hashed, the account is active, its e-mail and UUID were not in
    use and its role and company are stored, a login with the e-mail and
    password of the creation request is answered 200 with a session of the
    new user. *)
Theorem created_user_can_log_in
    (w w' : World) (req login : Request) (x : User.t) (d : InsertUser.t) :
  (forall p, bcrypt_compare p (bcrypt_hash p 12) = true) ->
  Routes.post_users w req = (w', respond 201 (UserJson x)) ->
  insertUserSchema (body req) = Some d ->
  InsertUser.password d <> "" ->
  InsertUser.isActive d = true ->
  Storage.getUserByEmail (InsertUser.email d) w = None ->
  Storage.getUser (User.id x) w = None ->
  Storage.getRole (User.roleId x) w <> None ->
  Storage.getCompany (User.companyId x) w <> None ->
  body login = JObj [("email", JStr (InsertUser.email d));
                     ("password", JStr (InsertUser.password d))] ->
  User.password x = AuthService.hashPassword (InsertUser.password d)
  /\ exists token su,
       Routes.post_auth_login w' login = (w', respond 200 (Session token su))
       /\ su_id su = User.id x
       /\ su_email su = InsertUser.email d.
Proof.
  intros Hbcrypt Hpost Hparse Hpw Hactive Hemail Hid Hrole Hcompany Hlogin.
  pose proof (insertUserSchema_email _ _ Hparse) as Hmail.
  unfold Routes.post_users in Hpost. cbn [route] in Hpost.
  destruct (Routes.authMiddleware w req) as [r|req'] eqn:Hauth.
  { inversion Hpost; subst. apply authMiddleware_answer in Hauth.
    discriminate Hauth. }
  destruct (authMiddleware_next _ _ _ Hauth) as (token & payload & u & _ & _ & _ & ->).
  unfold Routes.requirePermission in Hpost. cbn [user set_user] in Hpost.
  destruct (Routes.permitted _ "users" canCreate); cbn [negb] in Hpost;
    [|discriminate].
  destruct (Routes.requireCompanyScope w (set_user u req)) as [r|req'] eqn:Hscope.
  { inversion Hpost; subst. apply requireCompanyScope_answer in Hscope.
    destruct Hscope as [Hs|Hs]; discriminate Hs. }
  apply requireCompanyScope_next in Hscope. subst req'.
  cbn [user set_user body] in Hpost. rewrite Hparse in Hpost.
  unfold Storage.createUser, Storage.getUsers in Hpost.
  inversion Hpost; subst w' x; clear Hpost.
  assert (Hfields :
            forall (P : InsertUser.t -> Prop),
              P (InsertUser.set_companyId (User.companyId (UserWithRole.user u))
                   (InsertUser.set_password
                      (AuthService.hashPassword (InsertUser.password d)) d)) ->
              P (InsertUser.set_password
                   (AuthService.hashPassword (InsertUser.password d)) d) ->
              P (if negb (String.eqb (Role.name (UserWithRole.role u)) "Super Admin")
                 then InsertUser.set_companyId
                        (User.companyId (UserWithRole.user u))
                        (InsertUser.set_password
                           (AuthService.hashPassword (InsertUser.password d)) d)
                 else InsertUser.set_password
                        (AuthService.hashPassword (InsertUser.password d)) d)).
  { intros P H1 H2. destruct (negb _); assumption. }
  set (ud := if negb (String.eqb (Role.name (UserWithRole.role u)) "Super Admin")
             then _ else _) in *.
  assert (Hud_pw : InsertUser.password ud
                   = AuthService.hashPassword (InsertUser.password d))
    by (apply (Hfields (fun v => InsertUser.password v = _)); reflexivity).
  assert (Hud_mail : InsertUser.email ud = InsertUser.email d)
    by (apply (Hfields (fun v => InsertUser.email v = _)); reflexivity).
  assert (Hud_act : InsertUser.isActive ud = InsertUser.isActive d)
    by (apply (Hfields (fun v => InsertUser.isActive v = _)); reflexivity).
  clearbody ud. clear Hfields.
  simpl in Hid, Hrole, Hcompany |- *.
  split; [exact Hud_pw|].
  unfold Routes.post_auth_login. rewrite Hlogin.
  assert (Hschema : loginSchema
                      (JObj [("email", JStr (InsertUser.email d));
                             ("password", JStr (InsertUser.password d))])
                    = Some (InsertUser.email d, InsertUser.password d)).
  { unfold loginSchema, zEmail, Zod.bind, Zod.string_min. simpl.
    rewrite Hmail. destruct (InsertUser.password d); [congruence|reflexivity]. }
  rewrite Hschema.
  unfold Storage.getUserByEmailWithRole, Storage.getUserByEmail,
    Storage.getUserWithRole, Storage.getUser, Storage.getUsers in *.
  simpl. rewrite !find_snoc. rewrite Hemail. simpl.
  rewrite Hud_mail, String.eqb_refl. simpl.
  rewrite find_snoc, Hid. simpl. rewrite String.eqb_refl.
  unfold Storage.getRole, Storage.getRoles, Storage.getCompany,
    Storage.getCompanies in *.
  destruct (find _ (roles_json (files w))) as [r|]; [|congruence].
  destruct (find _ (companies_json (files w))) as [c|]; [|congruence].
  unfold AuthService.comparePassword. simpl.
  rewrite Hud_pw. unfold AuthService.hashPassword. rewrite Hbcrypt. simpl.
  rewrite Hud_act, Hactive. simpl.
  eexists _, _. split; [reflexivity|]. split; reflexivity.
Qed.

End Onboarding.

(** ** The figures of the reports page *)

Lemma filter_everything {A : Type} (f : A -> bool) (l : list A) :
  (forall x, In x l -> f x = true) -> filter f l = l.
Proof.
  induction l as [|a l IH]; simpl; intros H; [reflexivity|].
  rewrite (H a) by now left. f_equal. apply IH. intros x Hx. apply H. now right.
Qed.

(** X21. The figures above the report follow the status filter: with the
    filter set to paid, the paid revenue is the total revenue and the pending
    revenue is 0; with the filter set to pending, the pending revenue is the
    total revenue and the paid revenue is 0. *)
Theorem figures_under_status_filter
    (customerFilter : string) (invoices : list Invoice.t) :
  (ReportFigures.paidRevenue
     (Some (Reports.filteredInvoices customerFilter "paid" invoices))
   = ReportFigures.totalRevenue
       (Some (Reports.filteredInvoices customerFilter "paid" invoices))
   /\ ReportFigures.pendingRevenue
        (Some (Reports.filteredInvoices customerFilter "paid" invoices)) = 0)
  /\ (ReportFigures.pendingRevenue
        (Some (Reports.filteredInvoices customerFilter "pending" invoices))
      = ReportFigures.totalRevenue
          (Some (Reports.filteredInvoices customerFilter "pending" invoices))
      /\ ReportFigures.paidRevenue
           (Some (Reports.filteredInvoices customerFilter "pending" invoices))
         = 0).
Proof.
  assert (Hpaid : forall i,
             In i (Reports.filteredInvoices customerFilter "paid" invoices) ->
             Invoice.status i = paid).
  { intros i Hi. apply filter_In in Hi. destruct Hi as [_ Hi].
    apply andb_true_iff in Hi. destruct Hi as [_ Hi]. simpl in Hi.
    destruct (Invoice.status i); simpl in Hi; try discriminate. reflexivity. }
  assert (Hpending : forall i,
             In i (Reports.filteredInvoices customerFilter "pending" invoices) ->
             Invoice.status i = pending).
  { intros i Hi. apply filter_In in Hi. destruct Hi as [_ Hi].
    apply andb_true_iff in Hi. destruct Hi as [_ Hi]. simpl in Hi.
    destruct (Invoice.status i); simpl in Hi; try discriminate. reflexivity. }
  unfold ReportFigures.paidRevenue, ReportFigures.pendingRevenue,
    ReportFigures.totalRevenue.
  split; split.
  - rewrite filter_everything; [reflexivity|].
    intros i Hi. now rewrite (Hpaid i Hi).
  - rewrite filter_nothing; [reflexivity|].
    intros i Hi. now rewrite (Hpaid i Hi).
  - rewrite filter_everything; [reflexivity|].
    intros i Hi. now rewrite (Hpending i Hi).
  - rewrite filter_nothing; [reflexivity|].
    intros i Hi. now rewrite (Hpending i Hi).
Qed.

(** ** HTML escaping *)

(** X18. What [escapeHtml] returns has no angle bracket, double quote or
    single quote in it, whatever the text; and a text that has none of the
    five characters it replaces comes back unchanged. *)
Theorem escapeHtml_safe (text : string) :
  occurs "<" (EmailService.escapeHtml text) = false
  /\ occurs ">" (EmailService.escapeHtml text) = false
  /\ occurs "034" (EmailService.escapeHtml text) = false
  /\ occurs "'" (EmailService.escapeHtml text) = false
  /\ (occurs "&" text = false -> occurs "<" text = false ->
      occurs ">" text = false -> occurs "034" text = false ->
      occurs "'" text = false ->
      EmailService.escapeHtml text = text).
Proof.
  induction text as [|c text (IH1 & IH2 & IH3 & IH4 & IH5)]; simpl.
  - repeat split; reflexivity.
  - unfold EmailService.entity.
    destruct (Ascii.eqb c "&") eqn:Eamp; simpl;
      [rewrite IH1, IH2, IH3, IH4; repeat split; discriminate|].
    destruct (Ascii.eqb c "<") eqn:Elt; simpl;
      [rewrite IH1, IH2, IH3, IH4; repeat split; discriminate|].
    destruct (Ascii.eqb c ">") eqn:Egt; simpl;
      [rewrite IH1, IH2, IH3, IH4; repeat split; discriminate|].
    destruct (Ascii.eqb c "034") eqn:Equot; simpl;
      [rewrite IH1, IH2, IH3, IH4; repeat split; discriminate|].
    destruct (Ascii.eqb c "'") eqn:Eapos; simpl;
      [rewrite IH1, IH2, IH3, IH4; repeat split; discriminate|].
    rewrite Elt, Egt, Equot, Eapos, IH1, IH2, IH3, IH4. simpl.
    repeat split. intros H1 H2 H3 H4 H5. f_equal. now apply IH5.
Qed.

(** ** The authentication gate and the choice of a role *)

Section Gate.
Context {RT : Runtime} {BC : Bcrypt} {JW : Jwt}.

(** An answer of [authMiddleware] is the answer of the route. *)
Lemma refused_by_authMiddleware (h : Handler) (w : World) (req : Request)
    (res : Response) :
  In h [Routes.get_users; Routes.post_users; Routes.put_users_id;
        Routes.delete_users_id;
        Routes.get_products; Routes.post_products; Routes.put_products_id;
        Routes.delete_products_id;
        Routes.post_customers; Routes.delete_customers_id;
        Routes.get_invoices; Routes.get_invoices_id; Routes.post_invoices;
        Routes.put_invoices_id; Routes.delete_invoices_id;
        Routes.delete_companies_id] ->
  Routes.authMiddleware w req = inl res ->
  h w req = (w, res).
Proof.
  intros Hin Hauth. simpl in Hin.
  repeat (destruct Hin as [<-|Hin]); [..|contradiction];
    unfold Routes.get_users, Routes.post_users, Routes.put_users_id,
      Routes.delete_users_id, Routes.get_products, Routes.post_products,
      Routes.put_products_id, Routes.delete_products_id, Routes.post_customers,
      Routes.delete_customers_id, Routes.get_invoices, Routes.get_invoices_id,
      Routes.post_invoices, Routes.put_invoices_id, Routes.delete_invoices_id,
      Routes.delete_companies_id;
    cbn [route]; rewrite Hauth; reflexivity.
Qed.

(** X23. Sessions end after 24 hours: with a JWT library that keeps its
    promise, a request carrying a token [generateToken] issued 86400 seconds
    ago or more is answered 401 "Invalid token" by each of the sixteen
    routes listed, all behind [authMiddleware], and nothing is written. *)
Theorem expired_session_is_refused
    (h : Handler) (issuer : UserWithRole.t) (iat : Z) (w : World) (req : Request) :
  In h [Routes.get_users; Routes.post_users; Routes.put_users_id;
        Routes.delete_users_id;
        Routes.get_products; Routes.post_products; Routes.put_products_id;
        Routes.delete_products_id;
        Routes.post_customers; Routes.delete_customers_id;
        Routes.get_invoices; Routes.get_invoices_id; Routes.post_invoices;
        Routes.put_invoices_id; Routes.delete_invoices_id;
        Routes.delete_companies_id] ->
  Jwt_lawful JW ->
  headers_authorization req
  = Some ("Bearer " ++ AuthService.generateToken issuer iat) ->
  AuthService.generateToken issuer iat <> "" ->
  (iat + 86400 <= clock w)%Z ->
  h w req = (w, respond 401 (Message "Invalid token")).
Proof.
  intros Hin Hlaw Hheader Hnonempty Hclock.
  apply refused_by_authMiddleware; [exact Hin|].
  destruct (session_lifetime issuer iat w req Hlaw Hheader Hnonempty) as [_ Hexp].
  now apply Hexp.
Qed.

(** X24. Without bearer credentials none of the sixteen routes listed, all
    behind [authMiddleware], runs: when the Authorization header is missing,
    does not start with the word Bearer and a space, or carries an empty
    token, the answer is 401 "Authentication required" and nothing is
    written. *)
Theorem missing_credentials_are_refused
    (h : Handler) (w : World) (req : Request) :
  In h [Routes.get_users; Routes.post_users; Routes.put_users_id;
        Routes.delete_users_id;
        Routes.get_products; Routes.post_products; Routes.put_products_id;
        Routes.delete_products_id;
        Routes.post_customers; Routes.delete_customers_id;
        Routes.get_invoices; Routes.get_invoices_id; Routes.post_invoices;
        Routes.put_invoices_id; Routes.delete_invoices_id;
        Routes.delete_companies_id] ->
  (forall token, token <> "" ->
                 headers_authorization req <> Some ("Bearer " ++ token)) ->
  h w req = (w, respond 401 (Message "Authentication required")).
Proof.
  intros Hin Hheader.
  apply refused_by_authMiddleware; [exact Hin|].
  unfold Routes.authMiddleware.
  destruct (AuthService.extractTokenFromHeader (headers_authorization req))
    as [token|] eqn:Ht; [|reflexivity].
  destruct (String.eqb token "") eqn:Hempty; [reflexivity|].
  exfalso. apply String.eqb_neq in Hempty. apply (Hheader token Hempty).
  unfold AuthService.extractTokenFromHeader in Ht.
  destruct (headers_authorization req) as [hd|]; [|discriminate].
  destruct (String.eqb hd ""); [discriminate|].
  destruct (String.prefix "Bearer " hd) eqn:Hp; [|discriminate].
  inversion Ht as [Hsub]. f_equal.
  apply prefix_split in Hp. simpl String.length in Hp. exact Hp.
Qed.

(** X20. Which role a new user gets is decided in the browser only: the
    create-user modal offers a caller who is not Super Admin no role named
    Super Admin or Company Admin (and a Super Admin every role), while
    [POST /api/users] stores the [roleId] of the body for every caller it
    lets through. *)
Theorem role_choice_is_client_side
    (caller : option UserWithRole.t) (roles : list Role.t)
    (w w' : World) (req : Request) (x : User.t) (d : InsertUser.t) :
  (Client.isSuperAdmin caller = false ->
   forall role,
     In role roles ->
     (exists offered,
         Client.availableRoles caller (Some roles) = Some offered
         /\ In role offered)
     <-> Role.name role <> "Super Admin" /\ Role.name role <> "Company Admin")
  /\ (Client.isSuperAdmin caller = true ->
      Client.availableRoles caller (Some roles) = Some roles)
  /\ (Routes.post_users w req = (w', respond 201 (UserJson x)) ->
      insertUserSchema (body req) = Some d ->
      User.roleId x = InsertUser.roleId d).
Proof.
  split; [|split].
  - intros Hsuper role Hin. unfold Client.availableRoles. rewrite Hsuper. simpl.
    split.
    + intros (offered & Heq & Hoff). inversion Heq; subst; clear Heq.
      apply filter_In in Hoff. destruct Hoff as [_ Hoff].
      apply andb_true_iff in Hoff. destruct Hoff as [H1 H2].
      apply negb_true_iff in H1. apply negb_true_iff in H2.
      now rewrite !String.eqb_neq in *.
    + intros [H1 H2]. eexists. split; [reflexivity|].
      apply filter_In. split; [exact Hin|].
      apply String.eqb_neq in H1. apply String.eqb_neq in H2.
      now rewrite H1, H2.
  - intros Hsuper. unfold Client.availableRoles. rewrite Hsuper. simpl.
    f_equal. apply filter_everything. reflexivity.
  - intros Hpost Hparse.
    unfold Routes.post_users in Hpost. cbn [route] in Hpost.
    destruct (Routes.authMiddleware w req) as [r|req'] eqn:Hauth.
    { inversion Hpost; subst. apply authMiddleware_answer in Hauth.
      discriminate Hauth. }
    destruct (authMiddleware_next _ _ _ Hauth)
      as (token & payload & u & _ & _ & _ & ->).
    unfold Routes.requirePermission in Hpost. cbn [user set_user] in Hpost.
    destruct (Routes.permitted _ "users" canCreate); cbn [negb] in Hpost;
      [|discriminate].
    destruct (Routes.requireCompanyScope w (set_user u req)) as [r|req'] eqn:Hscope.
    { inversion Hpost; subst. apply requireCompanyScope_answer in Hscope.
      destruct Hscope as [Hs|Hs]; discriminate Hs. }
    apply requireCompanyScope_next in Hscope. subst req'.
    cbn [user set_user body] in Hpost. rewrite Hparse in Hpost.
    unfold Storage.createUser in Hpost. inversion Hpost; subst; clear Hpost.
    simpl. destruct (negb _); reflexivity.
Qed.

End Gate.

(** ** Instances of the further properties *)

Lemma login_token_authenticates_witness :
  exists u,
    Routes.authMiddleware Demo.later
      (Demo.request (Demo.tokenOf Demo.alice 1000) [] (JObj []))
    = inr (set_user u (Demo.request (Demo.tokenOf Demo.alice 1000) [] (JObj [])))
    /\ sessionUser u = sessionUser Demo.aliceLoaded
    /\ User.isActive (UserWithRole.user u) = true
    /\ Routes.get_auth_me Demo.later
         (Demo.request (Demo.tokenOf Demo.alice 1000) [] (JObj []))
       = inr (sessionUser Demo.aliceLoaded).
Proof.
  apply (login_token_authenticates Demo.world Demo.later
           (Demo.credentials "admin@acme.com" "password")
           (Demo.request (Demo.tokenOf Demo.alice 1000) [] (JObj []))
           (Demo.tokenOf Demo.alice 1000) (sessionUser Demo.aliceLoaded)).
  - exact demo_jwt_lawful.
  - vm_compute. reflexivity.
  - intros H. vm_compute in H. discriminate H.
  - reflexivity.
  - simpl. lia.
  - reflexivity.
Defined.

Lemma getUserWithRole_consistent_witness :
  User.id (UserWithRole.user Demo.bobLoaded) = "user-bob"
  /\ In (UserWithRole.user Demo.bobLoaded) (users_json (files Demo.world))
  /\ In (UserWithRole.role Demo.bobLoaded) (roles_json (files Demo.world))
  /\ Role.id (UserWithRole.role Demo.bobLoaded)
     = User.roleId (UserWithRole.user Demo.bobLoaded)
  /\ In (UserWithRole.company Demo.bobLoaded) (companies_json (files Demo.world))
  /\ Company.id (UserWithRole.company Demo.bobLoaded)
     = User.companyId (UserWithRole.user Demo.bobLoaded)
  /\ (forall p,
        In p (UserWithRole.permissions Demo.bobLoaded)
        <-> In p (permissions_json (files Demo.world))
            /\ Permission.roleId p
               = User.roleId (UserWithRole.user Demo.bobLoaded)).
Proof.
  apply (getUserWithRole_consistent "user-bob" Demo.world Demo.bobLoaded).
  reflexivity.
Defined.

Lemma get_users_scope_witness :
  fst (Routes.get_users Demo.world Demo.listing) = Demo.world
  /\ exists u l,
       Routes.authMiddleware Demo.world Demo.listing
       = inr (set_user u Demo.listing)
       /\ payload (snd (Routes.get_users Demo.world Demo.listing)) = UsersJson l
       /\ (Role.name (UserWithRole.role u) = "Super Admin" ->
           l = users_json (files Demo.world))
       /\ (Role.name (UserWithRole.role u) <> "Super Admin" ->
           User.companyId (UserWithRole.user u) <> "" ->
           forall x, In x l
                     <-> In x (users_json (files Demo.world))
                         /\ User.companyId x
                            = User.companyId (UserWithRole.user u))
       /\ (User.companyId (UserWithRole.user u) = "" ->
           l = users_json (files Demo.world)).
Proof.
  apply (get_users_scope Demo.world
           (fst (Routes.get_users Demo.world Demo.listing)) Demo.listing
           (snd (Routes.get_users Demo.world Demo.listing))).
  - vm_compute. reflexivity.
  - vm_compute. reflexivity.
Defined.

Lemma failed_requests_write_nothing_witness :
  fst (Routes.put_products_id Demo.world Demo.missing) = Demo.world.
Proof.
  apply (failed_requests_write_nothing Routes.put_products_id Demo.world
           (fst (Routes.put_products_id Demo.world Demo.missing)) Demo.missing
           (respond 404 (Message "Product not found"))).
  - simpl. tauto.
  - vm_compute. reflexivity.
  - simpl. lia.
Defined.

Lemma deleteInvoice_cascade_witness :
  Storage.getInvoice "inv-b1" (fst (Storage.deleteInvoice "inv-b1" Demo.world))
  = None
  /\ invoice_items_json (files (fst (Storage.deleteInvoice "inv-b1" Demo.world)))
     = [].
Proof.
  destruct (deleteInvoice_cascade "inv-b1" Demo.world
              (fst (Storage.deleteInvoice "inv-b1" Demo.world)) true)
    as (_ & _ & Hgone).
  - vm_compute. reflexivity.
  - split.
    + apply Hgone. reflexivity.
    + vm_compute. reflexivity.
Defined.

Lemma createProduct_round_trip_witness :
  Storage.getProduct "uuid-0" (fst (Storage.createProduct Demo.skates Demo.world))
  = Some (snd (Storage.createProduct Demo.skates Demo.world))
  /\ Storage.getProducts "comp-a"
       (fst (Storage.createProduct Demo.skates Demo.world))
     = [Demo.anvil; snd (Storage.createProduct Demo.skates Demo.world)]
  /\ Storage.getProducts "comp-b"
       (fst (Storage.createProduct Demo.skates Demo.world))
     = [Demo.reactor].
Proof.
  destruct (createProduct_round_trip Demo.skates Demo.world
              (fst (Storage.createProduct Demo.skates Demo.world))
              (snd (Storage.createProduct Demo.skates Demo.world)))
    as (Hfound & _ & Hown & Hother & _).
  - vm_compute. reflexivity.
  - vm_compute. reflexivity.
  - split; [exact Hfound|]. split; [exact Hown|].
    apply (Hother "comp-b"). discriminate.
Defined.

Lemma dashboard_ignores_other_tenants_witness :
  Storage.getDashboardStats "comp-a"
    (fst (Storage.createInvoice (Demo.order "comp-b" pending) [Demo.orderLine]
            Demo.world))
  = Storage.getDashboardStats "comp-a" Demo.world.
Proof.
  apply (dashboard_ignores_other_tenants "comp-a" (Demo.order "comp-b" pending)
           [Demo.orderLine] Demo.world).
  - discriminate.
  - vm_compute. reflexivity.
Defined.

Lemma dashboard_counts_new_pending_invoice_witness :
  DashboardStats.pendingInvoices
    (Storage.getDashboardStats "comp-b"
       (fst (Storage.createInvoice (Demo.order "comp-b" pending)
               [Demo.orderLine] Demo.world)))
  = 2%nat.
Proof.
  destruct (dashboard_counts_new_pending_invoice (Demo.order "comp-b" pending)
              [Demo.orderLine] Demo.world) as (Hpending & _).
  - reflexivity.
  - vm_compute. reflexivity.
  - exact Hpending.
Defined.

Lemma salesReportData_rows_witness :
  row_sums (Some [Demo.coyote; Demo.homer]) Demo.acmeInvoices "W. Coyote"
           Demo.paidUp.
Proof.
  apply (salesReportData_rows (Some [Demo.coyote; Demo.homer])
           Demo.acmeInvoices Demo.paidUp).
  vm_compute. left. reflexivity.
Defined.

Lemma create_modal_never_creates_witness :
  exists res,
    Routes.post_invoices Demo.world Demo.postForm = (Demo.world, res)
    /\ (status res = 400%nat \/ status res = 401%nat \/ status res = 403%nat).
Proof.
  apply (create_modal_never_creates Demo.orderForm Demo.world Demo.postForm).
  reflexivity.
Defined.

Lemma edit_modal_saves_header_only_witness :
  invoice_items_json
    (files (fst (Routes.put_invoices_id Demo.world Demo.saveForm)))
  = [Demo.globexItem]
  /\ exists old new,
       Storage.getInvoice "inv-b1" Demo.world = Some old
       /\ payload (snd (Routes.put_invoices_id Demo.world Demo.saveForm))
          = InvoiceJson new
       /\ Invoice.subtotal new = Invoice.subtotal old
       /\ Invoice.tax new = Invoice.tax old
       /\ Invoice.total new = Invoice.total old
       /\ Invoice.status new = Invoice.status old
       /\ Invoice.companyId new = Invoice.companyId old
       /\ Invoice.customerId new = "cust-b1"
       /\ Invoice.invoiceNumber new = "INV-002"
       /\ Invoice.date new = "2024-03-01"
       /\ Invoice.dueDate new = "2024-03-31".
Proof.
  destruct (edit_modal_saves_header_only Demo.orderForm Demo.world
              (fst (Routes.put_invoices_id Demo.world Demo.saveForm))
              Demo.saveForm
              (snd (Routes.put_invoices_id Demo.world Demo.saveForm)))
    as (Hitems & Hheader).
  - reflexivity.
  - vm_compute. reflexivity.
  - split; [exact Hitems|]. apply Hheader. vm_compute. reflexivity.
Defined.

Lemma deleteCompany_locks_out_users_witness :
  Storage.getCompany "comp-b" (fst (Storage.deleteCompany "comp-b" Demo.world))
  = None
  /\ Storage.getUserWithRole "user-carol"
       (fst (Storage.deleteCompany "comp-b" Demo.world))
     = None.
Proof.
  destruct (deleteCompany_locks_out_users "comp-b" Demo.world
              (fst (Storage.deleteCompany "comp-b" Demo.world)))
    as (Hgone & _ & Husers & _).
  - vm_compute. reflexivity.
  - split; [exact Hgone|].
    apply (Husers "user-carol" Demo.carol); reflexivity.
Defined.

Lemma users_routes_refuse_foreign_company_witness :
  exists res,
    Routes.post_users Demo.world Demo.foreignUser = (Demo.world, res)
    /\ status res = 403%nat.
Proof.
  apply (users_routes_refuse_foreign_company Routes.post_users Demo.world
           Demo.foreignUser Demo.aliceLoaded "comp-b").
  - simpl. tauto.
  - vm_compute. reflexivity.
  - discriminate.
  - reflexivity.
  - reflexivity.
  - discriminate.
  - discriminate.
Defined.

Lemma created_user_can_log_in_witness :
  User.password
    (User.mk "uuid-0" "comp-a" "role-user" "dave@acme.com" "$2a$s3cret" "Dave"
             true "T1000" "T1000")
  = AuthService.hashPassword "s3cret"
  /\ exists token su,
       Routes.post_auth_login (fst (Routes.post_users Demo.world Demo.newUser))
         (Demo.credentials "dave@acme.com" "s3cret")
       = (fst (Routes.post_users Demo.world Demo.newUser),
          respond 200 (Session token su))
       /\ su_id su = "uuid-0"
       /\ su_email su = "dave@acme.com".
Proof.
  apply (created_user_can_log_in Demo.world
           (fst (Routes.post_users Demo.world Demo.newUser)) Demo.newUser
           (Demo.credentials "dave@acme.com" "s3cret")
           (User.mk "uuid-0" "comp-a" "role-user" "dave@acme.com" "$2a$s3cret"
                    "Dave" true "T1000" "T1000")
           Demo.dave).
  - intros p. simpl. apply String.eqb_refl.
  - vm_compute. reflexivity.
  - vm_compute. reflexivity.
  - discriminate.
  - reflexivity.
  - vm_compute. reflexivity.
  - vm_compute. reflexivity.
  - vm_compute. discriminate.
  - vm_compute. discriminate.
  - reflexivity.
Defined.

Lemma deleteProduct_removes_witness :
  Storage.getProduct "prod-a1" (fst (Storage.deleteProduct "prod-a1" Demo.world))
  = None
  /\ Storage.getProduct "prod-b1"
       (fst (Storage.deleteProduct "prod-a1" Demo.world))
     = Some Demo.reactor.
Proof.
  destruct (deleteProduct_removes "prod-a1" Demo.world
              (fst (Storage.deleteProduct "prod-a1" Demo.world)) true)
    as (_ & _ & Hgone & Hkept).
  - vm_compute. reflexivity.
  - split; [exact Hgone|].
    rewrite (Hkept "prod-b1"); [reflexivity | discriminate].
Defined.

Lemma expired_session_is_refused_witness :
  Routes.get_products Demo.nextDay Demo.listing
  = (Demo.nextDay, respond 401 (Message "Invalid token")).
Proof.
  apply (expired_session_is_refused Routes.get_products Demo.aliceLoaded 0
           Demo.nextDay Demo.listing).
  - simpl. tauto.
  - exact demo_jwt_lawful.
  - vm_compute. reflexivity.
  - intros H. vm_compute in H. discriminate H.
  - simpl. lia.
Defined.

Lemma missing_credentials_are_refused_witness :
  Routes.get_products Demo.world (Demo.credentials "admin@acme.com" "password")
  = (Demo.world, respond 401 (Message "Authentication required")).
Proof.
  apply (missing_credentials_are_refused Routes.get_products Demo.world
           (Demo.credentials "admin@acme.com" "password")).
  - simpl. tauto.
  - intros token _. discriminate.
Defined.

Lemma list_routes_return_own_tenant_witness :
  exists u l,
    Routes.authMiddleware Demo.world Demo.listing
    = inr (set_user u Demo.listing)
    /\ payload (snd (Routes.get_products Demo.world Demo.listing))
       = ProductsJson l
    /\ forall p, In p l
                 <-> In p (products_json (files Demo.world))
                     /\ Product.companyId p
                        = User.companyId (UserWithRole.user u).
Proof.
  destruct (list_routes_return_own_tenant Demo.world Demo.listing) as (Hp & _).
  destruct (Hp (fst (Routes.get_products Demo.world Demo.listing))
               (snd (Routes.get_products Demo.world Demo.listing)))
    as (_ & H).
  - vm_compute. reflexivity.
  - vm_compute. reflexivity.
  - exact H.
Defined.

Lemma role_choice_is_client_side_witness :
  Client.availableRoles (Some Demo.aliceLoaded)
    (Some [Demo.superAdmin; Demo.companyAdmin; Demo.plainUser])
  = Some [Demo.plainUser]
  /\ User.roleId
       (User.mk "uuid-0" "comp-a" "role-user" "dave@acme.com" "$2a$s3cret"
                "Dave" true "T1000" "T1000")
     = InsertUser.roleId Demo.dave.
Proof.
  destruct (role_choice_is_client_side (Some Demo.aliceLoaded)
              [Demo.superAdmin; Demo.companyAdmin; Demo.plainUser]
              Demo.world (fst (Routes.post_users Demo.world Demo.newUser))
              Demo.newUser
              (User.mk "uuid-0" "comp-a" "role-user" "dave@acme.com"
                       "$2a$s3cret" "Dave" true "T1000" "T1000")
              Demo.dave) as (_ & _ & Hstored).
  split.
  - vm_compute. reflexivity.
  - apply Hstored; vm_compute; reflexivity.
Defined.
